(** * simple-notepad: the editor widget and the editor page of [main.py]

    A shallow embedding of the two classes that carry behaviour,
    [CodeEditor] (line-number gutter, current-line highlight) and
    [EditorInterface] (zoom, search, open and save), together with the
    parts of Python and of Qt that their methods call.

    Conventions.
    - A Python [int] is a [Z]; [//] is [Z.div] (both round towards minus
      infinity for a positive divisor).
    - A Python [str] holding document text is a list of Unicode code
      points ([list N]); file contents are [list byte]; file paths and
      decimal numerals are [string].
    - Qt coordinates of type [qreal] are rationals ([Q]); [QRect]
      coordinates are [Z].
    - A method that mutates [self] is a function returning the new
      object; a method that paints returns the list of draw calls. *)

From Stdlib Require Import ZArith NArith QArith Qround Lia Lqa String Ascii List Bool
  Sorted.
From Stdlib.Strings Require Import Byte.
From Equations Require Import Equations.
From stdpp Require Import gmap strings list.
Import ListNotations.

Local Open Scope Z_scope.

(* ===================================================================== *)
(** * Python built-ins used by the program *)
(* ===================================================================== *)

Module Py.

(** The character of a decimal digit [0 <= d < 10]. *)
Definition digit_char (d : Z) : ascii := ascii_of_N (48 + Z.to_N d).

(** Digits of a non-negative integer, most significant first, pushed in
    front of [acc]. *)
Equations? str_digits (n : Z) (acc : string) : string by wf (Z.to_nat n) lt :=
  str_digits n acc with Z_le_gt_dec 10 n := {
    | left _ := str_digits (n / 10) (String (digit_char (n mod 10)) acc);
    | right _ := String (digit_char n) acc }.
Proof.
  assert (n / 10 < n) by (apply Z.div_lt; lia).
  assert (0 <= n / 10) by (apply Z.div_pos; lia).
  lia.
Qed.

(** [str(n)] for an [int]. *)
Definition str (n : Z) : string :=
  if n <? 0 then String "-" (str_digits (- n) EmptyString)
  else str_digits n EmptyString.

(** [int(s)] restricted to unsigned decimal numerals: the value read
    left to right, [None] on any other character. *)
Definition digit_value (c : ascii) : option Z :=
  let k := Z.of_N (N_of_ascii c) in
  if (48 <=? k) && (k <=? 57) then Some (k - 48) else None.

Fixpoint int_digits (acc : Z) (s : string) : option Z :=
  match s with
  | EmptyString => Some acc
  | String c s' =>
      match digit_value c with
      | Some d => int_digits (10 * acc + d) s'
      | None => None
      end
  end.

Definition int_of_str (s : string) : option Z :=
  match s with
  | EmptyString => None
  | _ => int_digits 0 s
  end.

(** [int(x)] for a float: truncation towards zero. *)
Definition int_of_float (x : Q) : Z :=
  if Qle_bool 0 x then Qfloor x else Qceiling x.

(** ** The [utf-8] codec (strict error handler) *)

Local Open Scope N_scope.

Definition is_cont (b : N) : bool := (0x80 <=? b) && (b <=? 0xBF).
Definition is_surrogate (cp : N) : bool := (0xD800 <=? cp) && (cp <=? 0xDFFF).

(** The byte of a number below 256. *)
Definition byte_of (n : N) : byte :=
  match Byte.of_N n with Some b => b | None => x00 end.

(** [bytes.decode('utf-8')]: [None] stands for [UnicodeDecodeError].
    A sequence is rejected when it is truncated, has a bad
    continuation byte, is longer than its code point needs, or encodes
    a surrogate or a value above U+10FFFF. *)
Fixpoint utf8_decode (bs : list byte) : option (list N) :=
  match bs with
  | [] => Some []
  | b0 :: r0 =>
      let n0 := Byte.to_N b0 in
      if n0 <? 0x80 then option_map (cons n0) (utf8_decode r0)
      else if n0 <? 0xC0 then None
      else if n0 <? 0xE0 then
        match r0 with
        | b1 :: r1 =>
            let n1 := Byte.to_N b1 in
            let cp := (n0 - 0xC0) * 64 + (n1 - 0x80) in
            if is_cont n1 && (0x80 <=? cp)
            then option_map (cons cp) (utf8_decode r1) else None
        | _ => None
        end
      else if n0 <? 0xF0 then
        match r0 with
        | b1 :: b2 :: r2 =>
            let n1 := Byte.to_N b1 in
            let n2 := Byte.to_N b2 in
            let cp := (n0 - 0xE0) * 4096 + (n1 - 0x80) * 64 + (n2 - 0x80) in
            if is_cont n1 && is_cont n2 && (0x800 <=? cp) && negb (is_surrogate cp)
            then option_map (cons cp) (utf8_decode r2) else None
        | _ => None
        end
      else if n0 <? 0xF8 then
        match r0 with
        | b1 :: b2 :: b3 :: r3 =>
            let n1 := Byte.to_N b1 in
            let n2 := Byte.to_N b2 in
            let n3 := Byte.to_N b3 in
            let cp := (n0 - 0xF0) * 262144 + (n1 - 0x80) * 4096
                      + (n2 - 0x80) * 64 + (n3 - 0x80) in
            if is_cont n1 && is_cont n2 && is_cont n3
               && (0x10000 <=? cp) && (cp <=? 0x10FFFF)
            then option_map (cons cp) (utf8_decode r3) else None
        | _ => None
        end
      else None
  end.

(** The bytes of one code point; [None] stands for
    [UnicodeEncodeError] (a surrogate, or a value that is no code
    point). *)
Definition utf8_encode_char (cp : N) : option (list byte) :=
  if cp <? 0x80 then Some [byte_of cp]
  else if cp <? 0x800 then
    Some [byte_of (0xC0 + cp / 64); byte_of (0x80 + cp mod 64)]
  else if cp <? 0x10000 then
    if is_surrogate cp then None
    else Some [byte_of (0xE0 + cp / 4096); byte_of (0x80 + (cp / 64) mod 64);
               byte_of (0x80 + cp mod 64)]
  else if cp <=? 0x10FFFF then
    Some [byte_of (0xF0 + cp / 262144); byte_of (0x80 + (cp / 4096) mod 64);
          byte_of (0x80 + (cp / 64) mod 64); byte_of (0x80 + cp mod 64)]
  else None.

(** [str.encode('utf-8')]. *)
Fixpoint utf8_encode (s : list N) : option (list byte) :=
  match s with
  | [] => Some []
  | cp :: s' =>
      match utf8_encode_char cp, utf8_encode s' with
      | Some bs, Some bs' => Some (bs ++ bs')
      | _, _ => None
      end
  end.

(** ** Text-mode newline handling ([newline=None], the default) *)

Definition LF : N := 0x0A.
Definition CR : N := 0x0D.

(** [os.linesep]. *)
Inductive Linesep := PosixLF | WindowsCRLF.

Definition linesep_chars (l : Linesep) : list N :=
  match l with PosixLF => [LF] | WindowsCRLF => [CR; LF] end.

(** Reading: universal newlines, ["\r\n"] and a lone ["\r"] both
    become ["\n"]. *)
Fixpoint read_translate (s : list N) : list N :=
  match s with
  | [] => []
  | c :: s' =>
      if c =? CR then
        match s' with
        | c' :: s'' => if c' =? LF then LF :: read_translate s''
                       else LF :: read_translate s'
        | [] => [LF]
        end
      else c :: read_translate s'
  end.

(** Writing: every ["\n"] becomes [os.linesep]. *)
Fixpoint write_translate (l : Linesep) (s : list N) : list N :=
  match s with
  | [] => []
  | c :: s' =>
      (if c =? LF then linesep_chars l else [c]) ++ write_translate l s'
  end.

Local Close Scope N_scope.

(** ** Exceptions *)

(** The exceptions the modelled operations can raise, and one
    ([KeyboardInterrupt]) that is no subclass of [Exception]. *)
Inductive exn :=
| FileNotFoundError (path : string)
| PermissionError (path : string)
| IsADirectoryError (path : string)
| UnicodeDecodeError
| UnicodeEncodeError
| TypeError
| KeyboardInterrupt.

(** [isinstance(e, Exception)]. *)
Definition is_Exception (e : exn) : bool :=
  match e with
  | KeyboardInterrupt => false
  | _ => true
  end.

(** ** The file system seen through [open] *)

Inductive Node :=
| File (data : list byte) (readable writable : bool)
| Dir.

Inductive Mode := ModeR | ModeW.

(** The calls that reach the operating system, in order. *)
Inductive Syscall :=
| SysOpen (path : string) (mode : Mode)
| SysRead (path : string)
| SysWrite (path : string)
| SysClose (path : string).

(** [files] maps a path to what is there; [creatable] tells where
    [open(path, 'w')] may create a file that does not exist;
    [io_log] records every call made so far. *)
Record World := {
  files : gmap string Node;
  creatable : string -> bool;
  linesep : Linesep;
  io_log : list Syscall
}.

Definition log_call (c : Syscall) (w : World) : World :=
  {| files := files w; creatable := creatable w; linesep := linesep w;
     io_log := io_log w ++ [c] |}.

Definition set_file (path : string) (n : Node) (w : World) : World :=
  {| files := <[path := n]> (files w); creatable := creatable w;
     linesep := linesep w; io_log := io_log w |}.

(** [open(path, 'r', encoding='utf-8')]: the bytes of the file, or the
    [OSError] raised. *)
Definition open_r (path : string) (w : World) : (list byte + exn) * World :=
  let w := log_call (SysOpen path ModeR) w in
  match files w !! path with
  | None => (inr (FileNotFoundError path), w)
  | Some Dir => (inr (IsADirectoryError path), w)
  | Some (File data r _) =>
      if r then (inl data, w) else (inr (PermissionError path), w)
  end.

(** [f.read()] on a file opened by [open_r]: the whole content is
    decoded, then newlines are translated. *)
Definition read (path : string) (data : list byte) (w : World)
  : (list N + exn) * World :=
  let w := log_call (SysRead path) w in
  match utf8_decode data with
  | Some s => (inl (read_translate s), w)
  | None => (inr UnicodeDecodeError, w)
  end.

(** [open(path, 'w', encoding='utf-8')]: the file is created or
    truncated. *)
Definition open_w (path : string) (w : World) : (unit + exn) * World :=
  let w := log_call (SysOpen path ModeW) w in
  match files w !! path with
  | None =>
      if creatable w path then (inl tt, set_file path (File [] true true) w)
      else (inr (FileNotFoundError path), w)
  | Some Dir => (inr (IsADirectoryError path), w)
  | Some (File _ r wr) =>
      if wr then (inl tt, set_file path (File [] r wr) w)
      else (inr (PermissionError path), w)
  end.

(** [f.write(s)] on a file opened by [open_w]: newlines are translated,
    the text is encoded and the bytes become the content. *)
Definition write (path : string) (s : list N) (w : World) : (unit + exn) * World :=
  let w := log_call (SysWrite path) w in
  match utf8_encode (write_translate (linesep w) s) with
  | Some bs =>
      match files w !! path with
      | Some (File old r wr) => (inl tt, set_file path (File (old ++ bs) r wr) w)
      | _ => (inl tt, set_file path (File bs true true) w)
      end
  | None => (inr UnicodeEncodeError, w)
  end.

(** Leaving the [with] block. *)
Definition close (path : string) (w : World) : World :=
  log_call (SysClose path) w.

(** The bytes stored at [path], if it is a file. *)
Definition file_bytes (w : World) (path : string) : option (list byte) :=
  match files w !! path with
  | Some (File data _ _) => Some data
  | _ => None
  end.

(** Truthiness of a [str] and of a [str]-or-[None] attribute. *)
Definition truthy (s : string) : bool :=
  match s with EmptyString => false | _ => true end.
Definition truthy_opt (o : option string) : bool :=
  match o with Some s => truthy s | None => false end.

End Py.

(* ===================================================================== *)
(** * The Qt objects the editor reads and writes *)
(* ===================================================================== *)

Module Qt.

(** [QFontMetrics]: the advance of a character and the line height, in
    pixels. *)
Record QFontMetrics := {
  horizontalAdvance : ascii -> Z;
  height : Z
}.

(** [QRect] with integer coordinates.  [bottom()] is Qt's
    [top + height - 1]. *)
Record QRect := {
  rect_top : Z;
  rect_height : Z
}.
Definition rect_bottom (r : QRect) : Z := rect_top r + rect_height r - 1.

Inductive Theme := LIGHT | DARK.

(** [QColor(r, g, b, a)]. *)
Record QColor := { red : Z; green : Z; blue : Z; alpha : Z }.

(** [QTextBlock]: one line of the document as the layout holds it, its
    text, the height of its bounding rectangle and its visibility
    flag. *)
Record QTextBlock := {
  text : list N;
  boundingHeight : Q;
  isVisible : bool
}.

(** [QTextCursor]: anchor and position, both offsets into the
    document; the selection is the range between them. *)
Record QTextCursor := {
  anchor : nat;
  position : nat
}.

Definition hasSelection (c : QTextCursor) : bool :=
  negb (Nat.eqb (anchor c) (position c)).
Definition selectionStart (c : QTextCursor) : nat := Nat.min (anchor c) (position c).
Definition selectionEnd (c : QTextCursor) : nat := Nat.max (anchor c) (position c).

(** [QTextCursor.clearSelection()]: the anchor is moved to the
    position. *)
Definition clearSelection (c : QTextCursor) : QTextCursor :=
  {| anchor := position c; position := position c |}.

(** [QTextEdit.ExtraSelection]: a character format (background brush,
    the [FullWidthSelection] property) and a cursor. *)
Record ExtraSelection := {
  background : option QColor;
  fullWidthSelection : bool;
  cursor : QTextCursor
}.

(** A freshly constructed [ExtraSelection()]: empty format, null
    cursor. *)
Definition ExtraSelection_new : ExtraSelection :=
  {| background := None; fullWidthSelection := false;
     cursor := {| anchor := 0%nat; position := 0%nat |} |}.

Definition setBackground (c : QColor) (s : ExtraSelection) : ExtraSelection :=
  {| background := Some c; fullWidthSelection := fullWidthSelection s;
     cursor := cursor s |}.
Definition setFullWidthSelection (b : bool) (s : ExtraSelection) : ExtraSelection :=
  {| background := background s; fullWidthSelection := b; cursor := cursor s |}.
Definition setCursor (c : QTextCursor) (s : ExtraSelection) : ExtraSelection :=
  {| background := background s; fullWidthSelection := fullWidthSelection s;
     cursor := c |}.

(** [Qt.AlignmentFlag], the horizontal members. *)
Inductive AlignmentFlag := AlignLeft | AlignRight | AlignHCenter.

(** A [painter.drawText(x, y, w, h, flags, text)] call.  [for_block] is
    a ghost field: the position in the document of the block the paint
    loop was at when it issued the call. *)
Record DrawText := {
  for_block : nat;
  draw_x : Z;
  draw_y : Z;
  draw_w : Z;
  draw_h : Z;
  draw_flags : AlignmentFlag;
  draw_text : string
}.

(** What a paint routine sends to its [QPainter]. *)
Inductive PaintOp :=
| FillRect (r : QRect) (c : QColor)
| SetPen (c : QColor)
| SetFont (family : string) (pointSize : Z)
| DrawTextOp (d : DrawText).

(** ** The text document *)

Local Open Scope N_scope.

Definition PARAGRAPH_SEP : N := 0x2029.
Definition LINE_SEP : N := 0x2028.
Definition NBSP : N := 0xA0.
Definition FRAME_BEGIN : N := 0xFDD0.
Definition FRAME_END : N := 0xFDD1.
Definition SPACE : N := 0x20.

(** The characters that [QTextCursor::insertText] turns into a block
    boundary. *)
Definition is_block_break (c : N) : bool :=
  (c =? Py.LF) || (c =? PARAGRAPH_SEP) || (c =? FRAME_BEGIN)
  || (c =? FRAME_END) || (c =? Py.CR).

(** The texts of the blocks that inserting [s] into an empty document
    creates; ["\r\n"] counts as one boundary.  There is always at least
    one block. *)
Fixpoint split_blocks (s : list N) : list (list N) :=
  match s with
  | [] => [[]]
  | c :: s' =>
      if is_block_break c then
        match s' with
        | c' :: s'' =>
            if (c =? Py.CR) && (c' =? Py.LF) then [] :: split_blocks s''
            else [] :: split_blocks s'
        | [] => [[]; []]
        end
      else
        match split_blocks s' with
        | b :: bs => (c :: b) :: bs
        | [] => [[c]]
        end
  end.

(** The text buffer of the document: the blocks, separated by
    U+2029. *)
Fixpoint join_blocks (texts : list (list N)) : list N :=
  match texts with
  | [] => []
  | [b] => b
  | b :: rest => b ++ PARAGRAPH_SEP :: join_blocks rest
  end.

Definition plainText (doc : list QTextBlock) : list N :=
  join_blocks (map text doc).

(** [QTextDocument::toPlainText] replaces these characters in the
    buffer. *)
Definition to_plain_char (c : N) : N :=
  if (c =? FRAME_BEGIN) || (c =? FRAME_END) || (c =? PARAGRAPH_SEP)
     || (c =? LINE_SEP) then Py.LF
  else if c =? NBSP then SPACE
  else c.

Definition toPlainText (doc : list QTextBlock) : list N :=
  map to_plain_char (plainText doc).

(** [setPlainText]: the new blocks, laid out by [layout] and
    visible. *)
Definition setPlainText (layout : list N -> Q) (s : list N) : list QTextBlock :=
  map (fun t => {| text := t; boundingHeight := layout t; isVisible := true |})
      (split_blocks s).

(** ** Searching ([QTextDocument::find], default flags or
    [FindBackward]) *)

(** Case folding of the comparison, for the letters A to Z; every
    other character is compared by its code point. *)
Definition foldCase (c : N) : N :=
  if (0x41 <=? c) && (c <=? 0x5A) then c + 32 else c.

(** The block text as the search compares it: no-break spaces count as
    spaces. *)
Definition search_char (c : N) : N :=
  foldCase (if c =? NBSP then SPACE else c).

Fixpoint prefix_eqb (p s : list N) : bool :=
  match p, s with
  | [], _ => true
  | a :: p', b :: s' => (a =? b) && prefix_eqb p' s'
  | _ :: _, [] => false
  end.

(** Does [needle] match the document at offset [i]?  A match lies
    inside one block, so a needle holding a block separator matches
    nowhere; an empty needle matches nowhere. *)
Definition match_at (doc : list QTextBlock) (needle : list N) (i : nat) : bool :=
  match needle with
  | [] => false
  | _ =>
      forallb (fun c => negb (c =? PARAGRAPH_SEP)) needle
      && prefix_eqb (map foldCase needle)
                    (map search_char (drop i (plainText doc)))
  end.

Local Close Scope N_scope.

(** The cursor selecting the match found: forwards, the first match at
    or after the end of the selection; backwards, the last match that
    starts before the start of the selection. *)
Definition find (doc : list QTextBlock) (c : QTextCursor) (needle : list N)
           (backward : bool) : option QTextCursor :=
  let candidates :=
    if backward then rev (seq 0 (selectionStart c))
    else seq (selectionEnd c) (S (length (plainText doc)) - selectionEnd c) in
  match List.find (match_at doc needle) candidates with
  | Some i => Some {| anchor := i; position := (i + length needle)%nat |}
  | None => None
  end.

(** [QTextCursor.MoveOperation], the two members the program uses. *)
Inductive MoveOperation := Start | End.

Definition movePosition (doc : list QTextBlock) (op : MoveOperation)
  : QTextCursor :=
  match op with
  | Start => {| anchor := 0%nat; position := 0%nat |}
  | End => {| anchor := length (plainText doc); position := length (plainText doc) |}
  end.

End Qt.

(* ===================================================================== *)
(** * class CodeEditor(QPlainTextEdit) *)
(* ===================================================================== *)

Module CodeEditor.
Import Qt.

(** The calls to the text-search interface of the widget, in order
    (a ghost record, for statements about how often the document is
    searched). *)
Inductive EditorCall :=
| CallFind (needle : list N) (backward : bool) (from : QTextCursor)
| CallMoveCursor (op : MoveOperation).

(** The state of the widget that the methods below touch.
    [document] is the ordered sequence of blocks; [firstVisibleBlock]
    is the number of the block at the top of the viewport and
    [firstBlockTop] is
    [blockBoundingGeometry(firstVisibleBlock()).translated(contentOffset()).top()];
    [lineNumberArea_width] is [self.lineNumberArea.width()];
    [layoutHeight] is the height the document layout gives to a new
    block of a given text. *)
Record t := {
  document : list QTextBlock;
  fontMetrics : QFontMetrics;
  fontPointSize : Z;
  firstVisibleBlock : nat;
  firstBlockTop : Q;
  lineNumberArea_width : Z;
  viewportMargin_left : Z;
  isReadOnly : bool;
  textCursor : QTextCursor;
  extraSelections : list ExtraSelection;
  layoutHeight : list N -> Q;
  call_log : list EditorCall
}.

Definition set_document (d : list QTextBlock) (self : t) : t :=
  {| document := d; fontMetrics := fontMetrics self;
     fontPointSize := fontPointSize self;
     firstVisibleBlock := firstVisibleBlock self;
     firstBlockTop := firstBlockTop self;
     lineNumberArea_width := lineNumberArea_width self;
     viewportMargin_left := viewportMargin_left self;
     isReadOnly := isReadOnly self; textCursor := textCursor self;
     extraSelections := extraSelections self;
     layoutHeight := layoutHeight self; call_log := call_log self |}.

Definition setTextCursor (c : QTextCursor) (self : t) : t :=
  {| document := document self; fontMetrics := fontMetrics self;
     fontPointSize := fontPointSize self;
     firstVisibleBlock := firstVisibleBlock self;
     firstBlockTop := firstBlockTop self;
     lineNumberArea_width := lineNumberArea_width self;
     viewportMargin_left := viewportMargin_left self;
     isReadOnly := isReadOnly self; textCursor := c;
     extraSelections := extraSelections self;
     layoutHeight := layoutHeight self; call_log := call_log self |}.

Definition setExtraSelections (l : list ExtraSelection) (self : t) : t :=
  {| document := document self; fontMetrics := fontMetrics self;
     fontPointSize := fontPointSize self;
     firstVisibleBlock := firstVisibleBlock self;
     firstBlockTop := firstBlockTop self;
     lineNumberArea_width := lineNumberArea_width self;
     viewportMargin_left := viewportMargin_left self;
     isReadOnly := isReadOnly self; textCursor := textCursor self;
     extraSelections := l;
     layoutHeight := layoutHeight self; call_log := call_log self |}.

Definition setViewportMargins (left : Z) (self : t) : t :=
  {| document := document self; fontMetrics := fontMetrics self;
     fontPointSize := fontPointSize self;
     firstVisibleBlock := firstVisibleBlock self;
     firstBlockTop := firstBlockTop self;
     lineNumberArea_width := lineNumberArea_width self;
     viewportMargin_left := left;
     isReadOnly := isReadOnly self; textCursor := textCursor self;
     extraSelections := extraSelections self;
     layoutHeight := layoutHeight self; call_log := call_log self |}.

Definition set_fontPointSize (p : Z) (self : t) : t :=
  {| document := document self; fontMetrics := fontMetrics self;
     fontPointSize := p;
     firstVisibleBlock := firstVisibleBlock self;
     firstBlockTop := firstBlockTop self;
     lineNumberArea_width := lineNumberArea_width self;
     viewportMargin_left := viewportMargin_left self;
     isReadOnly := isReadOnly self; textCursor := textCursor self;
     extraSelections := extraSelections self;
     layoutHeight := layoutHeight self; call_log := call_log self |}.

Definition set_lineNumberArea_width (w : Z) (self : t) : t :=
  {| document := document self; fontMetrics := fontMetrics self;
     fontPointSize := fontPointSize self;
     firstVisibleBlock := firstVisibleBlock self;
     firstBlockTop := firstBlockTop self;
     lineNumberArea_width := w;
     viewportMargin_left := viewportMargin_left self;
     isReadOnly := isReadOnly self; textCursor := textCursor self;
     extraSelections := extraSelections self;
     layoutHeight := layoutHeight self; call_log := call_log self |}.

Definition log_call (c : EditorCall) (self : t) : t :=
  {| document := document self; fontMetrics := fontMetrics self;
     fontPointSize := fontPointSize self;
     firstVisibleBlock := firstVisibleBlock self;
     firstBlockTop := firstBlockTop self;
     lineNumberArea_width := lineNumberArea_width self;
     viewportMargin_left := viewportMargin_left self;
     isReadOnly := isReadOnly self; textCursor := textCursor self;
     extraSelections := extraSelections self;
     layoutHeight := layoutHeight self; call_log := call_log self ++ [c] |}.

(** ** Inherited from [QPlainTextEdit] *)

(** [self.blockCount()]. *)
Definition blockCount (self : t) : Z := Z.of_nat (length (document self)).

(** [self.toPlainText()]. *)
Definition toPlainText (self : t) : list N := Qt.toPlainText (document self).

(** [self.setPlainText(s)]: the document is replaced and the cursor
    goes to its start. *)
Definition setPlainText (s : list N) (self : t) : t :=
  setTextCursor {| anchor := 0%nat; position := 0%nat |}
    (set_document (Qt.setPlainText (layoutHeight self) s) self).

(** [self.find(text)] and [self.find(text, QTextEdit.FindBackward)]:
    on a match the cursor selects it and the answer is [True];
    otherwise the cursor stays and the answer is [False]. *)
Definition find (needle : list N) (backward : bool) (self : t) : bool * t :=
  let self := log_call (CallFind needle backward (textCursor self)) self in
  match Qt.find (document self) (textCursor self) needle backward with
  | Some c => (true, setTextCursor c self)
  | None => (false, self)
  end.

(** [self.moveCursor(op)]. *)
Definition moveCursor (op : MoveOperation) (self : t) : t :=
  let self := log_call (CallMoveCursor op) self in
  setTextCursor (movePosition (document self) op) self.

(** [self.zoomIn(range)]; [zoomOut(range)] is [zoomIn(-range)].  The
    font is left alone when the new point size would not be
    positive. *)
Definition zoomIn (range : Z) (self : t) : t :=
  if range =? 0 then self
  else
    let newSize := fontPointSize self + range in
    if newSize <=? 0 then self else set_fontPointSize newSize self.

Definition zoomOut (range : Z) (self : t) : t := zoomIn (- range) self.

(** ** Methods of [CodeEditor] *)

(** The loop of [lineNumberAreaWidth]:
    [while max_val >= 10: max_val //= 10; digits += 1]. *)
Equations? count_digits (max_val digits : Z) : Z by wf (Z.to_nat max_val) lt :=
  count_digits max_val digits with Z_le_gt_dec 10 max_val := {
    | left _ := count_digits (max_val / 10) (digits + 1);
    | right _ := digits }.
Proof.
  assert (max_val / 10 < max_val) by (apply Z.div_lt; lia).
  assert (0 <= max_val / 10) by (apply Z.div_pos; lia).
  lia.
Qed.

(** [lineNumberAreaWidth], as a function of the two values it reads
    from the widget: the font metrics and the block count. *)
Definition lineNumberAreaWidth_of (fm : QFontMetrics) (block_count : Z) : Z :=
  let digits := 1 in
  let max_val := Z.max 1 block_count in
  let digits := count_digits max_val digits in
  let space := 24 + horizontalAdvance fm "9"%char * digits in
  space.

Definition lineNumberAreaWidth (self : t) : Z :=
  lineNumberAreaWidth_of (fontMetrics self) (blockCount self).

Definition updateLineNumberAreaWidth (self : t) : t :=
  setViewportMargins (lineNumberAreaWidth self) self.

(** [resizeEvent]: the gutter is given the geometry
    [QRect(cr.left(), cr.top(), self.lineNumberAreaWidth(), cr.height())];
    of the gutter's geometry the state keeps the width. *)
Definition resizeEvent (self : t) : t :=
  set_lineNumberArea_width (lineNumberAreaWidth self) self.

(** A [QTextBlock] handle while iterating is the list of the blocks
    from it to the end of the document: [isValid()] is "not empty",
    [next()] is the tail. *)
Definition blockBoundingRect_height (block : list QTextBlock) : Q :=
  match block with
  | b :: _ => boundingHeight b
  | [] => 0%Q
  end.

(** [block.blockNumber()] of the handle that [drop n (document self)]
    stands for. *)
Definition blockNumber_of (self : t) (n : nat) : Z :=
  if (n <? length (document self))%nat then Z.of_nat n else -1.

(** The [while] loop of [lineNumberAreaPaintEvent].  [index] is the
    ghost position of [block] in the document; the loop itself only
    uses [blockNumber]. *)
Fixpoint paint_loop (self : t) (rect : QRect) (block : list QTextBlock)
         (index : nat) (blockNumber : Z) (top bottom : Q) : list PaintOp :=
  match block with
  | [] => []
  | b :: next =>
      if Qle_bool top (inject_Z (rect_bottom rect)) then
        (if isVisible b && Qle_bool (inject_Z (rect_top rect)) bottom then
           let number := Py.str (blockNumber + 1) in
           [DrawTextOp {| for_block := index; draw_x := 0;
                          draw_y := Py.int_of_float top;
                          draw_w := lineNumberArea_width self - 8;
                          draw_h := height (fontMetrics self);
                          draw_flags := AlignRight;
                          draw_text := number |}]
         else [])
        ++ (let block := next in
            let top := bottom in
            let bottom := (top + blockBoundingRect_height block)%Q in
            paint_loop self rect block (S index) (blockNumber + 1) top bottom)
      else []
  end.

Definition lineNumberAreaPaintEvent (theme : Theme) (rect : QRect) (self : t)
  : list PaintOp :=
  let is_dark := match theme with DARK => true | LIGHT => false end in
  let bg_color := if is_dark then {| red := 32; green := 32; blue := 32; alpha := 255 |}
                  else {| red := 248; green := 248; blue := 248; alpha := 255 |} in
  let text_color := if is_dark then {| red := 100; green := 100; blue := 100; alpha := 255 |}
                    else {| red := 160; green := 160; blue := 160; alpha := 255 |} in
  let block := drop (firstVisibleBlock self) (document self) in
  let blockNumber := blockNumber_of self (firstVisibleBlock self) in
  let top := firstBlockTop self in
  let bottom := (top + blockBoundingRect_height block)%Q in
  [FillRect rect bg_color; SetPen text_color; SetFont "Consolas" 10]
  ++ paint_loop self rect block (firstVisibleBlock self) blockNumber top bottom.

(** The draw-text calls among the paint operations. *)
Fixpoint drawn (ops : list PaintOp) : list DrawText :=
  match ops with
  | [] => []
  | DrawTextOp d :: ops' => d :: drawn ops'
  | _ :: ops' => drawn ops'
  end.

Definition highlightCurrentLine (theme : Theme) (self : t) : t :=
  let extraSelections := [] in
  let extraSelections :=
    if negb (isReadOnly self) then
      let selection := ExtraSelection_new in
      let is_dark := match theme with DARK => true | LIGHT => false end in
      let line_color :=
        if is_dark then {| red := 255; green := 255; blue := 255; alpha := 10 |}
        else {| red := 0; green := 0; blue := 0; alpha := 8 |} in
      let selection := setBackground line_color selection in
      let selection := setFullWidthSelection true selection in
      let selection := setCursor (textCursor self) selection in
      let selection := setCursor (clearSelection (cursor selection)) selection in
      extraSelections ++ [selection]
    else extraSelections in
  setExtraSelections extraSelections self.

End CodeEditor.

(* ===================================================================== *)
(** * Statements that may raise: state with exceptions *)
(* ===================================================================== *)

Module Exc.

(** A computation over a state [S]: it ends with a value or with a raised
    exception; either way the state changes made so far stay. *)
Definition M (S A : Type) : Type := S -> (A + Py.exn) * S.

Definition ret {S A} (a : A) : M S A := fun s => (inl a, s).

Definition bind {S A B} (m : M S A) (k : A -> M S B) : M S B :=
  fun s =>
    match m s with
    | (inl a, s') => k a s'
    | (inr e, s') => (inr e, s')
    end.

Definition raise {S A} (e : Py.exn) : M S A := fun s => (inr e, s).

(** [try: body / except Exception as e: handler(e)]. *)
Definition try_except {S A} (body : M S A) (handler : Py.exn -> M S A) : M S A :=
  fun s =>
    match body s with
    | (inl a, s') => (inl a, s')
    | (inr e, s') =>
        if Py.is_Exception e then handler e s' else (inr e, s')
    end.

(** [try: body / finally: cleanup]. *)
Definition finally {S A} (body : M S A) (cleanup : S -> S) : M S A :=
  fun s => let '(r, s') := body s in (r, cleanup s').

Definition get {S} : M S S := fun s => (inl s, s).
Definition modify {S} (f : S -> S) : M S unit := fun s => (inl tt, f s).

#[global] Instance M_ret {S} : MRet (M S) := @ret S.
#[global] Instance M_bind {S} : MBind (M S) := fun A B k m => bind m k.

End Exc.

(* ===================================================================== *)
(** * class EditorInterface(QWidget) *)
(* ===================================================================== *)

Module EditorInterface.
Import Qt Exc.

Inductive InfoBarKind := Success | Error | Warning.

(** The text of a notification.  In the source these are
    ["新規ファイルを作成しました"], [f"開きました: {path}"],
    [f"保存しました: {self.currentFile}"], [str(e)] and
    [f"'{text}' は見つかりませんでした。"]. *)
Inductive Content :=
| NewFileCreated
| Opened (path : string)
| Saved (path : option string)
| ExceptionText (e : Py.exn)
| NotFound (text : list N).

(** An [InfoBar] shown on the page. *)
Record InfoBar := {
  kind : InfoBarKind;
  content : Content
}.

(** The attributes of the page that its methods read or write:
    [searchEdit] and [lblZoom] hold the text of those two widgets,
    [infoBars] the notifications shown so far, oldest first. *)
Record t := {
  editor : CodeEditor.t;
  searchEdit : list N;
  lblZoom : string;
  currentFile : option string;
  zoomLevel : Z;
  infoBars : list InfoBar
}.

Definition set_editor (e : CodeEditor.t) (self : t) : t :=
  {| editor := e; searchEdit := searchEdit self; lblZoom := lblZoom self;
     currentFile := currentFile self; zoomLevel := zoomLevel self;
     infoBars := infoBars self |}.

Definition set_lblZoom (s : string) (self : t) : t :=
  {| editor := editor self; searchEdit := searchEdit self; lblZoom := s;
     currentFile := currentFile self; zoomLevel := zoomLevel self;
     infoBars := infoBars self |}.

Definition set_currentFile (f : option string) (self : t) : t :=
  {| editor := editor self; searchEdit := searchEdit self; lblZoom := lblZoom self;
     currentFile := f; zoomLevel := zoomLevel self;
     infoBars := infoBars self |}.

Definition set_zoomLevel (z : Z) (self : t) : t :=
  {| editor := editor self; searchEdit := searchEdit self; lblZoom := lblZoom self;
     currentFile := currentFile self; zoomLevel := z;
     infoBars := infoBars self |}.

Definition show (b : InfoBar) (self : t) : t :=
  {| editor := editor self; searchEdit := searchEdit self; lblZoom := lblZoom self;
     currentFile := currentFile self; zoomLevel := zoomLevel self;
     infoBars := infoBars self ++ [b] |}.

Definition showSuccess (msg : Content) (self : t) : t :=
  show {| kind := Success; content := msg |} self.

Definition showError (msg : Content) (self : t) : t :=
  show {| kind := Error; content := msg |} self.

(** ** Zoom *)

(** [f"{self.zoomLevel}%"]. *)
Definition zoom_text (z : Z) : string := (Py.str z ++ "%")%string.

Definition zoomIn (self : t) : t :=
  let self := set_editor (CodeEditor.zoomIn 1 (editor self)) self in
  let self := set_zoomLevel (zoomLevel self + 10) self in
  set_lblZoom (zoom_text (zoomLevel self)) self.

Definition zoomOut (self : t) : t :=
  let self := set_editor (CodeEditor.zoomOut 1 (editor self)) self in
  let self := set_zoomLevel (Z.max 10 (zoomLevel self - 10)) self in
  set_lblZoom (zoom_text (zoomLevel self)) self.

(** ** Search *)

(** Truthiness of the search text: [not text] holds for the empty
    string. *)
Definition nonempty (s : list N) : bool :=
  match s with [] => false | _ => true end.

Definition searchNext (self : t) : t :=
  let text := searchEdit self in
  if negb (nonempty text) then self
  else
    let '(found, e) := CodeEditor.find text false (editor self) in
    let self := set_editor e self in
    if negb found then
      let self := set_editor (CodeEditor.moveCursor Start (editor self)) self in
      let '(found, e) := CodeEditor.find text false (editor self) in
      let self := set_editor e self in
      if negb found then
        show {| kind := Warning; content := NotFound text |} self
      else self
    else self.

Definition searchPrev (self : t) : t :=
  let text := searchEdit self in
  if negb (nonempty text) then self
  else
    let '(found, e) := CodeEditor.find text true (editor self) in
    let self := set_editor e self in
    if negb found then
      let self := set_editor (CodeEditor.moveCursor End (editor self)) self in
      let '(found, e) := CodeEditor.find text true (editor self) in
      let self := set_editor e self in
      self
    else self.

(** ** Files *)

(** What the file operations run against: the page and the file
    system. *)
Record App := {
  page : t;
  os : Py.World
}.

(** A statement that changes [self]. *)
Definition on_page (f : t -> t) : M App unit :=
  modify (fun a => {| page := f (page a); os := os a |}).

(** A call into the file system. *)
Definition on_os {A} (f : Py.World -> (A + Py.exn) * Py.World) : M App A :=
  fun a => let '(r, w) := f (os a) in (r, {| page := page a; os := w |}).

Definition os_step (f : Py.World -> Py.World) (a : App) : App :=
  {| page := page a; os := f (os a) |}.

Definition newFile (self : t) : t :=
  let self :=
    set_editor (CodeEditor.setPlainText [] (editor self)) self in
  let self := set_currentFile None self in
  showSuccess NewFileCreated self.

(** [openFile]; [chosen] is the path the file dialog returns, empty when
    the dialog is cancelled. *)
Definition openFile (chosen : string) : M App unit :=
  let path := chosen in
  if Py.truthy path then
    try_except
      (f ← on_os (Py.open_r path);
       finally
         (s ← on_os (Py.read path f);
          on_page (fun self =>
                     set_editor (CodeEditor.setPlainText s (editor self)) self))
         (os_step (Py.close path));;
       on_page (set_currentFile (Some path));;
       on_page (showSuccess (Opened path)))
      (fun e => on_page (showError (ExceptionText e)))
  else mret tt.

(** [open(self.currentFile, 'w', encoding='utf-8')]; a path that is
    [None] is a [TypeError]. *)
Definition open_currentFile_w (self : t) : M App string :=
  match currentFile self with
  | Some path => on_os (Py.open_w path);; mret path
  | None => raise Py.TypeError
  end.

(** [saveFile]; [chosen] is the path the save dialog returns if it is
    shown. *)
Definition saveFile (chosen : string) : M App unit :=
  self ← get;
  proceed ←
    (if negb (Py.truthy_opt (currentFile (page self))) then
       let path := chosen in
       if negb (Py.truthy path) then mret false
       else on_page (set_currentFile (Some path));; mret true
     else mret true);
  if (proceed : bool) then
    try_except
      (self ← get;
       f ← open_currentFile_w (page self);
       finally
         (self ← get;
          on_os (Py.write f (CodeEditor.toPlainText (editor (page self)))))
         (os_step (Py.close f));;
       self ← get;
       on_page (showSuccess (Saved (currentFile (page self)))))
      (fun e => on_page (showError (ExceptionText e)))
  else mret tt.

End EditorInterface.

(* ===================================================================== *)
(** * Notions the statements use *)
(* ===================================================================== *)

Module Spec.
Import Qt.

(** A number [m >= 1] has [k] decimal digits when
    [10^(k-1) <= m < 10^k]. *)
Definition has_digits (m k : Z) : Prop :=
  1 <= k /\ 10 ^ (k - 1) <= m < 10 ^ k.

(** The number of characters of the decimal numeral of [m]:
    [len(str(m))]. *)
Definition numeral_length (m : Z) : Z := Z.of_nat (String.length (Py.str m)).

(** The advance of a text: the sum of the advances of its characters. *)
Fixpoint text_advance (fm : QFontMetrics) (s : string) : Z :=
  match s with
  | EmptyString => 0
  | String c s' => horizontalAdvance fm c + text_advance fm s'
  end.

Definition is_digit (c : ascii) : bool :=
  match Py.digit_value c with Some _ => true | None => false end.

(** No decimal digit is wider than the glyph '9', and none has a negative
    advance. *)
Definition digits_fit (fm : QFontMetrics) : Prop :=
  forall c, is_digit c = true ->
            0 <= horizontalAdvance fm c <= horizontalAdvance fm "9"%char.

End Spec.

(* ===================================================================== *)
(** * Notions the statements about the editor use *)
(* ===================================================================== *)

Module View.
Import Qt.

(** ** Geometry of the laid-out blocks

    The blocks are stacked: the top edge of a block is the bottom edge of
    the block before it.  [top_edge self n] is the top edge, in viewport
    coordinates, of the [n]-th block counted from the first visible one. *)

Definition height_at (self : CodeEditor.t) (i : nat) : Q :=
  match CodeEditor.document self !! i with
  | Some b => boundingHeight b
  | None => 0%Q
  end.

Fixpoint top_edge (self : CodeEditor.t) (n : nat) : Q :=
  match n with
  | O => CodeEditor.firstBlockTop self
  | S n' =>
      (top_edge self n'
       + height_at self (CodeEditor.firstVisibleBlock self + n'))%Q
  end.

Definition bottom_edge (self : CodeEditor.t) (n : nat) : Q :=
  (top_edge self n + height_at self (CodeEditor.firstVisibleBlock self + n))%Q.

(** The call that draws the number of the [n]-th block counted from the
    first visible one: the numeral of its 1-based position in the
    document, at the block's top edge, right-aligned in a box whose right
    side is 8 pixels left of the gutter's. *)
Definition number_drawn (self : CodeEditor.t) (n : nat) : DrawText :=
  {| for_block := CodeEditor.firstVisibleBlock self + n;
     draw_x := 0;
     draw_y := Py.int_of_float (top_edge self n);
     draw_w := CodeEditor.lineNumberArea_width self - 8;
     draw_h := height (CodeEditor.fontMetrics self);
     draw_flags := AlignRight;
     draw_text :=
       Py.str (Z.of_nat (CodeEditor.firstVisibleBlock self + n) + 1) |}.

(** The text of a draw-text call is wider than its box, measured with
    the metrics [paint] of the font the painter draws with.  The text is
    right-aligned in a box that starts at the left edge of the gutter, so
    what does not fit falls off the gutter on the left and is not
    shown. *)
Definition clipped (paint : QFontMetrics) (d : DrawText) : bool :=
  draw_w d <? Spec.text_advance paint (draw_text d).

(** When the paint routine, repainting [rect], draws that block: the
    block exists and is visible, its bottom edge is at or below the top
    of [rect], and no block from the first visible one up to it has its
    top edge below the bottom of [rect]. *)
Definition paint_condition (self : CodeEditor.t) (rect : QRect) (n : nat) : Prop :=
  (exists b, CodeEditor.document self !! (CodeEditor.firstVisibleBlock self + n)%nat
             = Some b /\ isVisible b = true)
  /\ (inject_Z (rect_top rect) <= bottom_edge self n)%Q
  /\ (forall m, (m <= n)%nat ->
                (top_edge self m <= inject_Z (rect_bottom rect))%Q).

(** ** Blocks and cursor positions *)

(** [block.position()] of block [i]: every block before it takes its
    text and one separator. *)
Fixpoint block_position (doc : list QTextBlock) (i : nat) : nat :=
  match i, doc with
  | S i', b :: doc' => (length (text b) + 1 + block_position doc' i')%nat
  | _, _ => 0%nat
  end.

(** [block.contains(pos)] for block [i]:
    [position() <= pos < position() + length()], false when there is no
    block [i]. *)
Definition block_contains (doc : list QTextBlock) (i pos : nat) : bool :=
  match doc !! i with
  | Some b =>
      (block_position doc i <=? pos)%nat
      && (pos <? block_position doc i + (length (text b) + 1))%nat
  | None => false
  end.

(** Whether the editor's paint event decorates block [i] for the extra
    selection [sel]: the block overlaps a non-empty selection, or the
    selection is a full-width one without selected text whose position
    lies in the block. *)
Definition decorates (doc : list QTextBlock) (sel : ExtraSelection) (i : nat) : bool :=
  match doc !! i with
  | Some b =>
      let blpos := Z.of_nat (block_position doc i) in
      let bllen := Z.of_nat (length (text b) + 1) in
      let selStart := Z.of_nat (selectionStart (cursor sel)) - blpos in
      let selEnd := Z.of_nat (selectionEnd (cursor sel)) - blpos in
      ((selStart <? bllen) && (0 <? selEnd) && (selStart <? selEnd))
      || (negb (hasSelection (cursor sel)) && fullWidthSelection sel
          && block_contains doc i (position (cursor sel)))
  | None => false
  end.

(** The selection [highlightCurrentLine] builds for a caret. *)
Definition current_line_selection (theme : Theme) (caret : QTextCursor)
  : ExtraSelection :=
  {| background :=
       Some (match theme with
             | DARK => {| red := 255; green := 255; blue := 255; alpha := 10 |}
             | LIGHT => {| red := 0; green := 0; blue := 0; alpha := 8 |}
             end);
     fullWidthSelection := true;
     cursor := {| anchor := position caret; position := position caret |} |}.

(** ** Search *)

(** The search text occurs nowhere in the document: no offset
    matches. *)
Definition absent (doc : list QTextBlock) (needle : list N) : Prop :=
  forall i, match_at doc needle i = false.

(** The notification of a failed search. *)
Definition not_found_warning (needle : list N) : EditorInterface.InfoBar :=
  {| EditorInterface.kind := EditorInterface.Warning;
     EditorInterface.content := EditorInterface.NotFound needle |}.

(** ** Files *)

(** What [open(path, 'r', encoding='utf-8').read()] gives in the world
    [w]: the text, or the exception raised by the open or by the
    read. *)
Definition slurp (path : string) (w : Py.World) : list N + Py.exn :=
  match Py.open_r path w with
  | (inl data, w1) => fst (Py.read path data w1)
  | (inr e, _) => inr e
  end.

(** What opening [path] for writing and writing [s] gives: nothing, or
    the exception raised by the open or by the write. *)
Definition spit (path : string) (s : list N) (w : Py.World) : unit + Py.exn :=
  match Py.open_w path w with
  | (inl _, w1) => fst (Py.write path s w1)
  | (inr e, _) => inr e
  end.

(** The path [saveFile] writes to: the current file if there is one,
    else the path chosen in the dialog, if any. *)
Definition save_target (self : EditorInterface.t) (chosen : string)
  : option string :=
  if Py.truthy_opt (EditorInterface.currentFile self)
  then EditorInterface.currentFile self
  else if Py.truthy chosen then Some chosen else None.

(** The page when [saveFile] reaches its [try]: the chosen path has
    become the current file if there was none. *)
Definition page_saving (self : EditorInterface.t) (chosen : string)
  : EditorInterface.t :=
  if Py.truthy_opt (EditorInterface.currentFile self) then self
  else EditorInterface.set_currentFile (Some chosen) self.

(** The number of [open] calls in a log. *)
Definition opens (log : list Py.Syscall) : nat :=
  length (List.filter (fun c => match c with Py.SysOpen _ _ => true | _ => false end) log).

(** The notification that shows an exception. *)
Definition error_bar (e : Py.exn) : EditorInterface.InfoBar :=
  {| EditorInterface.kind := EditorInterface.Error;
     EditorInterface.content := EditorInterface.ExceptionText e |}.

(** ** Texts that survive opening and saving *)

(** The characters [toPlainText] gives back as they were put in: all but
    U+00A0, U+2028, U+2029, U+FDD0 and U+FDD1. *)
Definition qt_plain (c : N) : bool :=
  negb ((c =? NBSP)%N || (c =? LINE_SEP)%N || (c =? PARAGRAPH_SEP)%N
        || (c =? FRAME_BEGIN)%N || (c =? FRAME_END)%N).

(** Every line of [s] ends in ["\r\n"]: each ["\r"] is followed by
    ["\n"] and each ["\n"] follows a ["\r"]. *)
Fixpoint crlf_only (s : list N) : bool :=
  match s with
  | [] => true
  | c :: s' =>
      if (c =? Py.CR)%N then
        match s' with
        | c' :: s'' => (c' =? Py.LF)%N && crlf_only s''
        | [] => false
        end
      else negb (c =? Py.LF)%N && crlf_only s'
  end.

(** No ["\r"] in [s]. *)
Definition no_cr (s : list N) : bool :=
  forallb (fun c => negb (c =? Py.CR)%N) s.

(** The line ends of [s] are those of the platform: no ["\r"] at all
    where [os.linesep] is ["\n"], only ["\r\n"] where it is
    ["\r\n"]. *)
Definition native_newlines (l : Py.Linesep) (s : list N) : bool :=
  match l with
  | Py.PosixLF => no_cr s
  | Py.WindowsCRLF => crlf_only s
  end.

(** ** Zoom *)

Inductive ZoomOp := ZoomIn | ZoomOut.

Definition zoom_step (self : EditorInterface.t) (op : ZoomOp) : EditorInterface.t :=
  match op with
  | ZoomIn => EditorInterface.zoomIn self
  | ZoomOut => EditorInterface.zoomOut self
  end.

(** The page after the zoom operations [ops], in order. *)
Definition zoom_run (ops : list ZoomOp) (self : EditorInterface.t)
  : EditorInterface.t :=
  fold_left zoom_step ops self.

(** What the zoom operations keep true: the level is at least 10 and a
    multiple of 10, and the label shows it. *)
Definition zoom_inv (self : EditorInterface.t) : Prop :=
  10 <= EditorInterface.zoomLevel self
  /\ (10 | EditorInterface.zoomLevel self)
  /\ EditorInterface.lblZoom self
     = EditorInterface.zoom_text (EditorInterface.zoomLevel self).

End View.

(* ===================================================================== *)
(** * Concrete states, for running the model *)
(* ===================================================================== *)

Module Examples.
Import Qt.

Definition consolas : QFontMetrics :=
  {| horizontalAdvance := fun _ => 8; height := 17 |}.

(** A laid-out line of 17 pixels. *)
Definition line (t : list N) : QTextBlock :=
  {| text := t; boundingHeight := 17; isVisible := true |}.

(** The editor showing [doc] from its first block, caret at the start. *)
Definition editor_of (doc : list QTextBlock) : CodeEditor.t :=
  {| CodeEditor.document := doc;
     CodeEditor.fontMetrics := consolas;
     CodeEditor.fontPointSize := 11;
     CodeEditor.firstVisibleBlock := 0;
     CodeEditor.firstBlockTop := 0;
     CodeEditor.lineNumberArea_width := 32;
     CodeEditor.viewportMargin_left := 32;
     CodeEditor.isReadOnly := false;
     CodeEditor.textCursor := {| anchor := 0%nat; position := 0%nat |};
     CodeEditor.extraSelections := [];
     CodeEditor.layoutHeight := fun _ => 17%Q;
     CodeEditor.call_log := [] |}.

(** The page as [__init__] leaves it, showing [doc]. *)
Definition page_of (doc : list QTextBlock) : EditorInterface.t :=
  {| EditorInterface.editor := editor_of doc;
     EditorInterface.searchEdit := [];
     EditorInterface.lblZoom := "100%";
     EditorInterface.currentFile := None;
     EditorInterface.zoomLevel := 100;
     EditorInterface.infoBars := [] |}.

(** The text "abc" and the search text "x". *)
Definition abc : list N := [97; 98; 99]%N.
Definition x : list N := [120]%N.

(** A world with one file [name] of content [data] and the given
    permissions, where nothing can be created. *)
Definition world_with (name : string) (data : list byte) (r w : bool)
           (l : Py.Linesep) : Py.World :=
  {| Py.files := {[ name := Py.File data r w ]};
     Py.creatable := fun _ => false;
     Py.linesep := l;
     Py.io_log := [] |}.

(** The page showing "abc", run against a world. *)
Definition app_of (w : Py.World) : EditorInterface.App :=
  {| EditorInterface.page := page_of [line abc]; EditorInterface.os := w |}.

(** The page showing [doc] with [needle] typed into the search box. *)
Definition page_searching (doc : list QTextBlock) (needle : list N)
  : EditorInterface.t :=
  {| EditorInterface.editor := editor_of doc;
     EditorInterface.searchEdit := needle;
     EditorInterface.lblZoom := "100%";
     EditorInterface.currentFile := None;
     EditorInterface.zoomLevel := 100;
     EditorInterface.infoBars := [] |}.

(** Metrics of the font the gutter paints with, [QFont("Consolas", 10)]:
    every glyph advances by 7 pixels. *)
Definition consolas_10 : QFontMetrics :=
  {| horizontalAdvance := fun _ => 7; height := 15 |}.

(** Metrics of the editor font once zoomOut has shrunk it from 11 points
    to 1 point: every glyph advances by 1 pixel. *)
Definition consolas_1 : QFontMetrics :=
  {| horizontalAdvance := fun _ => 1; height := 2 |}.

(** A laid-out line of that font, 2 pixels high. *)
Definition small_line (t : list N) : QTextBlock :=
  {| text := t; boundingHeight := 2; isVisible := true |}.

(** The editor with 120 empty lines after ten zoomOut, scrolled so that
    line 118 is the first visible one. *)
Definition zoomed_out : CodeEditor.t :=
  {| CodeEditor.document := repeat (small_line []) 120;
     CodeEditor.fontMetrics := consolas_1;
     CodeEditor.fontPointSize := 1;
     CodeEditor.firstVisibleBlock := 117;
     CodeEditor.firstBlockTop := 0;
     CodeEditor.lineNumberArea_width := 48;
     CodeEditor.viewportMargin_left := 48;
     CodeEditor.isReadOnly := false;
     CodeEditor.textCursor := {| anchor := 0%nat; position := 0%nat |};
     CodeEditor.extraSelections := [];
     CodeEditor.layoutHeight := fun _ => 2%Q;
     CodeEditor.call_log := [] |}.

End Examples.

(* ===================================================================== *)
(** * The rest of [main.py]: icons and the status bar *)
(* ===================================================================== *)

Module Icons.

(** [hasattr(FIF, name)], for the attributes [FIF] of the icon class. *)
Definition hasattr {A} (FIF : gmap string A) (name : string) : bool :=
  match FIF !! name with Some _ => true | None => false end.

(** [get_icon(name, fallback_name)]; [None] stands for the
    [AttributeError] that [FIF.EDIT] raises when there is no such
    attribute. *)
Definition get_icon {A} (FIF : gmap string A) (name fallback_name : string)
  : option A :=
  if hasattr FIF name then FIF !! name
  else if hasattr FIF fallback_name then FIF !! fallback_name
  else FIF !! "EDIT"%string.

End Icons.

Module StatusBar.
Import Qt.

(** [QTextCursor.blockNumber()]: the number of the block that contains
    the position, 0 when there is none. *)
Definition blockNumber (doc : list QTextBlock) (pos : nat) : nat :=
  match List.find (fun i => View.block_contains doc i pos) (seq 0 (length doc)) with
  | Some i => i
  | None => 0%nat
  end.




End StatusBar.

(* ===================================================================== *)
(** * Notions the further statements use *)
(* ===================================================================== *)

Module More.
Import Qt.

(** ** Search *)







(** What a search leaves alone: the blocks of the document, the search
    text, the current file and the zoom level. *)
Definition search_frame (self self' : EditorInterface.t) : Prop :=
  CodeEditor.document (EditorInterface.editor self')
  = CodeEditor.document (EditorInterface.editor self)
  /\ EditorInterface.searchEdit self' = EditorInterface.searchEdit self
  /\ EditorInterface.currentFile self' = EditorInterface.currentFile self
  /\ EditorInterface.zoomLevel self' = EditorInterface.zoomLevel self.

(** ** Text and blocks *)

(** The number of block boundaries in a text without carriage
    returns. *)
Definition break_count (s : list N) : nat :=
  length (List.filter is_block_break s).

(** The text of every block is free of carriage returns, as in every
    document the editor builds. *)
Definition cr_free (e : CodeEditor.t) : bool :=
  View.no_cr (CodeEditor.toPlainText e).

(** ** Zoom *)

(** The label is in step with the font: 10 % per point, 100 % at 11
    points. *)
Definition zoom_in_step (self : EditorInterface.t) : Prop :=
  EditorInterface.zoomLevel self
  = 10 * (CodeEditor.fontPointSize (EditorInterface.editor self) - 1).

(** The label is 10 % ahead of the font. *)
Definition zoom_ahead (self : EditorInterface.t) : Prop :=
  EditorInterface.zoomLevel self
  = 10 * CodeEditor.fontPointSize (EditorInterface.editor self).

(** What the zoom operations keep true of the font: it is at least one
    point large, and the label is in step with it or ahead of it. *)
Definition zoom_font_inv (self : EditorInterface.t) : Prop :=
  1 <= CodeEditor.fontPointSize (EditorInterface.editor self)
  /\ (zoom_in_step self \/ zoom_ahead self).

(** ** Files *)

(** [open(path, 'w')] would succeed in [w]: a writable file is there, or
    nothing is there and a file can be created. *)
Definition can_open_w (w : Py.World) (path : string) : bool :=
  match Py.files w !! path with
  | Some (Py.File _ _ wr) => wr
  | Some Py.Dir => false
  | None => Py.creatable w path
  end.

(** Saving to [path] and opening it again would both get at the file: a
    readable and writable file is there, or nothing is there and a file
    can be created. *)
Definition can_save_and_reopen (w : Py.World) (path : string) : bool :=
  match Py.files w !! path with
  | Some (Py.File _ r wr) => r && wr
  | Some Py.Dir => false
  | None => Py.creatable w path
  end.

(** The calls [openFile] makes for [path]: one open, and when the open
    succeeds a read and a close. *)
Definition open_trace (w : Py.World) (path : string) : list Py.Syscall :=
  match fst (Py.open_r path w) with
  | inl _ => [Py.SysOpen path Py.ModeR; Py.SysRead path; Py.SysClose path]
  | inr _ => [Py.SysOpen path Py.ModeR]
  end.

(** The calls [saveFile] makes for [path]: one open, and when the open
    succeeds a write and a close. *)
Definition save_trace (w : Py.World) (path : string) : list Py.Syscall :=
  match fst (Py.open_w path w) with
  | inl _ => [Py.SysOpen path Py.ModeW; Py.SysWrite path; Py.SysClose path]
  | inr _ => [Py.SysOpen path Py.ModeW]
  end.

(** The notification of a success. *)
Definition success_bar (c : EditorInterface.Content) : EditorInterface.InfoBar :=
  {| EditorInterface.kind := EditorInterface.Success;
     EditorInterface.content := c |}.

(** The page with another file system under it. *)
Definition on_world (page : EditorInterface.t) (w : Py.World) : EditorInterface.App :=
  {| EditorInterface.page := page; EditorInterface.os := w |}.

End More.

(* ===================================================================== *)
(** * The gutter width *)
(* ===================================================================== *)

Module GutterWidthFacts.
Import Qt CodeEditor Spec.

Lemma count_digits_unfold m d :
  count_digits m d = if 10 <=? m then count_digits (m / 10) (d + 1) else d.
Proof.
  rewrite count_digits_equation_1.
  destruct (Z_le_gt_dec 10 m) as [H|H]; simpl;
    destruct (Z.leb_spec 10 m); solve [reflexivity | lia].
Qed.

Lemma div10_range m : 10 <= m -> 1 <= m / 10 < m.
Proof.
  intros Hm. split; [apply Z.div_le_lower_bound; lia | apply Z.div_lt; lia].
Qed.

(** What the loop returns, started at [d]: it adds to [d] one less than
    the number of digits of [m]. *)
Lemma count_digits_bounds m :
  1 <= m -> forall d,
  d <= count_digits m d /\
  10 ^ (count_digits m d - d) <= m < 10 ^ (count_digits m d - d + 1).
Proof.
  intros Hm. pattern m. apply Zlt_lower_bound_ind with (z := 1); [|exact Hm].
  clear m Hm. intros m IH Hm d.
  rewrite count_digits_unfold.
  destruct (Z.leb_spec 10 m) as [Hge|Hlt].
  - pose proof (div10_range m Hge) as Hq.
    destruct (IH (m / 10) Hq (d + 1)) as (Hd & Hlo & Hhi).
    set (r := count_digits (m / 10) (d + 1)) in *.
    split; [lia|].
    replace (r - d) with (Z.succ (r - (d + 1))) by lia.
    replace (Z.succ (r - (d + 1)) + 1) with (Z.succ (r - (d + 1) + 1)) by lia.
    rewrite !Z.pow_succ_r by lia.
    pose proof (Z.div_mod m 10 ltac:(lia)).
    pose proof (Z.mod_pos_bound m 10 ltac:(lia)).
    lia.
  - replace (d - d) with 0 by lia. simpl. lia.
Qed.

Lemma count_digits_shift m :
  1 <= m -> forall d, count_digits m d = count_digits m 1 + (d - 1).
Proof.
  intros Hm. pattern m. apply Zlt_lower_bound_ind with (z := 1); [|exact Hm].
  clear m Hm. intros m IH Hm d.
  rewrite (count_digits_unfold m d), (count_digits_unfold m 1).
  destruct (Z.leb_spec 10 m) as [Hge|Hlt]; [|lia].
  pose proof (div10_range m Hge) as Hq.
  rewrite (IH _ Hq (d + 1)), (IH _ Hq (1 + 1)). lia.
Qed.

Lemma count_digits_has_digits m :
  1 <= m -> has_digits m (count_digits m 1).
Proof.
  intros Hm. destruct (count_digits_bounds m Hm 1) as (Hd & Hlo & Hhi).
  unfold has_digits.
  replace (count_digits m 1 - 1 + 1) with (count_digits m 1) in Hhi by lia.
  auto.
Qed.

Lemma has_digits_mono m m' k k' :
  has_digits m k -> has_digits m' k' -> m <= m' -> k <= k'.
Proof.
  intros (Hk & Hlo & Hhi) (Hk' & Hlo' & Hhi') Hle.
  destruct (Z_le_gt_dec k k') as [|Hgt]; [assumption|exfalso].
  assert (10 ^ k' <= 10 ^ (k - 1)) by (apply Z.pow_le_mono_r; lia).
  lia.
Qed.

Lemma has_digits_unique m k k' : has_digits m k -> has_digits m k' -> k = k'.
Proof.
  intros H H'.
  pose proof (has_digits_mono _ _ _ _ H H' (Z.le_refl m)).
  pose proof (has_digits_mono _ _ _ _ H' H (Z.le_refl m)). lia.
Qed.

Lemma count_digits_mono m m' :
  1 <= m <= m' -> count_digits m 1 <= count_digits m' 1.
Proof.
  intros [H1 H2]. eapply has_digits_mono; [| |exact H2];
    apply count_digits_has_digits; lia.
Qed.

(** The digit count steps up between [n] and [n + 1] only when [n + 1]
    is a power of ten. *)
Lemma count_digits_step n :
  1 <= n -> count_digits (n + 1) 1 <> count_digits n 1 ->
  n + 1 = 10 ^ count_digits n 1 /\ count_digits (n + 1) 1 = count_digits n 1 + 1.
Proof.
  intros Hn Hne.
  pose proof (count_digits_mono n (n + 1) ltac:(lia)) as Hmono.
  destruct (count_digits_has_digits n Hn) as (Hk & Hlo & Hhi).
  destruct (count_digits_has_digits (n + 1) ltac:(lia)) as (Hk' & Hlo' & Hhi').
  set (k := count_digits n 1) in *. set (k' := count_digits (n + 1) 1) in *.
  assert (10 ^ k <= 10 ^ (k' - 1)) by (apply Z.pow_le_mono_r; lia).
  assert (Heq : n + 1 = 10 ^ k) by lia.
  split; [exact Heq|].
  destruct (Z_le_gt_dec k' (k + 1)) as [|Hgt]; [lia|exfalso].
  assert (10 ^ (k + 1) <= 10 ^ (k' - 1)) by (apply Z.pow_le_mono_r; lia).
  rewrite Z.pow_add_r in * by lia. lia.
Qed.

End GutterWidthFacts.

Module StrFacts.
Import Qt CodeEditor Spec GutterWidthFacts.

Lemma str_digits_unfold n acc :
  Py.str_digits n acc =
  if 10 <=? n then Py.str_digits (n / 10) (String (Py.digit_char (n mod 10)) acc)
  else String (Py.digit_char n) acc.
Proof.
  rewrite Py.str_digits_equation_1.
  destruct (Z_le_gt_dec 10 n) as [H|H]; simpl;
    destruct (Z.leb_spec 10 n); solve [reflexivity | lia].
Qed.

Lemma digit_value_char d :
  0 <= d < 10 -> Py.digit_value (Py.digit_char d) = Some d.
Proof.
  intros Hd.
  assert (Hcases : d = 0 \/ d = 1 \/ d = 2 \/ d = 3 \/ d = 4 \/ d = 5 \/ d = 6
                   \/ d = 7 \/ d = 8 \/ d = 9) by lia.
  repeat (destruct Hcases as [-> | Hcases]; [reflexivity|]). subst; reflexivity.
Qed.

(** The numeral of [n] has as many characters as the width loop counts
    digits. *)
Lemma str_digits_length n :
  1 <= n -> forall acc,
  Z.of_nat (String.length (Py.str_digits n acc))
  = count_digits n 1 + Z.of_nat (String.length acc).
Proof.
  intros Hn. pattern n. apply Zlt_lower_bound_ind with (z := 1); [|exact Hn].
  clear n Hn. intros n IH Hn acc.
  rewrite str_digits_unfold, count_digits_unfold.
  destruct (Z.leb_spec 10 n) as [Hge|Hlt].
  - pose proof (div10_range n Hge) as Hq.
    rewrite (IH _ Hq), (count_digits_shift _ (proj1 Hq) (1 + 1)).
    cbn [String.length]. lia.
  - cbn [String.length]. lia.
Qed.

Lemma numeral_length_count_digits n :
  1 <= n -> numeral_length n = count_digits n 1.
Proof.
  intros Hn. unfold numeral_length, Py.str. destruct (Z.ltb_spec n 0); [lia|].
  rewrite str_digits_length by exact Hn. cbn [String.length]. lia.
Qed.

(** Reading the numeral back gives the number. *)
Lemma int_digits_str_digits n :
  0 <= n -> forall a acc,
  Py.int_digits a (Py.str_digits n acc)
  = Py.int_digits (a * 10 ^ count_digits (Z.max 1 n) 1 + n) acc.
Proof.
  intros Hn. pattern n. apply Zlt_lower_bound_ind with (z := 0); [|exact Hn].
  clear n Hn. intros n IH Hn a acc.
  rewrite str_digits_unfold, count_digits_unfold.
  destruct (Z.leb_spec 10 n) as [Hge|Hlt].
  - pose proof (div10_range n Hge) as Hq.
    destruct (Z.leb_spec 10 (Z.max 1 n)); [|lia].
    rewrite (IH (n / 10)) by lia.
    cbn [Py.int_digits].
    rewrite digit_value_char by (apply Z.mod_pos_bound; lia).
    f_equal.
    replace (Z.max 1 n) with n by lia.
    replace (Z.max 1 (n / 10)) with (n / 10) by lia.
    rewrite (count_digits_shift _ (proj1 Hq) (1 + 1)).
    destruct (count_digits_bounds _ (proj1 Hq) 1) as (Hd & _).
    replace (count_digits (n / 10) 1 + (1 + 1 - 1))
      with (Z.succ (count_digits (n / 10) 1)) by lia.
    rewrite Z.pow_succ_r by lia.
    pose proof (Z.div_mod n 10 ltac:(lia)). lia.
  - destruct (Z.leb_spec 10 (Z.max 1 n)); [lia|].
    cbn [Py.int_digits]. rewrite digit_value_char by lia.
    f_equal. lia.
Qed.

Lemma int_of_str_str n : 0 <= n -> Py.int_of_str (Py.str n) = Some n.
Proof.
  intros Hn. unfold Py.str. destruct (Z.ltb_spec n 0); [lia|].
  assert (H0 : Py.int_digits 0 (Py.str_digits n EmptyString) = Some n).
  { rewrite int_digits_str_digits by exact Hn. cbn. f_equal. }
  unfold Py.int_of_str.
  destruct (Py.str_digits n EmptyString) eqn:E; [exfalso|exact H0].
  destruct (Z.eq_dec n 0) as [->|Hne]; [discriminate E|].
  pose proof (str_digits_length n ltac:(lia) EmptyString) as Hlen.
  pose proof (count_digits_bounds n ltac:(lia) 1) as (Hd & _).
  rewrite E in Hlen. cbn in Hlen. lia.
Qed.

(** A numeral of digits is no wider than as many glyphs '9'. *)
Lemma str_digits_advance fm :
  digits_fit fm ->
  forall n, 0 <= n -> forall acc,
  0 <= text_advance fm acc
       <= horizontalAdvance fm "9"%char * Z.of_nat (String.length acc) ->
  0 <= text_advance fm (Py.str_digits n acc)
       <= horizontalAdvance fm "9"%char
          * Z.of_nat (String.length (Py.str_digits n acc)).
Proof.
  intros Hfit n Hn. pattern n. apply Zlt_lower_bound_ind with (z := 0); [|exact Hn].
  clear n Hn. intros n IH Hn acc Hacc.
  assert (Hstep : forall d, 0 <= d < 10 ->
            0 <= text_advance fm (String (Py.digit_char d) acc)
              <= horizontalAdvance fm "9"%char
                 * Z.of_nat (String.length (String (Py.digit_char d) acc))).
  { intros d Hd. cbn [text_advance String.length].
    assert (Hdig : is_digit (Py.digit_char d) = true)
      by (unfold is_digit; rewrite digit_value_char by exact Hd; reflexivity).
    pose proof (Hfit _ Hdig). lia. }
  rewrite str_digits_unfold.
  destruct (Z.leb_spec 10 n) as [Hge|Hlt].
  - pose proof (div10_range n Hge) as Hq.
    apply IH; [lia|]. apply Hstep. apply Z.mod_pos_bound; lia.
  - apply Hstep; lia.
Qed.

Lemma str_advance fm k :
  digits_fit fm -> 0 <= k ->
  text_advance fm (Py.str k) <= horizontalAdvance fm "9"%char * numeral_length k.
Proof.
  intros Hfit Hk. unfold numeral_length, Py.str.
  destruct (Z.ltb_spec k 0); [lia|].
  apply (str_digits_advance fm Hfit k Hk EmptyString). cbn. lia.
Qed.

(** In a font whose digits all advance by [p], a numeral is [p] times
    its length wide. *)
Lemma str_digits_advance_fixed fm p :
  (forall c, is_digit c = true -> horizontalAdvance fm c = p) ->
  forall n, 0 <= n -> forall acc,
  text_advance fm acc = p * Z.of_nat (String.length acc) ->
  text_advance fm (Py.str_digits n acc)
  = p * Z.of_nat (String.length (Py.str_digits n acc)).
Proof.
  intros Hfix n Hn. pattern n. apply Zlt_lower_bound_ind with (z := 0); [|exact Hn].
  clear n Hn. intros n IH Hn acc Hacc.
  assert (Hstep : forall d, 0 <= d < 10 ->
            text_advance fm (String (Py.digit_char d) acc)
            = p * Z.of_nat (String.length (String (Py.digit_char d) acc))).
  { intros d Hd. cbn [text_advance String.length].
    assert (Hdig : is_digit (Py.digit_char d) = true)
      by (unfold is_digit; rewrite digit_value_char by exact Hd; reflexivity).
    rewrite (Hfix _ Hdig). lia. }
  rewrite str_digits_unfold.
  destruct (Z.leb_spec 10 n) as [Hge|Hlt].
  - pose proof (div10_range n Hge) as Hq.
    apply IH; [lia|]. apply Hstep. apply Z.mod_pos_bound; lia.
  - apply Hstep; lia.
Qed.

Lemma str_advance_fixed fm p k :
  (forall c, is_digit c = true -> horizontalAdvance fm c = p) -> 0 <= k ->
  text_advance fm (Py.str k) = p * numeral_length k.
Proof.
  intros Hfix Hk. unfold numeral_length, Py.str.
  destruct (Z.ltb_spec k 0); [lia|].
  apply (str_digits_advance_fixed fm p Hfix k Hk EmptyString). cbn. lia.
Qed.

(** The example font fits: all its glyphs are 8 pixels wide. *)
Lemma digits_fit_consolas : digits_fit Examples.consolas.
Proof. intros c _. cbn. lia. Qed.

End StrFacts.

Module GutterWidthTheorems.
Import Qt CodeEditor Spec GutterWidthFacts StrFacts.

(** The method reads the font metrics and the block count of the widget,
    and nothing else. *)
Remark lineNumberAreaWidth_reads self :
  lineNumberAreaWidth self
  = lineNumberAreaWidth_of (fontMetrics self) (blockCount self).
Proof. reflexivity. Qed.

(** C3. With a non-negative advance of the glyph '9', the gutter width is
    monotone non-decreasing in the block count from 1 on, and the widths
    for block counts N and N + 1 differ only when N + 1 is a power of
    ten 10^k with k >= 1 (9 to 10, 99 to 100, ...), where the digit count
    goes from k to k + 1. *)
Theorem lineNumberAreaWidth_monotone_steps
  (fm : QFontMetrics) (N M : Z) :
  0 <= horizontalAdvance fm "9"%char ->
  1 <= N -> N <= M ->
  lineNumberAreaWidth_of fm N <= lineNumberAreaWidth_of fm M
  /\ (lineNumberAreaWidth_of fm (N + 1) <> lineNumberAreaWidth_of fm N ->
      exists k, 1 <= k /\ N + 1 = 10 ^ k
                /\ has_digits N k /\ has_digits (N + 1) (k + 1)).
Proof.
  intros Hadv HN HNM. unfold lineNumberAreaWidth_of. split.
  - rewrite !Z.max_r by lia.
    pose proof (count_digits_mono N M ltac:(lia)). nia.
  - rewrite !Z.max_r by lia. intros Hne.
    assert (Hd : count_digits (N + 1) 1 <> count_digits N 1) by congruence.
    destruct (count_digits_step N HN Hd) as [Hpow Hsucc].
    pose proof (count_digits_has_digits N HN) as HdN.
    pose proof (count_digits_has_digits (N + 1) ltac:(lia)) as HdN1.
    exists (count_digits N 1). rewrite <- Hsucc.
    destruct HdN as [? ?]. repeat split; auto; try lia; apply HdN1.
Qed.

Lemma lineNumberAreaWidth_monotone_steps_witness :
  lineNumberAreaWidth_of Examples.consolas 9 = 32
  /\ lineNumberAreaWidth_of Examples.consolas 10 = 40
  /\ lineNumberAreaWidth_of Examples.consolas 9
     <= lineNumberAreaWidth_of Examples.consolas 10
  /\ exists k, 1 <= k /\ 9 + 1 = 10 ^ k
               /\ has_digits 9 k /\ has_digits (9 + 1) (k + 1).
Proof.
  destruct (lineNumberAreaWidth_monotone_steps Examples.consolas 9 10)
    as [Hmono Hstep]; [simpl; lia | lia | lia |].
  split; [reflexivity|]. split; [reflexivity|]. split; [exact Hmono|].
  apply Hstep. vm_compute. discriminate.
Defined.

(** The formula of the width: 24 plus the advance of the glyph '9' in the
    editor's font times the number of characters of the decimal numeral
    of max(1, N), and that number is the decimal digit count of
    max(1, N). *)
Lemma lineNumberAreaWidth_digits (fm : QFontMetrics) (N : Z) :
  lineNumberAreaWidth_of fm N
  = 24 + horizontalAdvance fm "9"%char * numeral_length (Z.max 1 N)
  /\ has_digits (Z.max 1 N) (numeral_length (Z.max 1 N)).
Proof.
  assert (Hm : 1 <= Z.max 1 N) by lia.
  rewrite (numeral_length_count_digits _ Hm).
  unfold lineNumberAreaWidth_of. cbv zeta.
  split; [reflexivity|]. apply count_digits_has_digits, Hm.
Qed.

(** Measured in the font the width is computed from, and when none of its
    digits is wider than its '9', the numeral of every line number from
    1 to max(1, N) is at least 24 pixels narrower than the width. *)
Lemma lineNumberAreaWidth_own_font (fm : QFontMetrics) (N k : Z) :
  digits_fit fm -> 1 <= k <= Z.max 1 N ->
  24 + text_advance fm (Py.str k) <= lineNumberAreaWidth_of fm N.
Proof.
  intros Hfit Hk. unfold lineNumberAreaWidth_of. cbv zeta.
  pose proof (str_advance fm k Hfit ltac:(lia)) as Hadv.
  rewrite (numeral_length_count_digits k) in Hadv by lia.
  pose proof (count_digits_mono k (Z.max 1 N) Hk) as Hmono.
  pose proof (count_digits_bounds k ltac:(lia) 1) as (Hd & _).
  assert (H9 : 0 <= horizontalAdvance fm "9"%char)
    by (apply (Hfit "9"%char); reflexivity).
  nia.
Qed.

(** After [resizeEvent] the gutter is as wide as [lineNumberAreaWidth]
    says, and the numbers are drawn in a box 8 pixels narrower. *)
Lemma resizeEvent_width self :
  lineNumberArea_width (resizeEvent self) = lineNumberAreaWidth self
  /\ lineNumberAreaWidth (resizeEvent self) = lineNumberAreaWidth self
  /\ forall n, draw_w (View.number_drawn (resizeEvent self) n)
               = lineNumberAreaWidth self - 8.
Proof. repeat split. Qed.

(** Whatever the fonts: when the digits of the font the gutter paints
    with all advance by [p], the number of a block is clipped as soon as
    [p] times its length exceeds 16 plus the advance of the editor font's
    '9' times the digit count of the block count. *)
Lemma number_clipped self paint p n :
  (forall c, is_digit c = true -> horizontalAdvance paint c = p) ->
  16 + horizontalAdvance (fontMetrics self) "9"%char
       * numeral_length (Z.max 1 (blockCount self))
  < p * numeral_length (Z.of_nat (firstVisibleBlock self + n) + 1) ->
  View.clipped paint (View.number_drawn (resizeEvent self) n) = true.
Proof.
  intros Hfix Hlt. unfold View.clipped.
  destruct (resizeEvent_width self) as (_ & _ & Hw). rewrite Hw.
  change (draw_text (View.number_drawn (resizeEvent self) n))
    with (Py.str (Z.of_nat (firstVisibleBlock self + n) + 1)).
  rewrite (str_advance_fixed paint p _ Hfix) by lia.
  unfold lineNumberAreaWidth.
  rewrite (proj1 (lineNumberAreaWidth_digits (fontMetrics self) (blockCount self))).
  apply Z.ltb_lt. lia.
Qed.

(** C4. The width is not sufficient for the numbers the gutter draws.
    In an editor of 120 lines whose font zoomOut has shrunk until its
    glyph '9' advances by 1 pixel, [lineNumberAreaWidth] returns
    27 = 24 + 1 * 3, as the formula says, and [resizeEvent] makes the
    gutter that wide.  The paint routine then draws "118", "119" and
    "120" right-aligned in boxes of 27 - 8 = 19 pixels, with the font
    [QFont("Consolas", 10)] that it sets itself, in which each of these
    numerals is 21 pixels wide: every one of them is clipped. *)
Theorem lineNumberAreaWidth_clips_zoomed_out :
  blockCount Examples.zoomed_out = 120
  /\ lineNumberAreaWidth Examples.zoomed_out
     = 24 + horizontalAdvance (fontMetrics Examples.zoomed_out) "9"%char
            * numeral_length 120
  /\ lineNumberAreaWidth Examples.zoomed_out = 27
  /\ lineNumberArea_width (resizeEvent Examples.zoomed_out) = 27
  /\ map (fun d => (draw_text d, draw_w d,
                    text_advance Examples.consolas_10 (draw_text d)))
         (drawn (lineNumberAreaPaintEvent LIGHT {| rect_top := 0; rect_height := 6 |}
                   (resizeEvent Examples.zoomed_out)))
     = [("118"%string, 19, 21); ("119"%string, 19, 21); ("120"%string, 19, 21)]
  /\ forallb (View.clipped Examples.consolas_10)
             (drawn (lineNumberAreaPaintEvent LIGHT
                       {| rect_top := 0; rect_height := 6 |}
                       (resizeEvent Examples.zoomed_out)))
     = true.
Proof.
  split; [reflexivity|].
  split; [exact (proj1 (lineNumberAreaWidth_digits Examples.consolas_1 120))|].
  split; [vm_compute; reflexivity|].
  split; [vm_compute; reflexivity|].
  split; vm_compute; reflexivity.
Qed.

(** The same 120 lines in the font the editor starts with, whose glyphs
    are wider than those the gutter paints with: the width is 48, the
    boxes are 40 pixels wide and no number is clipped. *)
Remark lineNumberAreaWidth_holds_at_start :
  lineNumberAreaWidth (Examples.editor_of (repeat (Examples.line []) 120)) = 48
  /\ forallb (fun d => negb (View.clipped Examples.consolas_10 d))
             (drawn (lineNumberAreaPaintEvent LIGHT
                       {| rect_top := 0; rect_height := 2040 |}
                       (resizeEvent
                          (Examples.editor_of (repeat (Examples.line []) 120)))))
     = true
  /\ length (drawn (lineNumberAreaPaintEvent LIGHT
                       {| rect_top := 0; rect_height := 2040 |}
                       (resizeEvent
                          (Examples.editor_of (repeat (Examples.line []) 120)))))
     = 120%nat.
Proof. split; [|split]; vm_compute; reflexivity. Qed.

End GutterWidthTheorems.

(* ===================================================================== *)
(** * Zoom *)
(* ===================================================================== *)

Module ZoomTheorems.
Import Qt EditorInterface View.

Lemma zoomLevel_zoomIn self : zoomLevel (zoomIn self) = zoomLevel self + 10.
Proof. reflexivity. Qed.

Lemma zoomLevel_zoomOut self :
  zoomLevel (zoomOut self) = Z.max 10 (zoomLevel self - 10).
Proof. reflexivity. Qed.

Lemma zoom_inv_step self op : zoom_inv self -> zoom_inv (zoom_step self op).
Proof.
  intros (Hge & [q Hq] & _). destruct op; unfold zoom_inv; cbn [zoom_step].
  - rewrite zoomLevel_zoomIn. repeat split; [lia | exists (q + 1); lia].
  - rewrite zoomLevel_zoomOut. repeat split; [lia|].
    destruct (Z.max_spec 10 (zoomLevel self - 10)) as [[_ ->]|[_ ->]].
    + exists (q - 1); lia.
    + exists 1; lia.
Qed.

Lemma zoom_inv_run ops : forall self, zoom_inv self -> zoom_inv (zoom_run ops self).
Proof.
  unfold zoom_run. induction ops as [|op ops IH]; intros self Hinv; cbn [fold_left].
  - exact Hinv.
  - apply IH, zoom_inv_step, Hinv.
Qed.

(** C10. From a page whose zoom level is 100 and whose label shows
    "100%", after any sequence of zoomIn and zoomOut the zoom level is at
    least 10 and a multiple of 10, and the label shows it; zoomIn adds 10
    whatever the level is, and zoomOut subtracts 10 and clamps the result
    at 10. *)
Theorem zoomLevel_invariant (self : t) (ops : list ZoomOp) :
  zoomLevel self = 100 -> lblZoom self = "100%"%string ->
  10 <= zoomLevel (zoom_run ops self)
  /\ (10 | zoomLevel (zoom_run ops self))
  /\ lblZoom (zoom_run ops self) = zoom_text (zoomLevel (zoom_run ops self))
  /\ (forall s, zoomLevel (zoomIn s) = zoomLevel s + 10)
  /\ (forall s, zoomLevel (zoomOut s) = Z.max 10 (zoomLevel s - 10)).
Proof.
  intros Hz Hl.
  assert (Hinv : zoom_inv self).
  { unfold zoom_inv. rewrite Hz, Hl. repeat split; [lia | exists 10; lia]. }
  destruct (zoom_inv_run ops self Hinv) as (H1 & H2 & H3).
  repeat split; auto.
Qed.

Lemma zoomLevel_invariant_witness :
  zoomLevel (Examples.page_of []) = 100
  /\ lblZoom (Examples.page_of []) = "100%"%string
  /\ 10 <= zoomLevel (zoom_run (repeat ZoomOut 12 ++ [ZoomIn]) (Examples.page_of []))
  /\ (10 | zoomLevel (zoom_run (repeat ZoomOut 12 ++ [ZoomIn]) (Examples.page_of [])))
  /\ zoomLevel (zoom_run (repeat ZoomOut 12 ++ [ZoomIn]) (Examples.page_of [])) = 20.
Proof.
  split; [reflexivity|]. split; [reflexivity|].
  destruct (zoomLevel_invariant (Examples.page_of [])
              (repeat ZoomOut 12 ++ [ZoomIn]) eq_refl eq_refl)
    as (H1 & H2 & _).
  split; [exact H1|]. split; [exact H2|]. reflexivity.
Defined.

End ZoomTheorems.

(* ===================================================================== *)
(** * The current-line highlight *)
(* ===================================================================== *)

Module HighlightTheorems.
Import Qt CodeEditor View.

Lemma lookup_cons_S (b : QTextBlock) (doc : list QTextBlock) (i : nat) :
  (b :: doc) !! S i = doc !! i.
Proof. reflexivity. Qed.

Lemma block_contains_0 b doc pos :
  block_contains (b :: doc) 0 pos = (pos <? length (text b) + 1)%nat.
Proof.
  unfold block_contains. change ((b :: doc) !! 0%nat) with (Some b).
  change (block_position (b :: doc) 0) with 0%nat.
  reflexivity.
Qed.

Lemma block_contains_S b doc i pos :
  block_contains (b :: doc) (S i) pos
  = ((length (text b) + 1 <=? pos)%nat
     && block_contains doc i (pos - (length (text b) + 1)))%bool.
Proof.
  unfold block_contains. rewrite lookup_cons_S.
  destruct (doc !! i) as [bi|]; [|apply eq_sym, andb_false_r].
  change (block_position (b :: doc) (S i))
    with (length (text b) + 1 + block_position doc i)%nat.
  set (k := (length (text b) + 1)%nat).
  set (p := block_position doc i). set (l := (length (text bi) + 1)%nat).
  destruct (Nat.leb_spec k pos) as [Hk|Hk].
  - destruct (Nat.leb_spec (k + p) pos), (Nat.leb_spec p (pos - k));
      destruct (Nat.ltb_spec pos (k + p + l)), (Nat.ltb_spec (pos - k) (p + l));
      simpl; solve [reflexivity | lia].
  - destruct (Nat.leb_spec (k + p) pos); [lia|reflexivity].
Qed.

(** Blocks do not overlap: a position lies in at most one block. *)
Lemma block_contains_unique (doc : list QTextBlock) :
  forall pos i j,
    block_contains doc i pos = true -> block_contains doc j pos = true -> i = j.
Proof.
  induction doc as [|b doc IH]; intros pos i j Hi Hj.
  - unfold block_contains in Hi. rewrite lookup_nil in Hi. discriminate.
  - destruct i as [|i], j as [|j]; [reflexivity | | |].
    + rewrite block_contains_0 in Hi. rewrite block_contains_S in Hj.
      apply andb_true_iff in Hj as [Hj _].
      apply Nat.ltb_lt in Hi. apply Nat.leb_le in Hj. lia.
    + rewrite block_contains_0 in Hj. rewrite block_contains_S in Hi.
      apply andb_true_iff in Hi as [Hi _].
      apply Nat.ltb_lt in Hj. apply Nat.leb_le in Hi. lia.
    + rewrite block_contains_S in Hi, Hj.
      apply andb_true_iff in Hi as [_ Hi], Hj as [_ Hj].
      f_equal. exact (IH _ _ _ Hi Hj).
Qed.

(** A full-width selection without selected text decorates exactly the
    blocks that contain its position. *)
Lemma decorates_current_line doc theme caret i :
  decorates doc (current_line_selection theme caret) i
  = block_contains doc i (position caret).
Proof.
  unfold decorates, block_contains.
  destruct (doc !! i) as [b|]; [|reflexivity].
  unfold hasSelection, selectionStart, selectionEnd, current_line_selection.
  cbn [cursor fullWidthSelection anchor position].
  rewrite Nat.min_id, Nat.max_id, Nat.eqb_refl.
  rewrite Z.ltb_irrefl, andb_false_r. reflexivity.
Qed.

(** C6. After highlightCurrentLine the extra selections are: none when
    the editor is read-only; otherwise exactly one selection, with the
    theme's line colour as background, the full-width property set, and
    as cursor the caret position with nothing selected.  That selection
    decorates a block exactly when the block contains the caret, and it
    never decorates two blocks.  The document, the caret and the
    read-only flag are left as they were. *)
Theorem highlightCurrentLine_selection (theme : Theme) (self : CodeEditor.t) :
  extraSelections (highlightCurrentLine theme self)
  = (if isReadOnly self then []
     else [current_line_selection theme (textCursor self)])
  /\ (forall sel i j,
        In sel (extraSelections (highlightCurrentLine theme self)) ->
        (decorates (document self) sel i
         = block_contains (document self) i (position (textCursor self)))
        /\ (decorates (document self) sel i = true ->
            decorates (document self) sel j = true -> i = j))
  /\ document (highlightCurrentLine theme self) = document self
  /\ textCursor (highlightCurrentLine theme self) = textCursor self
  /\ isReadOnly (highlightCurrentLine theme self) = isReadOnly self.
Proof.
  assert (Hsel : extraSelections (highlightCurrentLine theme self)
                 = (if isReadOnly self then []
                    else [current_line_selection theme (textCursor self)])).
  { unfold highlightCurrentLine. destruct (isReadOnly self), theme; reflexivity. }
  split; [exact Hsel|]. split; [|repeat split].
  intros sel i j Hin. rewrite Hsel in Hin.
  destruct (isReadOnly self); [destruct Hin|].
  destruct Hin as [<-|[]].
  split; [apply decorates_current_line|].
  rewrite !decorates_current_line. apply block_contains_unique.
Qed.

Lemma highlightCurrentLine_selection_witness :
  extraSelections
    (highlightCurrentLine LIGHT
       (setTextCursor {| anchor := 1; position := 5 |}
          (Examples.editor_of (map Examples.line [Examples.abc; Examples.abc]))))
  = [current_line_selection LIGHT {| anchor := 1; position := 5 |}]
  /\ decorates (map Examples.line [Examples.abc; Examples.abc])
       (current_line_selection LIGHT {| anchor := 1; position := 5 |}) 1 = true
  /\ decorates (map Examples.line [Examples.abc; Examples.abc])
       (current_line_selection LIGHT {| anchor := 1; position := 5 |}) 0 = false.
Proof.
  destruct (highlightCurrentLine_selection LIGHT
              (setTextCursor {| anchor := 1; position := 5 |}
                 (Examples.editor_of (map Examples.line [Examples.abc; Examples.abc]))))
    as (Hsel & Hdec & _).
  split; [exact Hsel|].
  split; [exact (proj1 (Hdec _ 1%nat 1%nat (or_introl eq_refl)))|].
  exact (proj1 (Hdec _ 0%nat 0%nat (or_introl eq_refl))).
Defined.

End HighlightTheorems.

(* ===================================================================== *)
(** * The gutter paint routine *)
(* ===================================================================== *)

Module PaintFacts.
Import Qt CodeEditor View.

Lemma drawn_app ops ops' : drawn (ops ++ ops') = drawn ops ++ drawn ops'.
Proof.
  induction ops as [|[] ops IH]; cbn [drawn app]; rewrite ?IH; reflexivity.
Qed.

(** The height the loop reads through the block handle is the height of
    the block at that position. *)
Lemma blockBoundingRect_height_drop self i :
  blockBoundingRect_height (drop i (document self)) = height_at self i.
Proof.
  unfold height_at. generalize (document self). clear self.
  induction i as [|i IH]; intros [|b doc]; try reflexivity.
  cbn [drop]. rewrite IH. reflexivity.
Qed.

Lemma drop_cons_lookup (doc : list QTextBlock) i b next :
  drop i doc = b :: next -> doc !! i = Some b /\ drop (S i) doc = next.
Proof.
  revert doc. induction i as [|i IH]; intros [|b' doc] H; try discriminate.
  - cbn in H. injection H as -> ->. split; reflexivity.
  - cbn [drop] in H. destruct (IH _ H) as [H1 H2]. split; [exact H1|exact H2].
Qed.

Lemma drop_nil_lookup (doc : list QTextBlock) i j :
  drop i doc = [] -> (i <= j)%nat -> doc !! j = None.
Proof.
  intros H Hij. apply lookup_ge_None.
  assert (Hlen : length (drop i doc) = 0%nat) by (rewrite H; reflexivity).
  rewrite length_drop in Hlen. lia.
Qed.

Section Loop.
Variable self : CodeEditor.t.
Variable rect : QRect.

Let first := firstVisibleBlock self.

(** [paint_condition] for a loop that is at block [k]: only the blocks
    from [k] on are still to be tested against the bottom of [rect]. *)
Definition condition_from (k n : nat) : Prop :=
  (exists b, document self !! (first + n)%nat = Some b /\ isVisible b = true)
  /\ (inject_Z (rect_top rect) <= bottom_edge self n)%Q
  /\ (forall m, (k <= m <= n)%nat ->
                (top_edge self m <= inject_Z (rect_bottom rect))%Q).

(** The loop invariant: at block [k] the running [top] and [bottom] are
    the edges of that block and the running block number is its position
    in the document; from there the loop draws exactly the blocks that
    satisfy the condition. *)
Lemma paint_loop_drawn :
  forall block k,
    block = drop (first + k) (document self) ->
    forall d,
      In d (drawn (paint_loop self rect block (first + k)
                     (Z.of_nat (first + k)) (top_edge self k) (bottom_edge self k)))
      <-> exists n, (k <= n)%nat /\ condition_from k n /\ d = number_drawn self n.
Proof.
  induction block as [|b next IH]; intros k Hblock d.
  - cbn [paint_loop drawn]. split; [intros []|].
    intros (n & Hkn & ((b & Hb & _) & _) & _).
    rewrite (drop_nil_lookup _ (first + k) (first + n)) in Hb by (auto; lia).
    discriminate.
  - destruct (drop_cons_lookup _ _ _ _ (eq_sym Hblock)) as [Hb Hnext].
    assert (Hrec : paint_loop self rect next (S (first + k))
                     (Z.of_nat (first + k) + 1) (bottom_edge self k)
                     (bottom_edge self k + blockBoundingRect_height next)
                   = paint_loop self rect next (first + S k)
                       (Z.of_nat (first + S k)) (top_edge self (S k))
                       (bottom_edge self (S k))).
    { rewrite <- Hnext, blockBoundingRect_height_drop.
      replace (Z.of_nat (first + k) + 1) with (Z.of_nat (first + S k)) by lia.
      replace (S (first + k)) with (first + S k)%nat by lia.
      reflexivity. }
    cbn [paint_loop]. cbv zeta. rewrite Hrec.
    destruct (Qle_bool (top_edge self k) (inject_Z (rect_bottom rect))) eqn:Htop.
    + apply Qle_bool_iff in Htop.
      rewrite drawn_app, in_app_iff.
      rewrite (IH (S k)) by (rewrite <- Hnext; f_equal; lia).
      split.
      * intros [Hd | (n & Hkn & (Hvis & Hbot & Htops) & Hd)].
        -- destruct (isVisible b) eqn:Hv; [|destruct Hd].
           destruct (Qle_bool (inject_Z (rect_top rect)) (bottom_edge self k)) eqn:Hbt;
             [|destruct Hd].
           destruct Hd as [<-|[]].
           apply Qle_bool_iff in Hbt.
           exists k. split; [lia|]. split; [|reflexivity].
           split; [exists b; auto|]. split; [exact Hbt|].
           intros m Hm. replace m with k by lia. exact Htop.
        -- exists n. split; [lia|]. split; [|exact Hd].
           split; [exact Hvis|]. split; [exact Hbot|].
           intros m Hm. destruct (Nat.eq_dec m k) as [->|Hne]; [exact Htop|].
           apply Htops. lia.
      * intros (n & Hkn & (Hvis & Hbot & Htops) & Hd).
        destruct (Nat.eq_dec n k) as [->|Hne].
        -- left. destruct Hvis as (b' & Hb' & Hv).
           assert (b' = b) by congruence. subst b'.
           rewrite Hv. apply Qle_bool_iff in Hbot. rewrite Hbot.
           left. symmetry. exact Hd.
        -- right. exists n. split; [lia|]. split; [|exact Hd].
           split; [exact Hvis|]. split; [exact Hbot|].
           intros m Hm. apply Htops. lia.
    + cbn [drawn]. split; [intros []|].
      intros (n & Hkn & (_ & _ & Htops) & _).
      specialize (Htops k ltac:(lia)). apply Qle_bool_iff in Htops. congruence.
Qed.

End Loop.

(** The block number the routine starts from is the position of the
    first visible block, when there is such a block. *)
Lemma blockNumber_of_first self b next :
  drop (firstVisibleBlock self) (document self) = b :: next ->
  blockNumber_of self (firstVisibleBlock self) = Z.of_nat (firstVisibleBlock self).
Proof.
  intros H. unfold blockNumber_of.
  destruct (drop_cons_lookup _ _ _ _ H) as [Hb _].
  apply lookup_lt_Some in Hb.
  destruct (Nat.ltb_spec (firstVisibleBlock self) (length (document self))); [reflexivity|lia].
Qed.

(** What the routine draws: exactly the numbers of the blocks that
    satisfy [paint_condition]. *)
Lemma paint_event_drawn theme rect self d :
  In d (drawn (lineNumberAreaPaintEvent theme rect self))
  <-> exists n, paint_condition self rect n /\ d = number_drawn self n.
Proof.
  unfold lineNumberAreaPaintEvent. cbv zeta.
  rewrite drawn_app. cbn [drawn app].
  pose proof (paint_loop_drawn self rect
                (drop (firstVisibleBlock self + 0) (document self)) 0 eq_refl d) as H.
  rewrite Nat.add_0_r in H. cbn [top_edge] in H.
  unfold bottom_edge in H. cbn [top_edge] in H. rewrite Nat.add_0_r in H.
  rewrite <- blockBoundingRect_height_drop in H.
  assert (Hiff : (exists n, (0 <= n)%nat /\ condition_from self rect 0 n
                            /\ d = number_drawn self n)
                 <-> exists n, paint_condition self rect n /\ d = number_drawn self n).
  { split.
    - intros (n & _ & (Hv & Hb & Ht) & Hd). exists n. split; [|exact Hd].
      split; [exact Hv|]. split; [exact Hb|]. intros m Hm. apply Ht. lia.
    - intros (n & (Hv & Hb & Ht) & Hd). exists n. split; [lia|]. split; [|exact Hd].
      split; [exact Hv|]. split; [exact Hb|]. intros m Hm. apply Ht. lia. }
  rewrite <- Hiff, <- H.
  destruct (drop (firstVisibleBlock self) (document self)) as [|b next] eqn:E.
  - reflexivity.
  - rewrite (blockNumber_of_first self b next E). reflexivity.
Qed.

End PaintFacts.

Module PaintTheorems.
Import Qt CodeEditor View PaintFacts StrFacts.

(** C5. Every number the gutter paint routine draws is drawn for a block
    of the document, at that block's top edge, and its text is the
    decimal numeral of the block's 0-based position plus one: reading
    the text back as a number gives that position plus one. *)
Theorem paint_draws_block_number
  (theme : Theme) (rect : QRect) (self : CodeEditor.t) (d : DrawText) :
  In d (drawn (lineNumberAreaPaintEvent theme rect self)) ->
  draw_text d = Py.str (Z.of_nat (for_block d) + 1)
  /\ Py.int_of_str (draw_text d) = Some (Z.of_nat (for_block d) + 1)
  /\ is_Some (document self !! for_block d)
  /\ exists n, for_block d = (firstVisibleBlock self + n)%nat
               /\ draw_y d = Py.int_of_float (top_edge self n).
Proof.
  intros Hd. apply paint_event_drawn in Hd.
  destruct Hd as (n & ((b & Hb & _) & _) & ->).
  cbn [number_drawn draw_text for_block draw_y draw_flags].
  split; [reflexivity|]. split; [apply int_of_str_str; lia|].
  split; [exists b; exact Hb|]. exists n. split; reflexivity.
Qed.

Lemma paint_draws_block_number_witness :
  In (number_drawn (Examples.editor_of (map Examples.line [[]; []; []])) 1)
     (drawn (lineNumberAreaPaintEvent LIGHT {| rect_top := 0; rect_height := 40 |}
               (Examples.editor_of (map Examples.line [[]; []; []]))))
  /\ draw_text (number_drawn (Examples.editor_of (map Examples.line [[]; []; []])) 1)
     = "2"%string
  /\ Py.int_of_str
       (draw_text (number_drawn (Examples.editor_of (map Examples.line [[]; []; []])) 1))
     = Some (Z.of_nat 1 + 1).
Proof.
  assert (Hin : In (number_drawn (Examples.editor_of (map Examples.line [[]; []; []])) 1)
     (drawn (lineNumberAreaPaintEvent LIGHT {| rect_top := 0; rect_height := 40 |}
               (Examples.editor_of (map Examples.line [[]; []; []]))))).
  { vm_compute. right. left. reflexivity. }
  split; [exact Hin|]. split; [vm_compute; reflexivity|].
  exact (proj1 (proj2 (paint_draws_block_number _ _ _ _ Hin))).
Defined.

(** C8. The numbers the gutter paint routine draws are exactly those of
    the blocks, counted from the first visible one, that are visible,
    whose bottom edge is at or below the top of the repaint region, and
    before which (and at which) no block has its top edge below the
    bottom of the region.  So a drawn block meets the region, and from the
    first block whose top edge is below the bottom of the region on,
    nothing is drawn. *)
Theorem paint_draws_region_blocks
  (theme : Theme) (rect : QRect) (self : CodeEditor.t) :
  (forall d, In d (drawn (lineNumberAreaPaintEvent theme rect self)) ->
     exists n b,
       d = number_drawn self n
       /\ document self !! (firstVisibleBlock self + n)%nat = Some b
       /\ isVisible b = true
       /\ (inject_Z (rect_top rect) <= bottom_edge self n)%Q
       /\ (top_edge self n <= inject_Z (rect_bottom rect))%Q)
  /\ (forall n, paint_condition self rect n ->
        In (number_drawn self n) (drawn (lineNumberAreaPaintEvent theme rect self)))
  /\ (forall m n, (m <= n)%nat ->
        (inject_Z (rect_bottom rect) < top_edge self m)%Q ->
        ~ In (number_drawn self n) (drawn (lineNumberAreaPaintEvent theme rect self))).
Proof.
  split; [|split].
  - intros d Hd. apply paint_event_drawn in Hd.
    destruct Hd as (n & ((b & Hb & Hv) & Hbot & Htops) & ->).
    exists n, b. repeat split; auto.
  - intros n Hn. apply paint_event_drawn. exists n. split; [exact Hn|reflexivity].
  - intros m n Hmn Hlt Hin. apply paint_event_drawn in Hin.
    destruct Hin as (n' & (_ & _ & Htops) & Heq).
    assert (n' = n).
    { apply (f_equal for_block) in Heq. cbn [number_drawn for_block] in Heq. lia. }
    subst n'. specialize (Htops m Hmn).
    apply (Qlt_not_le _ _ Hlt). exact Htops.
Qed.

Lemma paint_draws_region_blocks_witness :
  In (number_drawn (Examples.editor_of (map Examples.line [[]; []; []])) 1)
     (drawn (lineNumberAreaPaintEvent LIGHT {| rect_top := 0; rect_height := 20 |}
               (Examples.editor_of (map Examples.line [[]; []; []]))))
  /\ ~ In (number_drawn (Examples.editor_of (map Examples.line [[]; []; []])) 2)
          (drawn (lineNumberAreaPaintEvent LIGHT {| rect_top := 0; rect_height := 20 |}
                    (Examples.editor_of (map Examples.line [[]; []; []])))).
Proof.
  destruct (paint_draws_region_blocks LIGHT {| rect_top := 0; rect_height := 20 |}
              (Examples.editor_of (map Examples.line [[]; []; []])))
    as (_ & Hdraw & Hstop).
  split.
  - apply Hdraw. split; [eexists; split; reflexivity|]. split.
    + vm_compute. discriminate.
    + intros m Hm. destruct m as [|[|m]]; [| |lia]; vm_compute; discriminate.
  - apply (Hstop 2%nat 2%nat (le_n _)). vm_compute. reflexivity.
Defined.

End PaintTheorems.

(* ===================================================================== *)
(** * Search *)
(* ===================================================================== *)

Module SearchFacts.
Import Qt EditorInterface View.

Lemma find_none_of_all_false {A} (f : A -> bool) (l : list A) :
  (forall a, f a = false) -> List.find f l = None.
Proof.
  intros H. induction l as [|a l IH]; cbn [List.find]; [reflexivity|].
  rewrite H. exact IH.
Qed.

(** A text that occurs nowhere is found from no cursor, in neither
    direction. *)
Lemma find_absent doc needle c backward :
  absent doc needle -> Qt.find doc c needle backward = None.
Proof.
  intros H. unfold Qt.find.
  rewrite (find_none_of_all_false _ _ H). reflexivity.
Qed.

Lemma editor_find_absent needle backward (e : CodeEditor.t) :
  absent (CodeEditor.document e) needle ->
  CodeEditor.find needle backward e
  = (false, CodeEditor.log_call
              (CodeEditor.CallFind needle backward (CodeEditor.textCursor e)) e).
Proof.
  intros H. unfold CodeEditor.find. cbv zeta.
  cbn [CodeEditor.document CodeEditor.log_call CodeEditor.textCursor].
  rewrite (find_absent _ _ _ _ H). reflexivity.
Qed.

(** searchPrev shows no notification, whatever the search finds. *)
Lemma searchPrev_infoBars self : infoBars (searchPrev self) = infoBars self.
Proof.
  unfold searchPrev. cbv zeta.
  destruct (nonempty (searchEdit self)); cbn [negb]; [|reflexivity].
  destruct (CodeEditor.find (searchEdit self) true (editor self)) as [found e].
  destruct found; cbn [negb]; [reflexivity|].
  destruct (CodeEditor.find _ true _) as [found' e']. reflexivity.
Qed.

(** Forward search for an absent text: one search from the cursor, one
    move to the start, one search from there, then the warning. *)
Lemma searchNext_absent self :
  nonempty (searchEdit self) = true ->
  absent (CodeEditor.document (editor self)) (searchEdit self) ->
  infoBars (searchNext self) = infoBars self ++ [not_found_warning (searchEdit self)]
  /\ CodeEditor.call_log (editor (searchNext self))
     = CodeEditor.call_log (editor self)
       ++ [CodeEditor.CallFind (searchEdit self) false (CodeEditor.textCursor (editor self));
           CodeEditor.CallMoveCursor Start;
           CodeEditor.CallFind (searchEdit self) false {| anchor := 0; position := 0 |}].
Proof.
  intros Hne Habs. unfold searchNext. cbv zeta. rewrite Hne. cbn [negb].
  rewrite (editor_find_absent _ _ _ Habs). cbn [negb].
  cbn [editor set_editor searchEdit].
  rewrite editor_find_absent by exact Habs.
  cbn [negb show infoBars editor set_editor searchEdit].
  split; [reflexivity|].
  cbn [CodeEditor.call_log CodeEditor.log_call CodeEditor.moveCursor
       CodeEditor.setTextCursor CodeEditor.textCursor CodeEditor.document movePosition].
  rewrite <- !app_assoc. reflexivity.
Qed.

(** Backward search for an absent text: the same two searches around one
    move to the end, and nothing after them. *)
Lemma searchPrev_absent self :
  nonempty (searchEdit self) = true ->
  absent (CodeEditor.document (editor self)) (searchEdit self) ->
  infoBars (searchPrev self) = infoBars self
  /\ CodeEditor.call_log (editor (searchPrev self))
     = CodeEditor.call_log (editor self)
       ++ [CodeEditor.CallFind (searchEdit self) true (CodeEditor.textCursor (editor self));
           CodeEditor.CallMoveCursor End;
           CodeEditor.CallFind (searchEdit self) true
             (movePosition (CodeEditor.document (editor self)) End)].
Proof.
  intros Hne Habs. split; [apply searchPrev_infoBars|].
  unfold searchPrev. cbv zeta. rewrite Hne. cbn [negb].
  rewrite (editor_find_absent _ _ _ Habs). cbn [negb].
  cbn [editor set_editor searchEdit].
  rewrite editor_find_absent by exact Habs.
  cbn [editor set_editor searchEdit].
  cbn [CodeEditor.call_log CodeEditor.log_call CodeEditor.moveCursor
       CodeEditor.setTextCursor CodeEditor.textCursor CodeEditor.document].
  rewrite <- !app_assoc. reflexivity.
Qed.

Lemma absent_x_in_abc : absent [Examples.line Examples.abc] Examples.x.
Proof.
  intros i. unfold match_at, Examples.x.
  cbn [forallb map plainText join_blocks Examples.line text].
  do 4 (destruct i as [|i]; [reflexivity|]).
  reflexivity.
Qed.

End SearchFacts.

Module SearchTheorems.
Import Qt EditorInterface View SearchFacts.

(** C2, on the document "abc" with the search text "x", which does not
    occur in it.  searchNext searches from the cursor, moves to the
    start, searches again, and shows the not-found warning.  searchPrev
    searches backwards from the cursor, moves to the end, searches again,
    and shows nothing. *)
Theorem search_absent_text_on_abc :
  absent [Examples.line Examples.abc] Examples.x
  /\ infoBars (searchNext (Examples.page_searching [Examples.line Examples.abc] Examples.x))
     = [not_found_warning Examples.x]
  /\ CodeEditor.call_log
       (editor (searchNext (Examples.page_searching [Examples.line Examples.abc] Examples.x)))
     = [CodeEditor.CallFind Examples.x false {| anchor := 0; position := 0 |};
        CodeEditor.CallMoveCursor Start;
        CodeEditor.CallFind Examples.x false {| anchor := 0; position := 0 |}]
  /\ infoBars (searchPrev (Examples.page_searching [Examples.line Examples.abc] Examples.x))
     = []
  /\ CodeEditor.call_log
       (editor (searchPrev (Examples.page_searching [Examples.line Examples.abc] Examples.x)))
     = [CodeEditor.CallFind Examples.x true {| anchor := 0; position := 0 |};
        CodeEditor.CallMoveCursor End;
        CodeEditor.CallFind Examples.x true {| anchor := 3; position := 3 |}].
Proof.
  split; [exact absent_x_in_abc|].
  repeat split; vm_compute; reflexivity.
Qed.

End SearchTheorems.

(* ===================================================================== *)
(** * Opening and saving files *)
(* ===================================================================== *)

Module FileFacts.
Import Qt Exc EditorInterface View.

(** [openFile] with a path chosen, by cases on what the file system
    answers. *)
Lemma openFile_cases chosen app :
  Py.truthy chosen = true ->
  openFile chosen app =
  match Py.open_r chosen (os app) with
  | (inr e, w1) =>
      if Py.is_Exception e
      then (inl tt, {| page := showError (ExceptionText e) (page app); os := w1 |})
      else (inr e, {| page := page app; os := w1 |})
  | (inl data, w1) =>
      match Py.read chosen data w1 with
      | (inr e, w2) =>
          if Py.is_Exception e
          then (inl tt, {| page := showError (ExceptionText e) (page app);
                           os := Py.close chosen w2 |})
          else (inr e, {| page := page app; os := Py.close chosen w2 |})
      | (inl s, w2) =>
          (inl tt,
           {| page := showSuccess (Opened chosen)
                        (set_currentFile (Some chosen)
                           (set_editor (CodeEditor.setPlainText s (editor (page app)))
                                       (page app)));
              os := Py.close chosen w2 |})
      end
  end.
Proof.
  intros Ht. unfold openFile. rewrite Ht.
  unfold try_except, finally, mbind, M_bind, bind, on_os, on_page, modify, os_step.
  cbn [page os].
  destruct (Py.open_r chosen (os app)) as [[data|e] w1]; cbn [page os].
  - destruct (Py.read chosen data w1) as [[s|e] w2]; cbn [page os]; reflexivity.
  - reflexivity.
Qed.

Lemma openFile_cancelled app : openFile EmptyString app = (inl tt, app).
Proof. reflexivity. Qed.

(** Every exception of the file system and of the codec is an
    [Exception]. *)
Lemma open_r_is_Exception path w e w' :
  Py.open_r path w = (inr e, w') -> Py.is_Exception e = true.
Proof.
  unfold Py.open_r. cbv zeta.
  destruct (Py.files _ !! path) as [[data r wr|]|]; [destruct r| |];
    intros H; inversion H; reflexivity.
Qed.

Lemma read_is_Exception path data w e w' :
  Py.read path data w = (inr e, w') -> Py.is_Exception e = true.
Proof.
  unfold Py.read. cbv zeta.
  destruct (Py.utf8_decode data); intros H; inversion H; reflexivity.
Qed.

Lemma open_w_is_Exception path w e w' :
  Py.open_w path w = (inr e, w') -> Py.is_Exception e = true.
Proof.
  unfold Py.open_w. cbv zeta.
  destruct (Py.files _ !! path) as [[data r wr|]|];
    [destruct wr| |destruct (Py.creatable _ path)];
    intros H; inversion H; reflexivity.
Qed.

Lemma write_is_Exception path s w e w' :
  Py.write path s w = (inr e, w') -> Py.is_Exception e = true.
Proof.
  unfold Py.write. cbv zeta.
  destruct (Py.utf8_encode _); [destruct (Py.files _ !! path) as [[]|]|];
    intros H; inversion H; reflexivity.
Qed.

Lemma opens_app l l' : opens (l ++ l') = (opens l + opens l')%nat.
Proof. unfold opens. rewrite List.filter_app, List.length_app. reflexivity. Qed.

(** The logs of the four calls. *)
Lemma open_r_log path w r w' :
  Py.open_r path w = (r, w') ->
  Py.io_log w' = Py.io_log w ++ [Py.SysOpen path Py.ModeR] /\ Py.files w' = Py.files w.
Proof.
  unfold Py.open_r. cbv zeta.
  destruct (Py.files _ !! path) as [[data rd wr|]|]; [destruct rd| |];
    intros H; inversion H; split; reflexivity.
Qed.

Lemma read_log path data w r w' :
  Py.read path data w = (r, w') ->
  Py.io_log w' = Py.io_log w ++ [Py.SysRead path] /\ Py.files w' = Py.files w.
Proof.
  unfold Py.read. cbv zeta.
  destruct (Py.utf8_decode data); intros H; inversion H; split; reflexivity.
Qed.

Lemma open_w_log path w r w' :
  Py.open_w path w = (r, w') ->
  Py.io_log w' = Py.io_log w ++ [Py.SysOpen path Py.ModeW].
Proof.
  unfold Py.open_w. cbv zeta.
  destruct (Py.files _ !! path) as [[data rd wr|]|];
    [destruct wr| |destruct (Py.creatable _ path)];
    intros H; inversion H; reflexivity.
Qed.

Lemma write_log path s w r w' :
  Py.write path s w = (r, w') ->
  Py.io_log w' = Py.io_log w ++ [Py.SysWrite path].
Proof.
  unfold Py.write. cbv zeta.
  destruct (Py.utf8_encode _); [destruct (Py.files _ !! path) as [[]|]|];
    intros H; inversion H; reflexivity.
Qed.

(** A failed [openFile]: it returns, shows the error, leaves the page
    otherwise alone, and has called [open] once. *)
Lemma openFile_failure chosen app e :
  Py.truthy chosen = true -> slurp chosen (os app) = inr e ->
  exists w',
    openFile chosen app
    = (inl tt, {| page := showError (ExceptionText e) (page app); os := w' |})
    /\ opens (Py.io_log w') = S (opens (Py.io_log (os app)))
    /\ Py.files w' = Py.files (os app).
Proof.
  intros Ht Hs. rewrite (openFile_cases _ _ Ht). unfold slurp in Hs.
  destruct (Py.open_r chosen (os app)) as [[data|e1] w1] eqn:Eo.
  - destruct (Py.read chosen data w1) as [[s|e2] w2] eqn:Er; cbn [fst] in Hs;
      [discriminate|]. injection Hs as ->.
    rewrite (read_is_Exception _ _ _ _ _ Er).
    destruct (open_r_log _ _ _ _ Eo) as [Hl1 Hf1].
    destruct (read_log _ _ _ _ _ Er) as [Hl2 Hf2].
    exists (Py.close chosen w2). split; [reflexivity|].
    cbn [Py.close Py.log_call Py.io_log Py.files].
    rewrite Hl2, Hl1, Hf2, Hf1, !opens_app. cbn. split; [lia|reflexivity].
  - injection Hs as ->. rewrite (open_r_is_Exception _ _ _ _ Eo).
    destruct (open_r_log _ _ _ _ Eo) as [Hl1 Hf1].
    exists w1. split; [reflexivity|].
    rewrite Hl1, Hf1, opens_app. cbn. split; [lia|reflexivity].
Qed.

(** A successful [openFile]. *)
Lemma openFile_success chosen app s :
  Py.truthy chosen = true -> slurp chosen (os app) = inl s ->
  exists w',
    openFile chosen app
    = (inl tt,
       {| page := showSuccess (Opened chosen)
                    (set_currentFile (Some chosen)
                       (set_editor (CodeEditor.setPlainText s (editor (page app)))
                                   (page app)));
          os := w' |})
    /\ Py.files w' = Py.files (os app)
    /\ Py.linesep w' = Py.linesep (os app)
    /\ Py.creatable w' = Py.creatable (os app).
Proof.
  intros Ht Hs. rewrite (openFile_cases _ _ Ht). unfold slurp in Hs.
  destruct (Py.open_r chosen (os app)) as [[data|e1] w1] eqn:Eo; [|discriminate].
  destruct (Py.read chosen data w1) as [[s'|e2] w2] eqn:Er; cbn [fst] in Hs;
    [|discriminate]. injection Hs as ->.
  exists (Py.close chosen w2). split; [reflexivity|].
  unfold Py.open_r in Eo. cbv zeta in Eo. unfold Py.read in Er. cbv zeta in Er.
  destruct (Py.files _ !! chosen) as [[d rd wr|]|]; [destruct rd| |];
    inversion Eo; subst.
  destruct (Py.utf8_decode data); inversion Er; subst.
  repeat split.
Qed.

Lemma saveFile_cancelled chosen app :
  save_target (page app) chosen = None -> saveFile chosen app = (inl tt, app).
Proof.
  unfold save_target, saveFile.
  unfold try_except, finally, mbind, M_bind, bind, on_os, on_page, modify, os_step,
    get, mret, M_ret, ret.
  destruct (Py.truthy_opt (currentFile (page app))) eqn:Hc; cbn [negb].
  - destruct (currentFile (page app)); [discriminate|discriminate].
  - destruct (Py.truthy chosen); cbn [negb]; [discriminate|reflexivity].
Qed.

(** [saveFile] with a path to write to, by cases on what the file system
    answers. *)
Lemma saveFile_cases chosen app path :
  save_target (page app) chosen = Some path ->
  saveFile chosen app =
  match Py.open_w path (os app) with
  | (inr e, w1) =>
      if Py.is_Exception e
      then (inl tt, {| page := showError (ExceptionText e) (page_saving (page app) chosen);
                       os := w1 |})
      else (inr e, {| page := page_saving (page app) chosen; os := w1 |})
  | (inl _, w1) =>
      match Py.write path (CodeEditor.toPlainText (editor (page app))) w1 with
      | (inr e, w2) =>
          if Py.is_Exception e
          then (inl tt, {| page := showError (ExceptionText e)
                                     (page_saving (page app) chosen);
                           os := Py.close path w2 |})
          else (inr e, {| page := page_saving (page app) chosen;
                          os := Py.close path w2 |})
      | (inl _, w2) =>
          (inl tt, {| page := showSuccess (Saved (Some path))
                                (page_saving (page app) chosen);
                      os := Py.close path w2 |})
      end
  end.
Proof.
  unfold save_target, saveFile, page_saving.
  unfold try_except, finally, mbind, M_bind, bind, on_os, on_page, modify, os_step,
    get, mret, M_ret, ret, open_currentFile_w.
  destruct (Py.truthy_opt (currentFile (page app))) eqn:Hc; cbn [negb page os].
  - intros Hp. rewrite Hp.
    unfold mbind, M_bind, bind, on_os, mret, M_ret, ret. cbn [page os].
    destruct (Py.open_w path (os app)) as [[[]|e] w1]; cbn [page os]; [|reflexivity].
    destruct (Py.write path _ w1) as [[[]|e] w2]; cbn [page os];
      rewrite ?Hp; reflexivity.
  - destruct (Py.truthy chosen) eqn:Ht; cbn [negb page os]; [|discriminate].
    intros Hp. injection Hp as ->.
    cbn [currentFile set_currentFile editor].
    unfold mbind, M_bind, bind, on_os, mret, M_ret, ret. cbn [page os].
    destruct (Py.open_w path (os app)) as [[[]|e] w1]; cbn [page os]; [|reflexivity].
    destruct (Py.write path _ w1) as [[[]|e] w2]; cbn [page os]; reflexivity.
Qed.

Lemma infoBars_page_saving self chosen :
  infoBars (page_saving self chosen) = infoBars self.
Proof. unfold page_saving. destruct (Py.truthy_opt _); reflexivity. Qed.

Lemma editor_page_saving self chosen :
  editor (page_saving self chosen) = editor self.
Proof. unfold page_saving. destruct (Py.truthy_opt _); reflexivity. Qed.

(** A failed [saveFile]: it returns, shows the error, and has called
    [open] once. *)
Lemma saveFile_failure chosen app path e :
  save_target (page app) chosen = Some path ->
  spit path (CodeEditor.toPlainText (editor (page app))) (os app) = inr e ->
  exists w',
    saveFile chosen app
    = (inl tt, {| page := showError (ExceptionText e) (page_saving (page app) chosen);
                  os := w' |})
    /\ opens (Py.io_log w') = S (opens (Py.io_log (os app))).
Proof.
  intros Hp Hs. rewrite (saveFile_cases _ _ _ Hp). unfold spit in Hs.
  destruct (Py.open_w path (os app)) as [[[]|e1] w1] eqn:Eo.
  - destruct (Py.write path _ w1) as [[[]|e2] w2] eqn:Ew; cbn [fst] in Hs;
      [discriminate|]. injection Hs as ->.
    rewrite (write_is_Exception _ _ _ _ _ Ew).
    pose proof (open_w_log _ _ _ _ Eo) as Hl1.
    pose proof (write_log _ _ _ _ _ Ew) as Hl2.
    exists (Py.close path w2). split; [reflexivity|].
    cbn [Py.close Py.log_call Py.io_log].
    rewrite Hl2, Hl1, !opens_app. cbn. lia.
  - injection Hs as ->. rewrite (open_w_is_Exception _ _ _ _ Eo).
    pose proof (open_w_log _ _ _ _ Eo) as Hl1.
    exists w1. split; [reflexivity|].
    rewrite Hl1, opens_app. cbn. lia.
Qed.

End FileFacts.

Module FileErrorTheorems.
Import Qt Exc EditorInterface View FileFacts.

(** C7. When the file dialog gives a path and opening or reading the
    file raises an exception, openFile catches it: it returns normally,
    the notifications gain exactly one error notification carrying the
    exception, [open] has been called exactly once, and no file has
    changed.  When saveFile has a path to write to and opening it for
    writing or writing raises an exception, saveFile catches it: it
    returns normally, the notifications gain exactly one error
    notification carrying the exception, and [open] has been called
    exactly once. *)
Theorem file_errors_are_reported (chosen : string) (app : App) (e : Py.exn) :
  (Py.truthy chosen = true -> slurp chosen (os app) = inr e ->
   exists app',
     openFile chosen app = (inl tt, app')
     /\ infoBars (page app') = infoBars (page app) ++ [error_bar e]
     /\ opens (Py.io_log (os app')) = S (opens (Py.io_log (os app)))
     /\ Py.files (os app') = Py.files (os app))
  /\ (forall path,
        save_target (page app) chosen = Some path ->
        spit path (CodeEditor.toPlainText (editor (page app))) (os app) = inr e ->
        exists app',
          saveFile chosen app = (inl tt, app')
          /\ infoBars (page app') = infoBars (page app) ++ [error_bar e]
          /\ opens (Py.io_log (os app')) = S (opens (Py.io_log (os app)))).
Proof.
  split.
  - intros Ht Hs. destruct (openFile_failure _ _ _ Ht Hs) as (w' & Heq & Hop & Hf).
    eexists. split; [exact Heq|]. cbn [page os]. repeat split; assumption.
  - intros path Hp Hs.
    destruct (saveFile_failure _ _ _ _ Hp Hs) as (w' & Heq & Hop).
    eexists. split; [exact Heq|]. cbn [page os showError show infoBars].
    rewrite infoBars_page_saving. split; [reflexivity|exact Hop].
Qed.

Lemma file_errors_are_reported_witness :
  (exists app',
     openFile "ro.txt" (Examples.app_of (Examples.world_with "ro.txt" [] false false Py.PosixLF))
     = (inl tt, app')
     /\ infoBars (page app') = [error_bar (Py.PermissionError "ro.txt")]
     /\ opens (Py.io_log (os app')) = 1%nat)
  /\ (exists app',
        saveFile "ro.txt" (Examples.app_of (Examples.world_with "ro.txt" [] false false Py.PosixLF))
        = (inl tt, app')
        /\ infoBars (page app') = [error_bar (Py.PermissionError "ro.txt")]
        /\ opens (Py.io_log (os app')) = 1%nat).
Proof.
  destruct (file_errors_are_reported "ro.txt"
              (Examples.app_of (Examples.world_with "ro.txt" [] false false Py.PosixLF))
              (Py.PermissionError "ro.txt")) as [Hopen Hsave].
  split.
  - destruct (Hopen eq_refl eq_refl) as (app' & H1 & H2 & H3 & _).
    exists app'. repeat split; assumption.
  - destruct (Hsave "ro.txt"%string eq_refl eq_refl) as (app' & H1 & H2 & H3).
    exists app'. repeat split; assumption.
Defined.

(** C9. If opening or reading the chosen file raises an exception, a
    decode error included, openFile leaves the editor (its document and
    its cursor) and currentFile exactly as they were.  If the dialog gave
    a path and the whole read succeeds, the editor's text is set to what
    was read and currentFile becomes the path. *)
Theorem openFile_atomic (chosen : string) (app : App) :
  (forall e, slurp chosen (os app) = inr e ->
     editor (page (snd (openFile chosen app))) = editor (page app)
     /\ currentFile (page (snd (openFile chosen app))) = currentFile (page app))
  /\ (forall s, Py.truthy chosen = true -> slurp chosen (os app) = inl s ->
        editor (page (snd (openFile chosen app)))
        = CodeEditor.setPlainText s (editor (page app))
        /\ currentFile (page (snd (openFile chosen app))) = Some chosen).
Proof.
  split.
  - intros e Hs. destruct (Py.truthy chosen) eqn:Ht.
    + destruct (openFile_failure _ _ _ Ht Hs) as (w' & -> & _). split; reflexivity.
    + destruct chosen; [|discriminate]. rewrite openFile_cancelled.
      split; reflexivity.
  - intros s Ht Hs.
    destruct (openFile_success _ _ _ Ht Hs) as (w' & -> & _). split; reflexivity.
Qed.

Lemma openFile_atomic_witness :
  slurp "bad.txt" (Examples.world_with "bad.txt" [xff] true true Py.PosixLF)
  = inr Py.UnicodeDecodeError
  /\ editor (page (snd (openFile "bad.txt"
                (Examples.app_of (Examples.world_with "bad.txt" [xff] true true Py.PosixLF)))))
     = Examples.editor_of [Examples.line Examples.abc]
  /\ currentFile (page (snd (openFile "bad.txt"
                (Examples.app_of (Examples.world_with "bad.txt" [xff] true true Py.PosixLF)))))
     = None.
Proof.
  split; [reflexivity|].
  exact (proj1 (openFile_atomic "bad.txt"
                  (Examples.app_of (Examples.world_with "bad.txt" [xff] true true Py.PosixLF)))
               Py.UnicodeDecodeError eq_refl).
Defined.

End FileErrorTheorems.

(* ===================================================================== *)
(** * Opening a file and saving it again *)
(* ===================================================================== *)

Module Utf8Facts.

Local Open Scope N_scope.

(** Linear arithmetic over [N] with division and remainder by
    constants. *)
Ltac divmod_lia := zify; Z.to_euclidean_division_equations; lia.

Lemma byte_of_to_N b : Py.byte_of (Byte.to_N b) = b.
Proof. unfold Py.byte_of. rewrite Byte.of_to_N. reflexivity. Qed.

Lemma is_cont_range n : Py.is_cont n = true -> 0x80 <= n <= 0xBF.
Proof.
  unfold Py.is_cont. intros H. apply andb_true_iff in H as [H1 H2].
  apply N.leb_le in H1, H2. lia.
Qed.

Lemma encode2 n0 n1 :
  0xC0 <= n0 < 0xE0 -> Py.is_cont n1 = true ->
  0x80 <= (n0 - 0xC0) * 64 + (n1 - 0x80) ->
  Py.utf8_encode_char ((n0 - 0xC0) * 64 + (n1 - 0x80))
  = Some [Py.byte_of n0; Py.byte_of n1].
Proof.
  intros H0 H1 Hcp. apply is_cont_range in H1.
  unfold Py.utf8_encode_char.
  set (cp := (n0 - 0xC0) * 64 + (n1 - 0x80)) in *.
  destruct (N.ltb_spec cp 0x80); [lia|].
  destruct (N.ltb_spec cp 0x800); [|subst cp; lia].
  replace (0xC0 + cp / 64) with n0 by (subst cp; divmod_lia).
  replace (0x80 + cp mod 64) with n1 by (subst cp; divmod_lia).
  reflexivity.
Qed.

Lemma encode3 n0 n1 n2 :
  0xE0 <= n0 < 0xF0 -> Py.is_cont n1 = true -> Py.is_cont n2 = true ->
  0x800 <= (n0 - 0xE0) * 4096 + (n1 - 0x80) * 64 + (n2 - 0x80) ->
  Py.is_surrogate ((n0 - 0xE0) * 4096 + (n1 - 0x80) * 64 + (n2 - 0x80)) = false ->
  Py.utf8_encode_char ((n0 - 0xE0) * 4096 + (n1 - 0x80) * 64 + (n2 - 0x80))
  = Some [Py.byte_of n0; Py.byte_of n1; Py.byte_of n2].
Proof.
  intros H0 H1 H2 Hcp Hsur. apply is_cont_range in H1, H2.
  unfold Py.utf8_encode_char. rewrite Hsur.
  set (cp := (n0 - 0xE0) * 4096 + (n1 - 0x80) * 64 + (n2 - 0x80)) in *.
  destruct (N.ltb_spec cp 0x80); [lia|].
  destruct (N.ltb_spec cp 0x800); [lia|].
  destruct (N.ltb_spec cp 0x10000); [|subst cp; lia].
  replace (0xE0 + cp / 4096) with n0 by (subst cp; divmod_lia).
  replace (0x80 + (cp / 64) mod 64) with n1 by (subst cp; divmod_lia).
  replace (0x80 + cp mod 64) with n2 by (subst cp; divmod_lia).
  reflexivity.
Qed.

Lemma encode4 n0 n1 n2 n3 :
  0xF0 <= n0 < 0xF8 -> Py.is_cont n1 = true -> Py.is_cont n2 = true ->
  Py.is_cont n3 = true ->
  0x10000 <= (n0 - 0xF0) * 262144 + (n1 - 0x80) * 4096 + (n2 - 0x80) * 64 + (n3 - 0x80)
          <= 0x10FFFF ->
  Py.utf8_encode_char
    ((n0 - 0xF0) * 262144 + (n1 - 0x80) * 4096 + (n2 - 0x80) * 64 + (n3 - 0x80))
  = Some [Py.byte_of n0; Py.byte_of n1; Py.byte_of n2; Py.byte_of n3].
Proof.
  intros H0 H1 H2 H3 Hcp. apply is_cont_range in H1, H2, H3.
  unfold Py.utf8_encode_char.
  set (cp := (n0 - 0xF0) * 262144 + (n1 - 0x80) * 4096 + (n2 - 0x80) * 64 + (n3 - 0x80)) in *.
  destruct (N.ltb_spec cp 0x80); [lia|].
  destruct (N.ltb_spec cp 0x800); [lia|].
  destruct (N.ltb_spec cp 0x10000); [lia|].
  destruct (N.leb_spec cp 0x10FFFF); [|lia].
  replace (0xF0 + cp / 262144) with n0 by (subst cp; divmod_lia).
  replace (0x80 + (cp / 4096) mod 64) with n1 by (subst cp; divmod_lia).
  replace (0x80 + (cp / 64) mod 64) with n2 by (subst cp; divmod_lia).
  replace (0x80 + cp mod 64) with n3 by (subst cp; divmod_lia).
  reflexivity.
Qed.

Lemma encode1 n0 :
  n0 < 0x80 -> Py.utf8_encode_char n0 = Some [Py.byte_of n0].
Proof.
  intros H. unfold Py.utf8_encode_char.
  destruct (N.ltb_spec n0 0x80); [reflexivity|lia].
Qed.

Lemma option_map_cons_Some (c : N) (o : option (list N)) s :
  option_map (cons c) o = Some s -> exists s', o = Some s' /\ s = c :: s'.
Proof.
  destruct o as [s'|]; cbn; intros H; [|discriminate].
  injection H as <-. exists s'. split; reflexivity.
Qed.

Lemma utf8_encode_cons cp s bs bs' :
  Py.utf8_encode_char cp = Some bs -> Py.utf8_encode s = Some bs' ->
  Py.utf8_encode (cp :: s) = Some (bs ++ bs').
Proof. intros H H'. cbn [Py.utf8_encode]. rewrite H, H'. reflexivity. Qed.

(** Decoding is injective in the strongest way: encoding what was decoded
    gives the bytes back. *)
Lemma utf8_encode_decode_bounded n :
  forall bs, (length bs <= n)%nat ->
  forall s, Py.utf8_decode bs = Some s -> Py.utf8_encode s = Some bs.
Proof.
  induction n as [|n IH]; intros bs Hlen s Hdec.
  - destruct bs; [|cbn in Hlen; lia]. cbn in Hdec. injection Hdec as <-. reflexivity.
  - destruct bs as [|b0 r0]; [cbn in Hdec; injection Hdec as <-; reflexivity|].
    cbn [length] in Hlen. cbn [Py.utf8_decode] in Hdec. cbv zeta in Hdec.
    destruct (N.ltb_spec (Byte.to_N b0) 0x80) as [H1|H1].
    { apply option_map_cons_Some in Hdec as (s' & Hs' & ->).
      rewrite (utf8_encode_cons _ _ _ _ (encode1 _ H1) (IH r0 ltac:(lia) _ Hs')).
      rewrite byte_of_to_N. reflexivity. }
    destruct (N.ltb_spec (Byte.to_N b0) 0xC0) as [H2|H2]; [discriminate|].
    destruct (N.ltb_spec (Byte.to_N b0) 0xE0) as [H3|H3].
    { destruct r0 as [|b1 r1]; [discriminate|]. cbn [length] in Hlen.
      destruct (Py.is_cont (Byte.to_N b1)) eqn:Hc1; [|discriminate].
      cbn [andb] in Hdec.
      destruct (N.leb_spec 0x80
                  ((Byte.to_N b0 - 0xC0) * 64 + (Byte.to_N b1 - 0x80))) as [Hcp|Hcp];
        [|discriminate].
      apply option_map_cons_Some in Hdec as (s' & Hs' & ->).
      rewrite (utf8_encode_cons _ _ _ _
                 (encode2 _ _ (conj H2 H3) Hc1 Hcp) (IH r1 ltac:(lia) _ Hs')).
      rewrite !byte_of_to_N. reflexivity. }
    destruct (N.ltb_spec (Byte.to_N b0) 0xF0) as [H4|H4].
    { destruct r0 as [|b1 [|b2 r2]]; [discriminate|discriminate|].
      cbn [length] in Hlen.
      destruct (Py.is_cont (Byte.to_N b1)) eqn:Hc1; [|discriminate].
      destruct (Py.is_cont (Byte.to_N b2)) eqn:Hc2; [|discriminate].
      cbn [andb] in Hdec.
      destruct (N.leb_spec 0x800
                  ((Byte.to_N b0 - 0xE0) * 4096 + (Byte.to_N b1 - 0x80) * 64
                   + (Byte.to_N b2 - 0x80))) as [Hcp|Hcp]; [|discriminate].
      cbn [andb] in Hdec.
      destruct (Py.is_surrogate _) eqn:Hsur; [discriminate|]. cbn [negb] in Hdec.
      apply option_map_cons_Some in Hdec as (s' & Hs' & ->).
      rewrite (utf8_encode_cons _ _ _ _
                 (encode3 _ _ _ (conj H3 H4) Hc1 Hc2 Hcp Hsur)
                 (IH r2 ltac:(lia) _ Hs')).
      rewrite !byte_of_to_N. reflexivity. }
    destruct (N.ltb_spec (Byte.to_N b0) 0xF8) as [H5|H5]; [|discriminate].
    destruct r0 as [|b1 [|b2 [|b3 r3]]]; [discriminate|discriminate|discriminate|].
    cbn [length] in Hlen.
    destruct (Py.is_cont (Byte.to_N b1)) eqn:Hc1; [|discriminate].
    destruct (Py.is_cont (Byte.to_N b2)) eqn:Hc2; [|discriminate].
    destruct (Py.is_cont (Byte.to_N b3)) eqn:Hc3; [|discriminate].
    cbn [andb] in Hdec.
    destruct (N.leb_spec 0x10000
                ((Byte.to_N b0 - 0xF0) * 262144 + (Byte.to_N b1 - 0x80) * 4096
                 + (Byte.to_N b2 - 0x80) * 64 + (Byte.to_N b3 - 0x80))) as [Hlo|Hlo];
      [|discriminate].
    cbn [andb] in Hdec.
    destruct (N.leb_spec
                ((Byte.to_N b0 - 0xF0) * 262144 + (Byte.to_N b1 - 0x80) * 4096
                 + (Byte.to_N b2 - 0x80) * 64 + (Byte.to_N b3 - 0x80)) 0x10FFFF)
      as [Hhi|Hhi]; [|discriminate].
    apply option_map_cons_Some in Hdec as (s' & Hs' & ->).
    rewrite (utf8_encode_cons _ _ _ _
               (encode4 _ _ _ _ (conj H4 H5) Hc1 Hc2 Hc3 (conj Hlo Hhi))
               (IH r3 ltac:(lia) _ Hs')).
    rewrite !byte_of_to_N. reflexivity.
Qed.

Lemma utf8_encode_decode bs s :
  Py.utf8_decode bs = Some s -> Py.utf8_encode s = Some bs.
Proof. apply (utf8_encode_decode_bounded (length bs)). reflexivity. Qed.

End Utf8Facts.

Module TextFacts.
Import Qt View.

Local Open Scope N_scope.

(** Induction that follows a scan reading one or two characters at a
    time. *)
Lemma list_pair_ind {A} (P : list A -> Prop) :
  P [] -> (forall a, P [a]) ->
  (forall a b l, P l -> P (b :: l) -> P (a :: b :: l)) ->
  forall l, P l.
Proof.
  intros H0 H1 H2 l.
  assert (H : P l /\ forall a, P (a :: l)).
  { induction l as [|b l [IH1 IH2]]; [split; [exact H0|exact H1]|].
    split; [apply IH2|]. intros a. apply H2; [exact IH1|apply IH2]. }
  exact (proj1 H).
Qed.

(** ** Newline translation *)

Lemma read_translate_no_cr s : no_cr (Py.read_translate s) = true.
Proof.
  induction s as [|c|c c' s IH1 IH2] using list_pair_ind.
  - reflexivity.
  - cbn. destruct (c =? Py.CR) eqn:E; cbn; [reflexivity|]. rewrite E. reflexivity.
  - cbn [Py.read_translate]. destruct (c =? Py.CR) eqn:E.
    + destruct (c' =? Py.LF); cbn [no_cr forallb]; [exact IH1|exact IH2].
    + unfold no_cr. cbn [forallb]. rewrite E. exact IH2.
Qed.

Lemma read_translate_plain s :
  forallb qt_plain s = true -> forallb qt_plain (Py.read_translate s) = true.
Proof.
  induction s as [|c|c c' s IH1 IH2] using list_pair_ind; intros H.
  - reflexivity.
  - cbn. destruct (c =? Py.CR); [reflexivity|exact H].
  - cbn [forallb] in H. apply andb_true_iff in H as [Hc H].
    pose proof H as H'. cbn [forallb] in H'. apply andb_true_iff in H' as [Hc' H'].
    cbn [Py.read_translate]. destruct (c =? Py.CR).
    + destruct (c' =? Py.LF); cbn [forallb]; [exact (IH1 H')|exact (IH2 H)].
    + cbn [forallb]. rewrite Hc. exact (IH2 H).
Qed.

Lemma read_translate_id s : no_cr s = true -> Py.read_translate s = s.
Proof.
  induction s as [|c s IH]; intros H; [reflexivity|].
  cbn [no_cr forallb] in H. apply andb_true_iff in H as [Hc H].
  apply negb_true_iff in Hc.
  destruct s as [|c' s']; cbn [Py.read_translate]; rewrite Hc; [reflexivity|].
  f_equal. exact (IH H).
Qed.

Lemma write_translate_posix s : Py.write_translate Py.PosixLF s = s.
Proof.
  induction s as [|c s IH]; [reflexivity|]. cbn [Py.write_translate Py.linesep_chars].
  rewrite IH. destruct (N.eqb_spec c Py.LF) as [->|]; reflexivity.
Qed.

Lemma read_translate_other c s :
  (c =? Py.CR) = false -> Py.read_translate (c :: s) = c :: Py.read_translate s.
Proof. intros H. cbn [Py.read_translate]. rewrite H. reflexivity. Qed.

Lemma write_read_translate_crlf s :
  crlf_only s = true ->
  Py.write_translate Py.WindowsCRLF (Py.read_translate s) = s.
Proof.
  induction s as [|c|c c' s IH1 IH2] using list_pair_ind; intros H.
  - reflexivity.
  - cbn in H. cbn. destruct (c =? Py.CR); [discriminate|].
    rewrite andb_true_r in H. apply negb_true_iff in H. cbn. rewrite H. reflexivity.
  - cbn [crlf_only] in H.
    destruct (c =? Py.CR) eqn:Hc.
    + apply andb_true_iff in H as [Hc' H].
      apply N.eqb_eq in Hc, Hc'. subst c c'.
      change (Py.read_translate (Py.CR :: Py.LF :: s))
        with (Py.LF :: Py.read_translate s).
      cbn [Py.write_translate]. rewrite N.eqb_refl. cbn [Py.linesep_chars app].
      rewrite (IH1 H). reflexivity.
    + apply andb_true_iff in H as [Hlf H]. apply negb_true_iff in Hlf.
      rewrite (read_translate_other _ _ Hc).
      cbn [Py.write_translate]. rewrite Hlf. cbn [app]. rewrite (IH2 H). reflexivity.
Qed.

(** Reading a text whose line ends are the platform's and writing it
    back gives the text. *)
Lemma write_read_translate l s :
  native_newlines l s = true ->
  Py.write_translate l (Py.read_translate s) = s.
Proof.
  destruct l; cbn [native_newlines]; intros H.
  - rewrite (read_translate_id s H). apply write_translate_posix.
  - apply write_read_translate_crlf, H.
Qed.

(** ** The text document *)

Lemma split_blocks_nonempty s : exists b bs, split_blocks s = b :: bs.
Proof.
  induction s as [|c s IH]; [eexists _, _; reflexivity|].
  cbn [split_blocks]. destruct (is_block_break c).
  - destruct s as [|c' s']; [eexists _, _; reflexivity|].
    destruct ((c =? Py.CR) && (c' =? Py.LF)); eexists _, _; reflexivity.
  - destruct IH as (b & bs & ->). eexists _, _; reflexivity.
Qed.

Lemma join_blocks_cons_char c b bs :
  join_blocks ((c :: b) :: bs) = c :: join_blocks (b :: bs).
Proof. destruct bs; reflexivity. Qed.

Lemma join_blocks_empty_first b bs :
  join_blocks ([] :: b :: bs) = PARAGRAPH_SEP :: join_blocks (b :: bs).
Proof. reflexivity. Qed.

(** Without carriage returns, the buffer of the document made from [s]
    is [s] with every block boundary turned into U+2029. *)
Lemma join_split_blocks s :
  no_cr s = true ->
  join_blocks (split_blocks s)
  = map (fun c => if is_block_break c then PARAGRAPH_SEP else c) s.
Proof.
  induction s as [|c s IH]; intros H; [reflexivity|].
  cbn [no_cr forallb] in H. apply andb_true_iff in H as [Hc H].
  apply negb_true_iff in Hc. specialize (IH H).
  destruct (split_blocks_nonempty s) as (b & bs & Hs).
  cbn [split_blocks map]. rewrite Hc. cbn [andb].
  destruct (is_block_break c).
  - destruct s as [|c' s'].
    + reflexivity.
    + rewrite Hs in *. rewrite join_blocks_empty_first, IH. reflexivity.
  - rewrite Hs in *. rewrite join_blocks_cons_char, IH. reflexivity.
Qed.

Lemma to_plain_char_break c :
  (c =? Py.CR) = false -> qt_plain c = true ->
  to_plain_char (if is_block_break c then PARAGRAPH_SEP else c) = c.
Proof.
  unfold qt_plain, is_block_break, to_plain_char. intros Hcr Hp.
  apply negb_true_iff in Hp. rewrite Hcr, orb_false_r.
  destruct (c =? NBSP) eqn:E1; [discriminate|].
  destruct (c =? LINE_SEP) eqn:E2; [discriminate|].
  destruct (c =? PARAGRAPH_SEP) eqn:E3; [discriminate|].
  destruct (c =? FRAME_BEGIN) eqn:E4; [discriminate|].
  destruct (c =? FRAME_END) eqn:E5; [discriminate|].
  rewrite !orb_false_r.
  destruct (N.eqb_spec c Py.LF) as [->|Hlf]; cbn [orb].
  - reflexivity.
  - rewrite E1, E2, E3, E4, E5. reflexivity.
Qed.

(** Setting the text of the editor and reading it back gives the text,
    when it has no carriage return and none of the characters
    [toPlainText] replaces. *)
Lemma toPlainText_setPlainText s e :
  no_cr s = true -> forallb qt_plain s = true ->
  CodeEditor.toPlainText (CodeEditor.setPlainText s e) = s.
Proof.
  intros Hcr Hp. unfold CodeEditor.toPlainText, CodeEditor.setPlainText.
  cbn [CodeEditor.document CodeEditor.setTextCursor CodeEditor.set_document].
  unfold toPlainText, plainText, setPlainText.
  rewrite map_map. cbn [text]. rewrite map_id, (join_split_blocks s Hcr), map_map.
  clear e. induction s as [|c s IH]; [reflexivity|].
  cbn [no_cr forallb] in Hcr, Hp.
  apply andb_true_iff in Hcr as [Hc Hcr], Hp as [Hpc Hp].
  apply negb_true_iff in Hc. cbn [map].
  rewrite (to_plain_char_break c Hc Hpc), (IH Hcr Hp). reflexivity.
Qed.

End TextFacts.

Module RoundTripTheorems.
Import Qt Exc EditorInterface View FileFacts Utf8Facts TextFacts.

(** Reading a readable file whose bytes decode gives the decoded text
    with its newlines translated. *)
Lemma slurp_file path w F wr s :
  Py.files w !! path = Some (Py.File F true wr) ->
  Py.utf8_decode F = Some s ->
  slurp path w = inl (Py.read_translate s).
Proof.
  intros Hf Hd. unfold slurp, Py.open_r. cbv zeta.
  cbn [Py.files Py.log_call]. rewrite Hf.
  unfold Py.read. cbv zeta. rewrite Hd. reflexivity.
Qed.

(** Saving to a writable file stores the encoded text. *)
Lemma saveFile_writes chosen app path old r s bs :
  save_target (page app) chosen = Some path ->
  Py.files (os app) !! path = Some (Py.File old r true) ->
  Py.utf8_encode
    (Py.write_translate (Py.linesep (os app))
       (CodeEditor.toPlainText (editor (page app)))) = Some bs ->
  s = CodeEditor.toPlainText (editor (page app)) ->
  fst (saveFile chosen app) = inl tt
  /\ Py.file_bytes (os (snd (saveFile chosen app))) path = Some bs
  /\ infoBars (page (snd (saveFile chosen app)))
     = infoBars (page app)
       ++ [{| kind := Success; content := Saved (Some path) |}].
Proof.
  intros Hp Hf He ->. rewrite (saveFile_cases _ _ _ Hp).
  unfold Py.open_w. cbv zeta. cbn [Py.files Py.log_call]. rewrite Hf.
  unfold Py.write. cbv zeta.
  cbn [Py.files Py.log_call Py.set_file Py.linesep]. rewrite He.
  rewrite lookup_insert_eq.
  cbn [fst snd page os Py.close Py.log_call Py.set_file Py.files].
  split; [reflexivity|]. split.
  - unfold Py.file_bytes. cbn [Py.files Py.log_call Py.set_file Py.close].
    rewrite lookup_insert_eq. reflexivity.
  - cbn [showSuccess show infoBars]. rewrite infoBars_page_saving. reflexivity.
Qed.

(** C1, as amended.  Let F be a readable and writable file whose bytes
    are valid UTF-8, whose line ends are the platform's (no carriage
    return where os.linesep is a line feed; only carriage return + line
    feed pairs where it is that pair), and whose text has none of U+00A0,
    U+2028, U+2029, U+FDD0, U+FDD1.  Opening F and then saving, with no
    edit in between, succeeds (both operations return, and each shows its
    success notification and no other) and writes exactly the bytes of
    F. *)
Theorem open_then_save_keeps_bytes
  (path chosen : string) (app : App) (F : list byte) (s : list N) :
  Py.truthy path = true ->
  Py.files (os app) !! path = Some (Py.File F true true) ->
  Py.utf8_decode F = Some s ->
  native_newlines (Py.linesep (os app)) s = true ->
  forallb qt_plain s = true ->
  fst (openFile path app) = inl tt
  /\ fst (saveFile chosen (snd (openFile path app))) = inl tt
  /\ Py.file_bytes (os (snd (saveFile chosen (snd (openFile path app))))) path
     = Some F
  /\ infoBars (page (snd (saveFile chosen (snd (openFile path app)))))
     = infoBars (page app)
       ++ [{| kind := Success; content := Opened path |};
           {| kind := Success; content := Saved (Some path) |}].
Proof.
  intros Ht Hf Hd Hnl Hp.
  pose proof (slurp_file _ _ _ _ _ Hf Hd) as Hs.
  destruct (openFile_success _ _ _ Ht Hs) as (w' & Ho & Hfiles & Hsep & _).
  rewrite Ho. cbn [fst snd]. split; [reflexivity|].
  set (app1 := {| page := _; os := w' |}).
  assert (Htext : CodeEditor.toPlainText (editor (page app1)) = Py.read_translate s).
  { apply toPlainText_setPlainText;
      [apply read_translate_no_cr | apply read_translate_plain, Hp]. }
  assert (Htarget : save_target (page app1) chosen = Some path).
  { unfold save_target. cbn [app1 page currentFile showSuccess show set_currentFile].
    cbn [Py.truthy_opt]. rewrite Ht. reflexivity. }
  assert (Henc : Py.utf8_encode
                   (Py.write_translate (Py.linesep (os app1))
                      (CodeEditor.toPlainText (editor (page app1)))) = Some F).
  { rewrite Htext. cbn [app1 os]. rewrite Hsep, (write_read_translate _ _ Hnl).
    apply utf8_encode_decode, Hd. }
  assert (Hf1 : Py.files (os app1) !! path = Some (Py.File F true true)).
  { cbn [app1 os]. rewrite Hfiles. exact Hf. }
  destruct (saveFile_writes chosen app1 path F true _ F Htarget Hf1 Henc eq_refl)
    as (H1 & H2 & H3).
  split; [exact H1|]. split; [exact H2|].
  rewrite H3. cbn [app1 page showSuccess show infoBars].
  rewrite <- app_assoc. reflexivity.
Qed.

Lemma open_then_save_keeps_bytes_witness :
  Py.utf8_decode [x68; xc3; xa9; x0a] = Some [104; 233; 10]%N
  /\ fst (saveFile "" (snd (openFile "f.txt"
            (Examples.app_of
               (Examples.world_with "f.txt" [x68; xc3; xa9; x0a] true true Py.PosixLF)))))
     = inl tt
  /\ Py.file_bytes
       (os (snd (saveFile "" (snd (openFile "f.txt"
              (Examples.app_of
                 (Examples.world_with "f.txt" [x68; xc3; xa9; x0a] true true Py.PosixLF)))))))
       "f.txt"
     = Some [x68; xc3; xa9; x0a]
  /\ infoBars
       (page (snd (saveFile "" (snd (openFile "f.txt"
                (Examples.app_of
                   (Examples.world_with "f.txt" [x68; xc3; xa9; x0a] true true Py.PosixLF)))))))
     = [{| kind := Success; content := Opened "f.txt" |};
        {| kind := Success; content := Saved (Some "f.txt"%string) |}].
Proof.
  split; [reflexivity|].
  exact (proj2 (open_then_save_keeps_bytes "f.txt" ""
                  (Examples.app_of
                     (Examples.world_with "f.txt" [x68; xc3; xa9; x0a] true true Py.PosixLF))
                  [x68; xc3; xa9; x0a] [104; 233; 10]%N
                  eq_refl eq_refl eq_refl eq_refl eq_refl)).
Defined.

(** C1, as stated, fails.  Where os.linesep is a line feed, the file
    whose one byte is a carriage return is written back as a line feed.
    Where os.linesep is carriage return + line feed, the file whose one
    byte is a line feed is written back as two bytes.  On either, a
    no-break space (bytes C2 A0) is written back as a space. *)
Lemma open_then_save_changes_bytes :
  (Py.file_bytes (Examples.world_with "f.txt" [x0d] true true Py.PosixLF) "f.txt"
   = Some [x0d]
   /\ Py.file_bytes
        (os (snd (saveFile "" (snd (openFile "f.txt"
               (Examples.app_of (Examples.world_with "f.txt" [x0d] true true Py.PosixLF)))))))
        "f.txt"
      = Some [x0a])
  /\ Py.file_bytes
       (os (snd (saveFile "" (snd (openFile "f.txt"
              (Examples.app_of (Examples.world_with "f.txt" [x0a] true true Py.WindowsCRLF)))))))
       "f.txt"
     = Some [x0d; x0a]
  /\ Py.file_bytes
       (os (snd (saveFile "" (snd (openFile "f.txt"
              (Examples.app_of (Examples.world_with "f.txt" [xc2; xa0] true true Py.PosixLF)))))))
       "f.txt"
     = Some [x20].
Proof. repeat split; vm_compute; reflexivity. Qed.

End RoundTripTheorems.

(* ===================================================================== *)
(** * Further facts about the codec and the text document *)
(* ===================================================================== *)

Module Utf8MoreFacts.
Import Utf8Facts.

Local Open Scope N_scope.

Lemma to_N_byte_of n : n < 256 -> Byte.to_N (Py.byte_of n) = n.
Proof.
  intros H. unfold Py.byte_of. destruct (Byte.of_N n) as [b|] eqn:E.
  - apply Byte.to_of_N, E.
  - apply Byte.of_N_None_iff in E. lia.
Qed.

(** Decoding the bytes of one code point, followed by anything, gives
    the code point and then what the rest decodes to. *)
Lemma utf8_decode_encode_char cp bs rest :
  Py.utf8_encode_char cp = Some bs ->
  Py.utf8_decode (bs ++ rest) = option_map (cons cp) (Py.utf8_decode rest).
Proof.
  unfold Py.utf8_encode_char.
  destruct (N.ltb_spec cp 0x80) as [H1|H1].
  { intros H. injection H as <-. cbn [app Py.utf8_decode]. cbv zeta.
    rewrite to_N_byte_of by lia.
    destruct (N.ltb_spec cp 0x80); [reflexivity|lia]. }
  destruct (N.ltb_spec cp 0x800) as [H2|H2].
  { intros H. injection H as <-. cbn [app Py.utf8_decode]. cbv zeta.
    rewrite !to_N_byte_of by divmod_lia.
    destruct (N.ltb_spec (0xC0 + cp / 64) 0x80); [divmod_lia|].
    destruct (N.ltb_spec (0xC0 + cp / 64) 0xC0); [divmod_lia|].
    destruct (N.ltb_spec (0xC0 + cp / 64) 0xE0); [|divmod_lia].
    replace ((0xC0 + cp / 64 - 0xC0) * 64 + (0x80 + cp mod 64 - 0x80)) with cp
      by divmod_lia.
    replace (Py.is_cont (0x80 + cp mod 64)) with true
      by (symmetry; unfold Py.is_cont; apply andb_true_iff; split;
          apply N.leb_le; divmod_lia).
    destruct (N.leb_spec 0x80 cp); [reflexivity|lia]. }
  destruct (N.ltb_spec cp 0x10000) as [H3|H3].
  { destruct (Py.is_surrogate cp) eqn:Hs; [discriminate|].
    intros H. injection H as <-. cbn [app Py.utf8_decode]. cbv zeta.
    rewrite !to_N_byte_of by divmod_lia.
    destruct (N.ltb_spec (0xE0 + cp / 4096) 0x80); [divmod_lia|].
    destruct (N.ltb_spec (0xE0 + cp / 4096) 0xC0); [divmod_lia|].
    destruct (N.ltb_spec (0xE0 + cp / 4096) 0xE0); [divmod_lia|].
    destruct (N.ltb_spec (0xE0 + cp / 4096) 0xF0); [|divmod_lia].
    replace ((0xE0 + cp / 4096 - 0xE0) * 4096 + (0x80 + (cp / 64) mod 64 - 0x80) * 64
             + (0x80 + cp mod 64 - 0x80)) with cp by divmod_lia.
    replace (Py.is_cont (0x80 + (cp / 64) mod 64)) with true
      by (symmetry; unfold Py.is_cont; apply andb_true_iff; split;
          apply N.leb_le; divmod_lia).
    replace (Py.is_cont (0x80 + cp mod 64)) with true
      by (symmetry; unfold Py.is_cont; apply andb_true_iff; split;
          apply N.leb_le; divmod_lia).
    rewrite Hs. destruct (N.leb_spec 0x800 cp); [reflexivity|lia]. }
  destruct (N.leb_spec cp 0x10FFFF) as [H4|H4]; [|discriminate].
  intros H. injection H as <-. cbn [app Py.utf8_decode]. cbv zeta.
  rewrite !to_N_byte_of by divmod_lia.
  destruct (N.ltb_spec (0xF0 + cp / 262144) 0x80); [divmod_lia|].
  destruct (N.ltb_spec (0xF0 + cp / 262144) 0xC0); [divmod_lia|].
  destruct (N.ltb_spec (0xF0 + cp / 262144) 0xE0); [divmod_lia|].
  destruct (N.ltb_spec (0xF0 + cp / 262144) 0xF0); [divmod_lia|].
  destruct (N.ltb_spec (0xF0 + cp / 262144) 0xF8); [|divmod_lia].
  replace ((0xF0 + cp / 262144 - 0xF0) * 262144
           + (0x80 + (cp / 4096) mod 64 - 0x80) * 4096
           + (0x80 + (cp / 64) mod 64 - 0x80) * 64
           + (0x80 + cp mod 64 - 0x80)) with cp by divmod_lia.
  replace (Py.is_cont (0x80 + (cp / 4096) mod 64)) with true
    by (symmetry; unfold Py.is_cont; apply andb_true_iff; split;
        apply N.leb_le; divmod_lia).
  replace (Py.is_cont (0x80 + (cp / 64) mod 64)) with true
    by (symmetry; unfold Py.is_cont; apply andb_true_iff; split;
        apply N.leb_le; divmod_lia).
  replace (Py.is_cont (0x80 + cp mod 64)) with true
    by (symmetry; unfold Py.is_cont; apply andb_true_iff; split;
        apply N.leb_le; divmod_lia).
  destruct (N.leb_spec 0x10000 cp); [|lia].
  destruct (N.leb_spec cp 0x10FFFF); [reflexivity|lia].
Qed.

(** What was encoded decodes to the text. *)
Lemma utf8_decode_encode s :
  forall bs, Py.utf8_encode s = Some bs -> Py.utf8_decode bs = Some s.
Proof.
  induction s as [|cp s IH]; intros bs H.
  - injection H as <-. reflexivity.
  - cbn [Py.utf8_encode] in H.
    destruct (Py.utf8_encode_char cp) as [b1|] eqn:E1; [|discriminate].
    destruct (Py.utf8_encode s) as [b2|] eqn:E2; [|discriminate].
    injection H as <-.
    rewrite (utf8_decode_encode_char _ _ _ E1), (IH _ eq_refl). reflexivity.
Qed.

End Utf8MoreFacts.

Module TextMoreFacts.
Import Qt View More TextFacts.

Local Open Scope N_scope.

Lemma to_plain_char_plain c : qt_plain (to_plain_char c) = true.
Proof.
  unfold to_plain_char, qt_plain.
  destruct (c =? FRAME_BEGIN) eqn:E1; [reflexivity|].
  destruct (c =? FRAME_END) eqn:E2; [reflexivity|].
  destruct (c =? PARAGRAPH_SEP) eqn:E3; [reflexivity|].
  destruct (c =? LINE_SEP) eqn:E4; [reflexivity|].
  cbn [orb]. destruct (c =? NBSP) eqn:E5; [reflexivity|].
  rewrite E1, E2, E3, E4, E5. reflexivity.
Qed.

Lemma to_plain_char_not_cr c :
  (c =? Py.CR) = false -> (to_plain_char c =? Py.CR) = false.
Proof.
  intros H. unfold to_plain_char.
  destruct ((c =? FRAME_BEGIN) || (c =? FRAME_END) || (c =? PARAGRAPH_SEP)
            || (c =? LINE_SEP)); [reflexivity|].
  destruct (c =? NBSP); [reflexivity|exact H].
Qed.

(** What [toPlainText] returns never holds a character that
    [toPlainText] would replace. *)
Lemma toPlainText_plain e : forallb qt_plain (CodeEditor.toPlainText e) = true.
Proof.
  unfold CodeEditor.toPlainText, toPlainText.
  induction (plainText (CodeEditor.document e)) as [|c s IH]; [reflexivity|].
  cbn [map forallb]. rewrite to_plain_char_plain, IH. reflexivity.
Qed.

Lemma to_plain_char_break_gen c :
  (c =? Py.CR) = false ->
  to_plain_char (if is_block_break c then PARAGRAPH_SEP else c) = to_plain_char c.
Proof.
  intros Hcr. unfold is_block_break. rewrite Hcr, orb_false_r.
  destruct (N.eqb_spec c Py.LF) as [->|H1]; [reflexivity|].
  destruct (N.eqb_spec c PARAGRAPH_SEP) as [->|H2]; [reflexivity|].
  destruct (N.eqb_spec c FRAME_BEGIN) as [->|H3]; [reflexivity|].
  destruct (N.eqb_spec c FRAME_END) as [->|H4]; [reflexivity|].
  reflexivity.
Qed.

(** The text read back after [setPlainText s], for any [s] without
    carriage returns: [s] with the characters [toPlainText] replaces
    replaced. *)
Lemma toPlainText_setPlainText_gen s e :
  no_cr s = true ->
  CodeEditor.toPlainText (CodeEditor.setPlainText s e) = map to_plain_char s.
Proof.
  intros Hcr. unfold CodeEditor.toPlainText, CodeEditor.setPlainText.
  cbn [CodeEditor.document CodeEditor.setTextCursor CodeEditor.set_document].
  unfold toPlainText, plainText, setPlainText.
  rewrite map_map. cbn [text]. rewrite map_id, (join_split_blocks s Hcr), map_map.
  clear e. induction s as [|c s IH]; [reflexivity|].
  cbn [no_cr forallb] in Hcr. apply andb_true_iff in Hcr as [Hc Hcr].
  apply negb_true_iff in Hc. cbn [map].
  rewrite (to_plain_char_break_gen c Hc), (IH Hcr). reflexivity.
Qed.

(** ** Newlines, the other way round *)

Lemma read_write_translate l s :
  no_cr s = true -> Py.read_translate (Py.write_translate l s) = s.
Proof.
  induction s as [|c s IH]; intros H; [reflexivity|].
  cbn [no_cr forallb] in H. apply andb_true_iff in H as [Hc H].
  apply negb_true_iff in Hc. specialize (IH H).
  cbn [Py.write_translate].
  destruct (N.eqb_spec c Py.LF) as [->|Hlf].
  - destruct l; cbn [Py.linesep_chars app].
    + rewrite (read_translate_other Py.LF _ eq_refl), IH. reflexivity.
    + change (Py.read_translate (Py.CR :: Py.LF :: Py.write_translate Py.WindowsCRLF s))
        with (Py.LF :: Py.read_translate (Py.write_translate Py.WindowsCRLF s)).
      rewrite IH. reflexivity.
  - cbn [app]. rewrite (read_translate_other _ _ Hc), IH. reflexivity.
Qed.

(** ** Blocks *)

(** No block of [split_blocks s] holds a block boundary character. *)
Lemma split_blocks_no_break s :
  Forall (fun b => forallb (fun c => negb (is_block_break c)) b = true)
         (split_blocks s).
Proof.
  induction s as [|c|c c' s IH1 IH2] using list_pair_ind.
  - repeat constructor.
  - cbn. destruct (is_block_break c) eqn:E; repeat constructor.
    cbn. rewrite E. reflexivity.
  - change (split_blocks (c :: c' :: s))
      with (if is_block_break c
            then if (c =? Py.CR) && (c' =? Py.LF) then [] :: split_blocks s
                 else [] :: split_blocks (c' :: s)
            else match split_blocks (c' :: s) with
                 | b :: bs => (c :: b) :: bs
                 | [] => [[c]]
                 end).
    destruct (is_block_break c) eqn:E.
    + destruct ((c =? Py.CR) && (c' =? Py.LF)); constructor; auto.
    + destruct (split_blocks (c' :: s)) as [|b bs].
      * repeat constructor. cbn. rewrite E. reflexivity.
      * inversion IH2; subst. constructor; [|assumption].
        cbn [forallb]. rewrite E. cbn. assumption.
Qed.

Lemma join_blocks_no_cr bs :
  Forall (fun b => forallb (fun c => negb (is_block_break c)) b = true) bs ->
  no_cr (join_blocks bs) = true.
Proof.
  assert (Hb : forall b, forallb (fun c => negb (is_block_break c)) b = true ->
                         no_cr b = true).
  { induction b as [|c b IH]; [reflexivity|]. cbn [forallb no_cr].
    intros H. apply andb_true_iff in H as [Hc H].
    apply andb_true_iff. split; [|exact (IH H)].
    apply negb_true_iff in Hc. unfold is_block_break in Hc.
    apply orb_false_iff in Hc as [_ Hc]. rewrite Hc. reflexivity. }
  induction bs as [|b bs IH]; intros H; [reflexivity|].
  inversion H as [|? ? Hhd Htl]; subst.
  destruct bs as [|b' bs']; cbn [join_blocks]; [exact (Hb _ Hhd)|].
  unfold no_cr. rewrite forallb_app. apply andb_true_iff. split; [exact (Hb _ Hhd)|].
  cbn [forallb]. apply andb_true_iff. split; [reflexivity|]. exact (IH Htl).
Qed.

(** Whatever text is set, the text of the document holds no carriage
    return. *)
Lemma cr_free_setPlainText s e : cr_free (CodeEditor.setPlainText s e) = true.
Proof.
  unfold cr_free, CodeEditor.toPlainText, CodeEditor.setPlainText.
  cbn [CodeEditor.document CodeEditor.setTextCursor CodeEditor.set_document].
  unfold toPlainText, plainText, setPlainText.
  rewrite map_map. cbn [text]. rewrite map_id.
  pose proof (join_blocks_no_cr _ (split_blocks_no_break s)) as H.
  induction (join_blocks (split_blocks s)) as [|c t IH]; [reflexivity|].
  cbn [no_cr forallb] in H. apply andb_true_iff in H as [Hc H].
  apply negb_true_iff in Hc. cbn [map no_cr forallb].
  rewrite (to_plain_char_not_cr _ Hc). exact (IH H).
Qed.

Local Close Scope N_scope.

(** A text without carriage returns makes one block more than it has
    block boundaries. *)
Lemma split_blocks_length s :
  no_cr s = true -> length (split_blocks s) = S (break_count s).
Proof.
  unfold break_count.
  induction s as [|c s IH]; intros H; [reflexivity|].
  cbn [no_cr forallb] in H. apply andb_true_iff in H as [Hc H].
  apply negb_true_iff in Hc. specialize (IH H).
  destruct (split_blocks_nonempty s) as (b & bs & Hs).
  cbn [split_blocks List.filter]. rewrite Hc. cbn [andb].
  destruct (is_block_break c).
  - destruct s as [|c' s']; [reflexivity|]. cbn [length]. rewrite IH. reflexivity.
  - rewrite Hs in *. cbn [length] in *. exact IH.
Qed.

Lemma blockCount_setPlainText s e :
  no_cr s = true ->
  CodeEditor.blockCount (CodeEditor.setPlainText s e) = Z.of_nat (S (break_count s)).
Proof.
  intros H. unfold CodeEditor.blockCount, CodeEditor.setPlainText.
  cbn [CodeEditor.document CodeEditor.setTextCursor CodeEditor.set_document].
  unfold setPlainText. rewrite length_map, (split_blocks_length s H). reflexivity.
Qed.

End TextMoreFacts.

(* ===================================================================== *)
(** * More about opening and saving *)
(* ===================================================================== *)

Module FileMoreFacts.
Import Qt Exc EditorInterface View More FileFacts.

Lemma save_target_truthy self chosen path :
  save_target self chosen = Some path -> Py.truthy path = true.
Proof.
  unfold save_target. destruct (Py.truthy_opt (currentFile self)) eqn:Hc.
  - intros H. rewrite H in Hc. exact Hc.
  - destruct (Py.truthy chosen) eqn:Ht; [|discriminate].
    intros H. injection H as <-. exact Ht.
Qed.

Lemma currentFile_page_saving self chosen path :
  save_target self chosen = Some path ->
  currentFile (page_saving self chosen) = Some path.
Proof.
  unfold save_target, page_saving.
  destruct (Py.truthy_opt (currentFile self)); [auto|].
  destruct (Py.truthy chosen); [|discriminate]. intros H. exact H.
Qed.

(** [open_w] and [write] leave every other path alone. *)
Lemma open_w_other path w r w' p :
  Py.open_w path w = (r, w') -> p <> path ->
  Py.files w' !! p = Py.files w !! p.
Proof.
  unfold Py.open_w. cbv zeta. cbn [Py.files Py.log_call].
  intros H Hne.
  destruct (Py.files w !! path) as [[data rd wr|]|];
    [destruct wr| |destruct (Py.creatable _ path)];
    inversion H; subst; cbn [Py.files Py.set_file Py.log_call];
    rewrite ?lookup_insert_ne by congruence; reflexivity.
Qed.

Lemma write_other path s w r w' p :
  Py.write path s w = (r, w') -> p <> path ->
  Py.files w' !! p = Py.files w !! p.
Proof.
  unfold Py.write. cbv zeta. cbn [Py.files Py.log_call].
  intros H Hne.
  destruct (Py.utf8_encode _); [destruct (Py.files w !! path) as [[]|]|];
    inversion H; subst; cbn [Py.files Py.set_file Py.log_call];
    rewrite ?lookup_insert_ne by congruence; reflexivity.
Qed.

(** [open_w] when it can open: the file is there and empty. *)
Lemma open_w_ok path w :
  can_open_w w path = true ->
  exists r w',
    Py.open_w path w = (inl tt, w')
    /\ Py.files w' !! path = Some (Py.File [] r true)
    /\ (forall old r0 wr, Py.files w !! path = Some (Py.File old r0 wr) -> r = r0)
    /\ (Py.files w !! path = None -> r = true)
    /\ Py.linesep w' = Py.linesep w
    /\ Py.io_log w' = Py.io_log w ++ [Py.SysOpen path Py.ModeW].
Proof.
  unfold can_open_w, Py.open_w. cbv zeta. cbn [Py.files Py.log_call Py.creatable].
  destruct (Py.files w !! path) as [[data rd wr|]|] eqn:E; intros H;
    [subst wr|discriminate|rewrite H].
  - exists rd. eexists. split; [reflexivity|].
    cbn [Py.files Py.set_file Py.log_call Py.linesep Py.io_log].
    rewrite lookup_insert_eq. repeat split; try congruence.
  - exists true. eexists. split; [reflexivity|].
    cbn [Py.files Py.set_file Py.log_call Py.linesep Py.io_log].
    rewrite lookup_insert_eq. repeat split; congruence.
Qed.

Lemma open_w_fails path w :
  can_open_w w path = false -> exists e w', Py.open_w path w = (inr e, w').
Proof.
  unfold can_open_w, Py.open_w. cbv zeta. cbn [Py.files Py.log_call Py.creatable].
  destruct (Py.files w !! path) as [[data rd wr|]|]; intros H;
    [subst wr| |rewrite H]; eexists _, _; reflexivity.
Qed.

(** A save that can open its target, by what the encoder says. *)
Lemma saveFile_opened chosen app path :
  save_target (page app) chosen = Some path ->
  can_open_w (os app) path = true ->
  exists r w',
    Py.files w' !! path
    = Some (Py.File
              (match Py.utf8_encode
                       (Py.write_translate (Py.linesep (os app))
                          (CodeEditor.toPlainText (editor (page app)))) with
               | Some bs => bs
               | None => []
               end) r true)
    /\ (forall old r0 wr, Py.files (os app) !! path = Some (Py.File old r0 wr) -> r = r0)
    /\ (Py.files (os app) !! path = None -> r = true)
    /\ Py.linesep w' = Py.linesep (os app)
    /\ saveFile chosen app
       = (inl tt,
          {| page :=
               match Py.utf8_encode
                       (Py.write_translate (Py.linesep (os app))
                          (CodeEditor.toPlainText (editor (page app)))) with
               | Some _ => showSuccess (Saved (Some path)) (page_saving (page app) chosen)
               | None => showError (ExceptionText Py.UnicodeEncodeError)
                           (page_saving (page app) chosen)
               end;
             os := w' |}).
Proof.
  intros Hp Hw. rewrite (saveFile_cases _ _ _ Hp).
  destruct (open_w_ok _ _ Hw) as (r & w1 & Ho & Hf & Hr1 & Hr2 & Hsep & _).
  rewrite Ho. unfold Py.write. cbv zeta. cbn [Py.files Py.log_call Py.linesep].
  rewrite Hsep.
  destruct (Py.utf8_encode _) as [bs|].
  - rewrite Hf. exists r. eexists. split; [|split; [exact Hr1|split; [exact Hr2|]]].
    2: { split; [|reflexivity]. cbn [Py.close Py.log_call Py.set_file Py.linesep].
         exact Hsep. }
    cbn [Py.close Py.log_call Py.set_file Py.files].
    rewrite lookup_insert_eq. reflexivity.
  - exists r. eexists. split; [|split; [exact Hr1|split; [exact Hr2|]]].
    2: { split; [|reflexivity]. cbn [Py.close Py.log_call Py.linesep]. exact Hsep. }
    cbn [Py.close Py.log_call Py.files]. exact Hf.
Qed.

End FileMoreFacts.

Module FileMoreTheorems.
Import Qt Exc EditorInterface View More.
Import FileFacts FileMoreFacts Utf8Facts Utf8MoreFacts TextFacts TextMoreFacts.

(** X1. openFile never raises and never changes a file, whatever path
    the dialog gives and whatever is at that path; with the dialog
    cancelled it changes nothing at all. *)
Theorem openFile_never_writes (chosen : string) (app : App) :
  fst (openFile chosen app) = inl tt
  /\ Py.files (os (snd (openFile chosen app))) = Py.files (os app)
  /\ openFile EmptyString app = (inl tt, app).
Proof.
  split; [|split; [|reflexivity]].
  - destruct (Py.truthy chosen) eqn:Ht.
    + destruct (slurp chosen (os app)) as [s|e] eqn:Hs.
      * destruct (openFile_success _ _ _ Ht Hs) as (w' & -> & _). reflexivity.
      * destruct (openFile_failure _ _ _ Ht Hs) as (w' & -> & _). reflexivity.
    + destruct chosen; [reflexivity|discriminate].
  - destruct (Py.truthy chosen) eqn:Ht.
    + destruct (slurp chosen (os app)) as [s|e] eqn:Hs.
      * destruct (openFile_success _ _ _ Ht Hs) as (w' & -> & Hf & _). exact Hf.
      * destruct (openFile_failure _ _ _ Ht Hs) as (w' & -> & _ & Hf). exact Hf.
    + destruct chosen; [reflexivity|discriminate].
Qed.

(** X2. Given a path, openFile calls open once; if the open succeeds it
    reads once and closes the file, also when the read raises; if the
    open fails it makes no further call. *)
Theorem openFile_trace (chosen : string) (app : App) :
  Py.truthy chosen = true ->
  Py.io_log (os (snd (openFile chosen app)))
  = Py.io_log (os app) ++ open_trace (os app) chosen.
Proof.
  intros Ht. rewrite (openFile_cases _ _ Ht). unfold open_trace.
  destruct (Py.open_r chosen (os app)) as [[data|e] w1] eqn:Eo; cbn [fst].
  - destruct (open_r_log _ _ _ _ Eo) as [Hl1 _].
    destruct (Py.read chosen data w1) as [[s|e] w2] eqn:Er;
      destruct (read_log _ _ _ _ _ Er) as [Hl2 _].
    + cbn [snd os Py.close Py.log_call Py.io_log].
      rewrite Hl2, Hl1, <- !app_assoc. reflexivity.
    + rewrite (read_is_Exception _ _ _ _ _ Er).
      cbn [snd os Py.close Py.log_call Py.io_log].
      rewrite Hl2, Hl1, <- !app_assoc. reflexivity.
  - destruct (open_r_log _ _ _ _ Eo) as [Hl1 _].
    rewrite (open_r_is_Exception _ _ _ _ Eo). cbn [snd os]. exact Hl1.
Qed.

Lemma openFile_trace_witness :
  Py.io_log (os (snd (openFile "bad.txt"
     (Examples.app_of (Examples.world_with "bad.txt" [xff] true true Py.PosixLF)))))
  = [Py.SysOpen "bad.txt" Py.ModeR; Py.SysRead "bad.txt"; Py.SysClose "bad.txt"].
Proof.
  exact (openFile_trace "bad.txt"
           (Examples.app_of (Examples.world_with "bad.txt" [xff] true true Py.PosixLF))
           eq_refl).
Defined.

(** X3. saveFile never raises and never changes the editor; it changes
    no file other than the one it writes to, and makes exactly the calls
    open, then (if the open succeeded) write and close, also when the
    write raises.  With no current file and the dialog cancelled it
    changes nothing at all. *)
Theorem saveFile_frame (chosen : string) (app : App) :
  fst (saveFile chosen app) = inl tt
  /\ editor (page (snd (saveFile chosen app))) = editor (page app)
  /\ (forall p, save_target (page app) chosen <> Some p ->
        Py.files (os (snd (saveFile chosen app))) !! p = Py.files (os app) !! p)
  /\ Py.io_log (os (snd (saveFile chosen app)))
     = Py.io_log (os app)
       ++ match save_target (page app) chosen with
          | Some path => save_trace (os app) path
          | None => []
          end
  /\ (save_target (page app) chosen = None -> saveFile chosen app = (inl tt, app)).
Proof.
  destruct (save_target (page app) chosen) as [path|] eqn:Hp.
  2: { rewrite (saveFile_cancelled _ _ Hp). cbn [fst snd].
       rewrite app_nil_r. repeat split. }
  rewrite (saveFile_cases _ _ _ Hp). unfold save_trace.
  destruct (Py.open_w path (os app)) as [[[]|e] w1] eqn:Eo; cbn [fst].
  - pose proof (open_w_log _ _ _ _ Eo) as Hl1.
    destruct (Py.write path _ w1) as [[[]|e] w2] eqn:Ew;
      pose proof (write_log _ _ _ _ _ Ew) as Hl2;
      try rewrite (write_is_Exception _ _ _ _ _ Ew);
      cbn [fst snd page os showSuccess showError show editor];
      rewrite editor_page_saving;
      (split; [reflexivity|]); (split; [reflexivity|]);
      (split; [|split; [|discriminate]]).
    + intros p Hne. cbn [Py.close Py.log_call Py.files].
      rewrite (write_other _ _ _ _ _ p Ew), (open_w_other _ _ _ _ p Eo);
        congruence.
    + cbn [Py.close Py.log_call Py.io_log]. rewrite Hl2, Hl1, <- !app_assoc.
      reflexivity.
    + intros p Hne. cbn [Py.close Py.log_call Py.files].
      rewrite (write_other _ _ _ _ _ p Ew), (open_w_other _ _ _ _ p Eo);
        congruence.
    + cbn [Py.close Py.log_call Py.io_log]. rewrite Hl2, Hl1, <- !app_assoc.
      reflexivity.
  - rewrite (open_w_is_Exception _ _ _ _ Eo).
    cbn [fst snd page os showError show editor]. rewrite editor_page_saving.
    split; [reflexivity|]. split; [reflexivity|]. split; [|split; [|discriminate]].
    + intros p Hne. apply (open_w_other _ _ _ _ p Eo). congruence.
    + exact (open_w_log _ _ _ _ Eo).
Qed.

(** X4. With a current file, saveFile does not look at what the dialog
    would return: the outcome is the same for every answer. *)
Theorem saveFile_ignores_dialog (chosen chosen' : string) (app : App) :
  Py.truthy_opt (currentFile (page app)) = true ->
  saveFile chosen app = saveFile chosen' app.
Proof.
  intros Hc.
  assert (Ht : forall c, save_target (page app) c = currentFile (page app))
    by (intros c; unfold save_target; rewrite Hc; reflexivity).
  assert (Hs : forall c, page_saving (page app) c = page app)
    by (intros c; unfold page_saving; rewrite Hc; reflexivity).
  destruct (currentFile (page app)) as [path|] eqn:E; [|discriminate].
  rewrite (saveFile_cases chosen app path), (saveFile_cases chosen' app path)
    by (rewrite Ht; reflexivity).
  rewrite !Hs. reflexivity.
Qed.

Lemma saveFile_ignores_dialog_witness :
  saveFile "a.txt"
    (snd (openFile "f.txt"
       (Examples.app_of (Examples.world_with "f.txt" [x68] true true Py.PosixLF))))
  = saveFile ""
      (snd (openFile "f.txt"
         (Examples.app_of (Examples.world_with "f.txt" [x68] true true Py.PosixLF)))).
Proof.
  exact (saveFile_ignores_dialog "a.txt" ""
           (snd (openFile "f.txt"
              (Examples.app_of (Examples.world_with "f.txt" [x68] true true Py.PosixLF))))
           eq_refl).
Defined.

(** X5. With no current file and a path from the dialog, saveFile makes
    that path the current file before it writes: it is the current file
    afterwards whether the write succeeded or raised. *)
Theorem saveFile_binds_path (chosen : string) (app : App) :
  Py.truthy_opt (currentFile (page app)) = false ->
  Py.truthy chosen = true ->
  currentFile (page (snd (saveFile chosen app))) = Some chosen.
Proof.
  intros Hc Ht.
  assert (Hp : save_target (page app) chosen = Some chosen)
    by (unfold save_target; rewrite Hc, Ht; reflexivity).
  pose proof (currentFile_page_saving _ _ _ Hp) as Hcur.
  rewrite (saveFile_cases _ _ _ Hp).
  destruct (Py.open_w chosen (os app)) as [[[]|e] w1] eqn:Eo.
  - destruct (Py.write chosen _ w1) as [[[]|e] w2] eqn:Ew;
      try rewrite (write_is_Exception _ _ _ _ _ Ew); exact Hcur.
  - rewrite (open_w_is_Exception _ _ _ _ Eo). exact Hcur.
Qed.

Lemma saveFile_binds_path_witness :
  infoBars (page (snd (saveFile "ro.txt"
     (Examples.app_of (Examples.world_with "ro.txt" [] false false Py.PosixLF)))))
  = [error_bar (Py.PermissionError "ro.txt")]
  /\ currentFile (page (snd (saveFile "ro.txt"
        (Examples.app_of (Examples.world_with "ro.txt" [] false false Py.PosixLF)))))
     = Some "ro.txt"%string.
Proof.
  split; [reflexivity|].
  exact (saveFile_binds_path "ro.txt"
           (Examples.app_of (Examples.world_with "ro.txt" [] false false Py.PosixLF))
           eq_refl eq_refl).
Defined.

End FileMoreTheorems.

Module FileRoundTripTheorems.
Import Qt Exc EditorInterface View More.
Import FileFacts FileMoreFacts Utf8Facts Utf8MoreFacts TextFacts TextMoreFacts.

Lemma can_reopen_can_open w path :
  can_save_and_reopen w path = true -> can_open_w w path = true.
Proof.
  unfold can_save_and_reopen, can_open_w.
  destruct (Py.files w !! path) as [[d r wr|]|]; auto.
  intros H. apply andb_true_iff in H as [_ H]. exact H.
Qed.

(** X6. When saveFile can open its target for writing, the file ends up
    holding exactly the UTF-8 bytes of the editor's text with each line
    feed written as os.linesep, whatever it held before, and the success
    notification is shown.  If the text cannot be encoded, the file has
    already been truncated: it is left empty and the error is shown. *)
Theorem saveFile_replaces_content (chosen path : string) (app : App) :
  save_target (page app) chosen = Some path ->
  can_open_w (os app) path = true ->
  match Py.utf8_encode
          (Py.write_translate (Py.linesep (os app))
             (CodeEditor.toPlainText (editor (page app)))) with
  | Some bs =>
      Py.file_bytes (os (snd (saveFile chosen app))) path = Some bs
      /\ infoBars (page (snd (saveFile chosen app)))
         = infoBars (page app) ++ [success_bar (Saved (Some path))]
  | None =>
      Py.file_bytes (os (snd (saveFile chosen app))) path = Some []
      /\ infoBars (page (snd (saveFile chosen app)))
         = infoBars (page app) ++ [error_bar Py.UnicodeEncodeError]
  end.
Proof.
  intros Hp Hw.
  destruct (saveFile_opened _ _ _ Hp Hw) as (r & w' & Hf & _ & _ & _ & ->).
  cbn [snd page os]. unfold Py.file_bytes. rewrite Hf.
  destruct (Py.utf8_encode _) as [bs|];
    (split; [reflexivity|]);
    cbn [showSuccess showError show infoBars];
    rewrite infoBars_page_saving; reflexivity.
Qed.

Lemma saveFile_replaces_content_witness :
  Py.file_bytes
    (os (snd (saveFile ""
       (More.on_world
          (set_currentFile (Some "f.txt"%string)
             (Examples.page_of [Examples.line [0xD800%N]]))
          (Examples.world_with "f.txt" [x68; x69] true true Py.PosixLF)))))
    "f.txt"
  = Some []
  /\ infoBars
       (page (snd (saveFile ""
          (More.on_world
             (set_currentFile (Some "f.txt"%string)
                (Examples.page_of [Examples.line [0xD800%N]]))
             (Examples.world_with "f.txt" [x68; x69] true true Py.PosixLF)))))
     = [error_bar Py.UnicodeEncodeError].
Proof.
  exact (saveFile_replaces_content "" "f.txt"
           (More.on_world
              (set_currentFile (Some "f.txt"%string)
                 (Examples.page_of [Examples.line [0xD800%N]]))
              (Examples.world_with "f.txt" [x68; x69] true true Py.PosixLF))
           eq_refl eq_refl).
Defined.

(** X7. Saving and then opening the saved file gives the editor the same
    text again: if the text has no carriage return and can be encoded,
    and the target can be written and read, then after saveFile followed
    by openFile of that path the editor's text is what it was before, and
    the path is the current file. *)
Theorem save_then_open_keeps_text (chosen path : string) (app : App) :
  save_target (page app) chosen = Some path ->
  can_save_and_reopen (os app) path = true ->
  cr_free (editor (page app)) = true ->
  is_Some (Py.utf8_encode
             (Py.write_translate (Py.linesep (os app))
                (CodeEditor.toPlainText (editor (page app))))) ->
  CodeEditor.toPlainText
    (editor (page (snd (openFile path (snd (saveFile chosen app))))))
  = CodeEditor.toPlainText (editor (page app))
  /\ currentFile (page (snd (openFile path (snd (saveFile chosen app)))))
     = Some path.
Proof.
  intros Hp Hrw Hcr [bs Henc].
  pose proof (save_target_truthy _ _ _ Hp) as Ht.
  destruct (saveFile_opened _ _ _ Hp (can_reopen_can_open _ _ Hrw))
    as (r & w' & Hf & Hr1 & Hr2 & _ & Hsave).
  rewrite Henc in Hf, Hsave.
  assert (Hr : r = true).
  { unfold can_save_and_reopen in Hrw.
    destruct (Py.files (os app) !! path) as [[old r0 wr|]|] eqn:E;
      [|discriminate|exact (Hr2 eq_refl)].
    rewrite (Hr1 _ _ _ eq_refl). apply andb_true_iff in Hrw as [Hrw _]. exact Hrw. }
  subst r. rewrite Hsave. cbn [snd].
  set (app1 := {| page := _; os := w' |}).
  pose proof (RoundTripTheorems.slurp_file path (os app1) bs true _
                Hf (utf8_decode_encode _ _ Henc)) as Hs.
  rewrite (read_write_translate _ _ Hcr) in Hs.
  destruct (openFile_success _ _ _ Ht Hs) as (w2 & -> & _).
  cbn [snd page editor currentFile showSuccess show set_currentFile set_editor].
  split; [|reflexivity].
  cbn [app1 page editor showSuccess show]. rewrite editor_page_saving.
  apply toPlainText_setPlainText; [exact Hcr|apply toPlainText_plain].
Qed.

Lemma save_then_open_keeps_text_witness :
  CodeEditor.toPlainText
    (editor (page (snd (openFile "n.txt" (snd (saveFile "n.txt"
       (More.on_world
          (Examples.page_of [Examples.line Examples.abc; Examples.line [233%N]])
          {| Py.files := ∅; Py.creatable := fun _ => true;
             Py.linesep := Py.WindowsCRLF; Py.io_log := [] |})))))))
  = [97; 98; 99; 10; 233]%N
  /\ Py.file_bytes
       (os (snd (saveFile "n.txt"
          (More.on_world
             (Examples.page_of [Examples.line Examples.abc; Examples.line [233%N]])
             {| Py.files := ∅; Py.creatable := fun _ => true;
                Py.linesep := Py.WindowsCRLF; Py.io_log := [] |}))))
       "n.txt"
     = Some [x61; x62; x63; x0d; x0a; xc3; xa9].
Proof.
  split; [|vm_compute; reflexivity].
  exact (proj1 (save_then_open_keeps_text "n.txt" "n.txt"
           (More.on_world
              (Examples.page_of [Examples.line Examples.abc; Examples.line [233%N]])
              {| Py.files := ∅; Py.creatable := fun _ => true;
                 Py.linesep := Py.WindowsCRLF; Py.io_log := [] |})
           eq_refl eq_refl eq_refl (ex_intro _ _ eq_refl))).
Defined.

(** X8. After openFile has read a file whose bytes decode to the text s,
    the editor's text is s with every carriage return + line feed pair
    and every lone carriage return turned into a line feed, U+2028,
    U+2029, U+FDD0 and U+FDD1 turned into line feeds and U+00A0 into a
    space; the editor has one block more than that text has line feeds,
    U+2029, U+FDD0 and U+FDD1 characters;
    the caret is at the start; the path is the current file; and the
    success notification is shown. *)
Theorem openFile_shows_text
  (chosen : string) (app : App) (F : list byte) (wr : bool) (s : list N) :
  Py.truthy chosen = true ->
  Py.files (os app) !! chosen = Some (Py.File F true wr) ->
  Py.utf8_decode F = Some s ->
  CodeEditor.toPlainText (editor (page (snd (openFile chosen app))))
  = map to_plain_char (Py.read_translate s)
  /\ CodeEditor.blockCount (editor (page (snd (openFile chosen app))))
     = Z.of_nat (S (break_count (Py.read_translate s)))
  /\ CodeEditor.textCursor (editor (page (snd (openFile chosen app))))
     = {| anchor := 0; position := 0 |}
  /\ currentFile (page (snd (openFile chosen app))) = Some chosen
  /\ infoBars (page (snd (openFile chosen app)))
     = infoBars (page app) ++ [success_bar (Opened chosen)].
Proof.
  intros Ht Hf Hd.
  pose proof (RoundTripTheorems.slurp_file _ _ _ _ _ Hf Hd) as Hs.
  destruct (openFile_success _ _ _ Ht Hs) as (w' & -> & _).
  cbn [snd page editor currentFile infoBars showSuccess show set_currentFile
       set_editor].
  split; [apply toPlainText_setPlainText_gen, read_translate_no_cr|].
  split; [apply blockCount_setPlainText, read_translate_no_cr|].
  repeat split.
Qed.

Lemma openFile_shows_text_witness :
  CodeEditor.toPlainText
    (editor (page (snd (openFile "f.txt"
       (Examples.app_of
          (Examples.world_with "f.txt" [x61; x0d; x0a; x62; xc2; xa0] true true
             Py.PosixLF))))))
  = [97; 10; 98; 32]%N
  /\ CodeEditor.blockCount
       (editor (page (snd (openFile "f.txt"
          (Examples.app_of
             (Examples.world_with "f.txt" [x61; x0d; x0a; x62; xc2; xa0] true true
                Py.PosixLF))))))
     = 2.
Proof.
  destruct (openFile_shows_text "f.txt"
              (Examples.app_of
                 (Examples.world_with "f.txt" [x61; x0d; x0a; x62; xc2; xa0] true true
                    Py.PosixLF))
              [x61; x0d; x0a; x62; xc2; xa0] true [97; 13; 10; 98; 160]%N
              eq_refl eq_refl eq_refl) as (H1 & H2 & _).
  split; [exact H1|exact H2].
Defined.

(** X9. newFile leaves the editor with the empty text in a single block
    and with no current file, whatever was open before; a saveFile right
    after it, with the dialog cancelled, changes nothing: no file, no
    call to the file system, no notification. *)
Theorem newFile_forgets_file (self : t) (w : Py.World) :
  CodeEditor.toPlainText (editor (newFile self)) = []
  /\ CodeEditor.blockCount (editor (newFile self)) = 1
  /\ currentFile (newFile self) = None
  /\ infoBars (newFile self) = infoBars self ++ [success_bar NewFileCreated]
  /\ saveFile EmptyString (on_world (newFile self) w)
     = (inl tt, on_world (newFile self) w).
Proof.
  split; [reflexivity|]. split; [reflexivity|]. split; [reflexivity|].
  split; [reflexivity|]. apply saveFile_cancelled. reflexivity.
Qed.

End FileRoundTripTheorems.

(* ===================================================================== *)
(** * More about searching *)
(* ===================================================================== *)

Module SearchMoreFacts.
Import Qt EditorInterface View More SearchFacts.











End SearchMoreFacts.

Module SearchMoreTheorems.
Import Qt EditorInterface View More SearchFacts SearchMoreFacts.


Lemma editor_find_eq needle backward (e : CodeEditor.t) :
  CodeEditor.find needle backward e
  = match Qt.find (CodeEditor.document e) (CodeEditor.textCursor e) needle backward with
    | Some c =>
        (true, CodeEditor.setTextCursor c
                 (CodeEditor.log_call
                    (CodeEditor.CallFind needle backward (CodeEditor.textCursor e)) e))
    | None =>
        (false, CodeEditor.log_call
                  (CodeEditor.CallFind needle backward (CodeEditor.textCursor e)) e)
    end.
Proof. reflexivity. Qed.





Lemma editor_find_frame needle backward e :
  CodeEditor.document (snd (CodeEditor.find needle backward e))
  = CodeEditor.document e.
Proof.
  rewrite editor_find_eq. destruct (Qt.find _ _ _ _); reflexivity.
Qed.

(** X12. A search never edits: whatever the search text and wherever the
    caret, [searchNext] and [searchPrev] leave the blocks of the
    document, the search text, the current file and the zoom level as
    they were, and with an empty search text they do nothing at all. *)
Theorem search_never_edits self :
  search_frame self (searchNext self)
  /\ search_frame self (searchPrev self)
  /\ (searchEdit self = [] -> searchNext self = self /\ searchPrev self = self).
Proof.
  split; [|split].
  - unfold searchNext, search_frame. cbv zeta.
    destruct (nonempty (searchEdit self)); cbn [negb]; [|repeat split].
    destruct (CodeEditor.find (searchEdit self) false (editor self))
      as [found e] eqn:E.
    pose proof (editor_find_frame (searchEdit self) false (editor self)) as Hd.
    rewrite E in Hd. cbn [snd] in Hd.
    destruct found; cbn [negb editor set_editor searchEdit currentFile zoomLevel].
    + repeat split; assumption.
    + destruct (CodeEditor.find (searchEdit self) false
                  (CodeEditor.moveCursor Start e)) as [found' e'] eqn:E'.
      pose proof (editor_find_frame (searchEdit self) false
                    (CodeEditor.moveCursor Start e)) as Hd'.
      rewrite E' in Hd'. cbn [snd] in Hd'.
      destruct found';
        cbn [negb show editor set_editor searchEdit currentFile zoomLevel];
        (split; [rewrite Hd'; exact Hd|]);
        repeat split.
  - unfold searchPrev, search_frame. cbv zeta.
    destruct (nonempty (searchEdit self)); cbn [negb]; [|repeat split].
    destruct (CodeEditor.find (searchEdit self) true (editor self))
      as [found e] eqn:E.
    pose proof (editor_find_frame (searchEdit self) true (editor self)) as Hd.
    rewrite E in Hd. cbn [snd] in Hd.
    destruct found; cbn [negb editor set_editor searchEdit currentFile zoomLevel].
    + repeat split; assumption.
    + destruct (CodeEditor.find (searchEdit self) true
                  (CodeEditor.moveCursor End e)) as [found' e'] eqn:E'.
      pose proof (editor_find_frame (searchEdit self) true
                    (CodeEditor.moveCursor End e)) as Hd'.
      rewrite E' in Hd'. cbn [snd] in Hd'.
      cbn [editor set_editor searchEdit currentFile zoomLevel].
      (split; [rewrite Hd'; exact Hd|]);
        repeat split.
  - intros Hempty. unfold searchNext, searchPrev. cbv zeta.
    rewrite Hempty. split; reflexivity.
Qed.

End SearchMoreTheorems.

(* ===================================================================== *)
(** * More about zooming: the label and the font *)
(* ===================================================================== *)

Module ZoomMoreTheorems.
Import Qt EditorInterface View More.

Lemma fontPointSize_zoomIn self :
  CodeEditor.fontPointSize (editor (zoomIn self))
  = if CodeEditor.fontPointSize (editor self) + 1 <=? 0
    then CodeEditor.fontPointSize (editor self)
    else CodeEditor.fontPointSize (editor self) + 1.
Proof.
  unfold zoomIn, CodeEditor.zoomIn. cbn [editor set_editor set_zoomLevel set_lblZoom].
  cbn [Z.eqb]. destruct (_ <=? 0); reflexivity.
Qed.

Lemma fontPointSize_zoomOut self :
  CodeEditor.fontPointSize (editor (zoomOut self))
  = if CodeEditor.fontPointSize (editor self) - 1 <=? 0
    then CodeEditor.fontPointSize (editor self)
    else CodeEditor.fontPointSize (editor self) - 1.
Proof.
  unfold zoomOut, CodeEditor.zoomOut, CodeEditor.zoomIn.
  cbn [editor set_editor set_zoomLevel set_lblZoom Z.opp Z.eqb].
  change (CodeEditor.fontPointSize (editor self) + -1)
    with (CodeEditor.fontPointSize (editor self) - 1).
  destruct (_ <=? 0); reflexivity.
Qed.

Lemma zoomLevel_step_zoomIn self : zoomLevel (zoomIn self) = zoomLevel self + 10.
Proof. reflexivity. Qed.

Lemma zoomLevel_step_zoomOut self :
  zoomLevel (zoomOut self) = Z.max 10 (zoomLevel self - 10).
Proof. reflexivity. Qed.

Lemma lblZoom_zoomIn self : lblZoom (zoomIn self) = zoom_text (zoomLevel self + 10).
Proof. reflexivity. Qed.

Lemma lblZoom_zoomOut self :
  lblZoom (zoomOut self) = zoom_text (Z.max 10 (zoomLevel self - 10)).
Proof. reflexivity. Qed.

Ltac zoom_cases :=
  unfold zoom_font_inv, zoom_in_step, zoom_ahead in *;
  rewrite ?fontPointSize_zoomIn, ?fontPointSize_zoomOut,
    ?zoomLevel_step_zoomIn, ?zoomLevel_step_zoomOut;
  repeat match goal with
         | |- context [?a <=? 0] => destruct (Z.leb_spec a 0)
         end;
  lia.

Lemma zoom_font_inv_step self op :
  zoom_font_inv self -> zoom_font_inv (zoom_step self op).
Proof. intros H. destruct op; cbn [zoom_step]; zoom_cases. Qed.

Lemma zoom_font_inv_run ops :
  forall self, zoom_font_inv self -> zoom_font_inv (zoom_run ops self).
Proof.
  unfold zoom_run. induction ops as [|op ops IH]; intros self H; cbn [fold_left].
  - exact H.
  - apply IH, zoom_font_inv_step, H.
Qed.

Lemma zoom_ahead_step self op :
  1 <= CodeEditor.fontPointSize (editor self) -> zoom_ahead self ->
  1 <= CodeEditor.fontPointSize (editor (zoom_step self op))
  /\ zoom_ahead (zoom_step self op).
Proof. intros H1 H2. destruct op; cbn [zoom_step]; zoom_cases. Qed.

Lemma zoom_ahead_run ops :
  forall self, 1 <= CodeEditor.fontPointSize (editor self) -> zoom_ahead self ->
               zoom_ahead (zoom_run ops self).
Proof.
  unfold zoom_run. induction ops as [|op ops IH]; intros self H1 H2; cbn [fold_left].
  - exact H2.
  - destruct (zoom_ahead_step self op H1 H2) as [H1' H2']. apply IH; assumption.
Qed.

(** X13. From the page as it starts (zoom level 100, font of 11 points),
    after any sequence of zoomIn and zoomOut the font is at least one
    point large, and the level shown is ten times the point size less
    one (as at the start) or ten times the point size. *)
Theorem zoom_label_follows_font self ops :
  zoomLevel self = 100 ->
  CodeEditor.fontPointSize (editor self) = 11 ->
  1 <= CodeEditor.fontPointSize (editor (zoom_run ops self))
  /\ (zoom_in_step (zoom_run ops self) \/ zoom_ahead (zoom_run ops self)).
Proof.
  intros Hz Hp. apply zoom_font_inv_run.
  unfold zoom_font_inv, zoom_in_step. rewrite Hz, Hp. split; [lia|left; lia].
Qed.

Lemma zoom_label_follows_font_witness :
  zoomLevel (Examples.page_of []) = 100
  /\ CodeEditor.fontPointSize (editor (Examples.page_of [])) = 11
  /\ 1 <= CodeEditor.fontPointSize
            (editor (zoom_run (repeat ZoomOut 12 ++ [ZoomIn]) (Examples.page_of [])))
  /\ (zoom_in_step (zoom_run (repeat ZoomOut 12 ++ [ZoomIn]) (Examples.page_of []))
      \/ zoom_ahead (zoom_run (repeat ZoomOut 12 ++ [ZoomIn]) (Examples.page_of []))).
Proof.
  split; [reflexivity|]. split; [reflexivity|].
  exact (zoom_label_follows_font (Examples.page_of [])
           (repeat ZoomOut 12 ++ [ZoomIn]) eq_refl eq_refl).
Defined.

(** X14. A zoomOut at the level 10 shrinks the font and leaves the level
    at 10; from then on the level is ten times the point size whatever
    zoom operations follow, so the level never again stands for the font
    size it stood for before. *)
Theorem zoomOut_at_floor_shifts_label self :
  zoom_in_step self -> zoomLevel self = 10 ->
  zoomLevel (zoomOut self) = 10
  /\ CodeEditor.fontPointSize (editor (zoomOut self))
     = CodeEditor.fontPointSize (editor self) - 1
  /\ forall ops, zoom_ahead (zoom_run ops (zoomOut self)).
Proof.
  intros Hstep Hz. unfold zoom_in_step in Hstep.
  assert (Hp : CodeEditor.fontPointSize (editor self) = 2) by lia.
  assert (H1 : CodeEditor.fontPointSize (editor (zoomOut self)) = 1).
  { rewrite fontPointSize_zoomOut, Hp. reflexivity. }
  split; [rewrite zoomLevel_step_zoomOut, Hz; reflexivity|].
  split; [rewrite H1, Hp; reflexivity|].
  intros ops. apply zoom_ahead_run; [lia|].
  unfold zoom_ahead. rewrite H1, zoomLevel_step_zoomOut, Hz. reflexivity.
Qed.

(** Nine zoomOut from the start lead to the level 10 in step; after the
    tenth the level 100, reached again by nine zoomIn, goes with a font
    of 10 points, not 11. *)
Lemma zoomOut_at_floor_shifts_label_witness :
  zoom_in_step (zoom_run (repeat ZoomOut 9) (Examples.page_of []))
  /\ zoomLevel (zoom_run (repeat ZoomOut 9) (Examples.page_of [])) = 10
  /\ zoom_ahead (zoom_run (repeat ZoomIn 9)
                   (zoomOut (zoom_run (repeat ZoomOut 9) (Examples.page_of []))))
  /\ zoomLevel (zoom_run (repeat ZoomIn 9)
                  (zoomOut (zoom_run (repeat ZoomOut 9) (Examples.page_of []))))
     = 100
  /\ CodeEditor.fontPointSize
       (editor (zoom_run (repeat ZoomIn 9)
                  (zoomOut (zoom_run (repeat ZoomOut 9) (Examples.page_of [])))))
     = 10.
Proof.
  assert (Hstep : zoom_in_step (zoom_run (repeat ZoomOut 9) (Examples.page_of [])))
    by (vm_compute; reflexivity).
  assert (Hz : zoomLevel (zoom_run (repeat ZoomOut 9) (Examples.page_of [])) = 10)
    by (vm_compute; reflexivity).
  split; [exact Hstep|]. split; [exact Hz|].
  split; [|split; vm_compute; reflexivity].
  exact (proj2 (proj2 (zoomOut_at_floor_shifts_label
                         (zoom_run (repeat ZoomOut 9) (Examples.page_of []))
                         Hstep Hz))
           (repeat ZoomIn 9)).
Defined.

(** X15. From a level of at least 10 and a font of at least one point,
    zoomOut after zoomIn gives back the level and the point size, and
    the label shows the level. *)
Theorem zoomOut_undoes_zoomIn self :
  10 <= zoomLevel self ->
  1 <= CodeEditor.fontPointSize (editor self) ->
  zoomLevel (zoomOut (zoomIn self)) = zoomLevel self
  /\ CodeEditor.fontPointSize (editor (zoomOut (zoomIn self)))
     = CodeEditor.fontPointSize (editor self)
  /\ lblZoom (zoomOut (zoomIn self)) = zoom_text (zoomLevel self).
Proof.
  intros Hz Hp.
  assert (HL : zoomLevel (zoomOut (zoomIn self)) = zoomLevel self).
  { rewrite zoomLevel_step_zoomOut, zoomLevel_step_zoomIn. lia. }
  split; [exact HL|]. split.
  - rewrite fontPointSize_zoomOut, fontPointSize_zoomIn.
    repeat match goal with
           | |- context [?a <=? 0] => destruct (Z.leb_spec a 0)
           end; lia.
  - rewrite lblZoom_zoomOut, zoomLevel_step_zoomIn. f_equal. lia.
Qed.

Lemma zoomOut_undoes_zoomIn_witness :
  10 <= zoomLevel (Examples.page_of [])
  /\ 1 <= CodeEditor.fontPointSize (editor (Examples.page_of []))
  /\ zoomLevel (zoomOut (zoomIn (Examples.page_of []))) = 100
  /\ CodeEditor.fontPointSize (editor (zoomOut (zoomIn (Examples.page_of [])))) = 11
  /\ lblZoom (zoomOut (zoomIn (Examples.page_of []))) = zoom_text 100.
Proof.
  split; [cbn; lia|]. split; [cbn; lia|].
  apply (zoomOut_undoes_zoomIn (Examples.page_of [])); cbn; lia.
Defined.

End ZoomMoreTheorems.

(* ===================================================================== *)
(** * More about the gutter: what is painted, and when it fits *)
(* ===================================================================== *)

Module PaintMoreFacts.
Import Qt CodeEditor View.

(** The loop sends draw-text calls and nothing else. *)
Lemma paint_loop_only_draws self rect block :
  forall index blockNumber top bottom,
    paint_loop self rect block index blockNumber top bottom
    = map DrawTextOp (drawn (paint_loop self rect block index blockNumber top bottom)).
Proof.
  induction block as [|b next IH]; intros index blockNumber top bottom;
    cbn [paint_loop]; [reflexivity|]. cbv zeta.
  destruct (Qle_bool top _); [|reflexivity].
  rewrite PaintFacts.drawn_app, map_app, <- IH.
  destruct (isVisible b && _); reflexivity.
Qed.

(** Every call of the loop is for a block at or after the one the loop is
    at, and the calls are in the order of the blocks, none twice. *)
Lemma paint_loop_ascending self rect block :
  forall index blockNumber top bottom,
    Forall (fun d => (index <= for_block d)%nat)
           (drawn (paint_loop self rect block index blockNumber top bottom))
    /\ StronglySorted lt
         (map for_block (drawn (paint_loop self rect block index blockNumber top bottom))).
Proof.
  induction block as [|b next IH]; intros index blockNumber top bottom;
    cbn [paint_loop].
  - split; constructor.
  - cbv zeta. destruct (Qle_bool top _); [|split; constructor].
    destruct (IH (S index) (blockNumber + 1) bottom
                 (bottom + blockBoundingRect_height next)%Q) as [Hge Hsorted].
    assert (Hge' : Forall (fun d => (index <= for_block d)%nat)
                     (drawn (paint_loop self rect next (S index) (blockNumber + 1)
                               bottom (bottom + blockBoundingRect_height next)%Q))).
    { eapply List.Forall_impl; [|exact Hge]. cbn. intros d Hd. lia. }
    rewrite PaintFacts.drawn_app.
    destruct (isVisible b && _); cbn [drawn app map].
    + split.
      * constructor; [cbn; lia|exact Hge'].
      * constructor; [exact Hsorted|].
        apply List.Forall_map. eapply List.Forall_impl; [|exact Hge].
        cbn. intros d Hd. lia.
    + split; assumption.
Qed.

End PaintMoreFacts.

Module PaintMoreTheorems.
Import Qt CodeEditor View Spec PaintFacts PaintMoreFacts StrFacts GutterWidthFacts.

(** X16. A gutter repaint is one fill of the repainted rectangle, one pen,
    the font Consolas of 10 points, and then draw-text calls only; the
    calls come in the order of the blocks and no block is drawn twice;
    the theme changes colours, not what is drawn. *)
Theorem paint_event_structure (theme : Theme) (rect : QRect) (self : CodeEditor.t) :
  (exists bg pen,
      lineNumberAreaPaintEvent theme rect self
      = FillRect rect bg :: SetPen pen :: SetFont "Consolas" 10
        :: map DrawTextOp (drawn (lineNumberAreaPaintEvent theme rect self)))
  /\ StronglySorted lt
       (map for_block (drawn (lineNumberAreaPaintEvent theme rect self)))
  /\ drawn (lineNumberAreaPaintEvent theme rect self)
     = drawn (lineNumberAreaPaintEvent LIGHT rect self).
Proof.
  unfold lineNumberAreaPaintEvent. cbv zeta.
  rewrite !drawn_app. cbn [drawn app].
  split; [|split].
  - eexists. eexists. rewrite <- paint_loop_only_draws. reflexivity.
  - apply paint_loop_ascending.
  - reflexivity.
Qed.

(** X17. When the digits of the font the gutter paints with all advance
    by the same amount, and by no more than the '9' of the editor's
    font, every number drawn after a resize fits its box, with at least
    16 pixels left of it. *)
Theorem gutter_holds_numbers
  (paint : QFontMetrics) (p : Z) (theme : Theme) (rect : QRect)
  (self : CodeEditor.t) (d : DrawText) :
  (forall c, is_digit c = true -> horizontalAdvance paint c = p) ->
  0 <= p <= horizontalAdvance (fontMetrics self) "9"%char ->
  In d (drawn (lineNumberAreaPaintEvent theme rect (resizeEvent self))) ->
  text_advance paint (draw_text d) + 16 <= draw_w d
  /\ clipped paint d = false.
Proof.
  intros Hfix Hp Hin.
  apply paint_event_drawn in Hin as (n & ((b & Hb & _) & _) & ->).
  change (document (resizeEvent self)) with (document self) in Hb.
  change (firstVisibleBlock (resizeEvent self)) with (firstVisibleBlock self) in Hb.
  apply lookup_lt_Some in Hb.
  assert (Hfit : text_advance paint (draw_text (number_drawn (resizeEvent self) n)) + 16
                 <= draw_w (number_drawn (resizeEvent self) n)).
  { change (draw_w (number_drawn (resizeEvent self) n))
      with (lineNumberAreaWidth self - 8).
    change (draw_text (number_drawn (resizeEvent self) n))
      with (Py.str (Z.of_nat (firstVisibleBlock self + n) + 1)).
    rewrite (str_advance_fixed paint p _ Hfix) by lia.
    rewrite numeral_length_count_digits by lia.
    unfold lineNumberAreaWidth, lineNumberAreaWidth_of, blockCount. cbv zeta.
    pose proof (count_digits_mono (Z.of_nat (firstVisibleBlock self + n) + 1)
                  (Z.max 1 (Z.of_nat (length (document self)))) ltac:(lia)) as Hmono.
    pose proof (count_digits_bounds (Z.of_nat (firstVisibleBlock self + n) + 1)
                  ltac:(lia) 1) as (Hd & _).
    nia. }
  split; [exact Hfit|]. unfold clipped. apply Z.ltb_ge.
  assert (0 <= 16) by lia. lia.
Qed.

(** Three lines in the font the editor starts with (8 pixels a glyph);
    the gutter paints with glyphs of 7 pixels. *)
Lemma gutter_holds_numbers_witness :
  In (number_drawn (resizeEvent (Examples.editor_of (map Examples.line [[]; []; []]))) 1)
     (drawn (lineNumberAreaPaintEvent LIGHT {| rect_top := 0; rect_height := 40 |}
               (resizeEvent (Examples.editor_of (map Examples.line [[]; []; []])))))
  /\ text_advance Examples.consolas_10
       (draw_text (number_drawn
                     (resizeEvent (Examples.editor_of (map Examples.line [[]; []; []]))) 1))
     + 16
     <= draw_w (number_drawn
                  (resizeEvent (Examples.editor_of (map Examples.line [[]; []; []]))) 1)
  /\ clipped Examples.consolas_10
       (number_drawn (resizeEvent (Examples.editor_of (map Examples.line [[]; []; []]))) 1)
     = false.
Proof.
  assert (Hin : In (number_drawn
                      (resizeEvent (Examples.editor_of (map Examples.line [[]; []; []]))) 1)
     (drawn (lineNumberAreaPaintEvent LIGHT {| rect_top := 0; rect_height := 40 |}
               (resizeEvent (Examples.editor_of (map Examples.line [[]; []; []])))))).
  { vm_compute. right. left. reflexivity. }
  split; [exact Hin|].
  apply (gutter_holds_numbers Examples.consolas_10 7 LIGHT
           {| rect_top := 0; rect_height := 40 |}
           (Examples.editor_of (map Examples.line [[]; []; []])) _
           (fun _ _ => eq_refl)); [cbn; lia|exact Hin].
Defined.

End PaintMoreTheorems.

(* ===================================================================== *)
(** * The status bar and the icons *)
(* ===================================================================== *)

Module StatusFacts.
Import Qt View HighlightTheorems.





End StatusFacts.

Module StatusTheorems.
Import Qt EditorInterface View StatusFacts.



End StatusTheorems.

Module IconTheorems.
Import Icons.

(** X19. [get_icon] gives the first of the attributes [name],
    [fallback_name] and [EDIT] that the icon class has, and raises only
    when it has none of the three; with the default fallback [EDIT] it
    raises exactly when neither [name] nor [EDIT] is an attribute. *)
Theorem get_icon_first_present {A} (FIF : gmap string A) (name fallback_name : string) :
  (forall i, FIF !! name = Some i -> get_icon FIF name fallback_name = Some i)
  /\ (forall i, FIF !! name = None -> FIF !! fallback_name = Some i ->
                get_icon FIF name fallback_name = Some i)
  /\ (get_icon FIF name fallback_name = None
      <-> FIF !! name = None /\ FIF !! fallback_name = None
          /\ FIF !! "EDIT"%string = None)
  /\ (get_icon FIF name "EDIT" = None
      <-> FIF !! name = None /\ FIF !! "EDIT"%string = None).
Proof.
  unfold get_icon, hasattr.
  destruct (FIF !! name) as [a|] eqn:En, (FIF !! fallback_name) as [b|] eqn:Ef,
        (FIF !! "EDIT"%string) as [c|] eqn:Ee;
    repeat split; try congruence; try tauto;
    try (intros (? & ?); congruence); try (intros (? & ? & ?); congruence).
Qed.

End IconTheorems.
